(** * Incremental lakehouse: orchestrator, extract / refine transforms and
      quality checks, embedded from the notebooks of the repository.

    - [Orchestrator]: [pipelines/run_sales_analytics.py] and
      [pipelines/run_supplier_analytics.py] (the [results] dict, [run_stage],
      the gates between stage groups and the pipeline summary).
    - [Context]: [pipelines/_context.py] (environment check, config file or
      inline defaults, the six context variables).
    - [Sql]: the fragment of Spark SQL the notebooks are written in
      (three-valued logic, nullable columns, NULLIF, ROUND, windows, the
      INSERT OVERWRITE into typed DECIMAL columns).
    - [Extract], [Refined], [Quality]: the staged temporary views of the
      extract and refined notebooks, the silver columns of
      [schemas/create_refined_schemas.py] and the checks of
      [tests/data_quality_checks.py]. *)

From Stdlib Require Import ZArith List String Ascii Bool Lia Permutation.
From Stdlib Require Import QArith Qabs Qround DecimalString.
Import ListNotations.
Open Scope string_scope.
Open Scope Z_scope.

Set Implicit Arguments.

(* ===================================================================== *)
(** ** Python values used by the pipeline notebooks                       *)
(* ===================================================================== *)

Module Py.

(** [str(n)] for a non-negative int. *)
Definition str_of_nat (n : nat) : string :=
  NilEmpty.string_of_uint (Nat.to_uint n).

(** [repr] of a [str] made of plain identifier characters (no quote, no
    backslash): the text between single quotes. Every stage key of the two
    pipelines is such a string. *)
Definition repr_str (s : string) : string := "'" ++ s ++ "'".

Fixpoint join (sep : string) (l : list string) : string :=
  match l with
  | [] => ""
  | [x] => x
  | x :: tl => x ++ sep ++ join sep tl
  end.

(** [repr] of a list of such strings, as an f-string shows [list(d.keys())]. *)
Definition repr_list (l : list string) : string :=
  "[" ++ join ", " (map repr_str l) ++ "]".

(** What an f-string shows for [d.get(k)]: the text, or [None]. *)
Definition fmt_opt (o : option string) : string :=
  match o with
  | Some s => s
  | None => "None"
  end.

(** [s[:n]]. *)
Definition slice_to (n : nat) (s : string) : string := substring 0 n s.

(** [s.startswith(p)]. *)
Definition startswith (s p : string) : bool := prefix p s.

(** [needle in haystack] for two [str]. *)
Fixpoint contains (needle haystack : string) : bool :=
  prefix needle haystack
  || match haystack with
     | EmptyString => false
     | String _ tl => contains needle tl
     end.

(** An insertion-ordered [dict] with [str] keys. *)
Section Dict.
Variable V : Type.

Definition dict := list (string * V).

Fixpoint get (k : string) (d : dict) : option V :=
  match d with
  | [] => None
  | (k', v) :: tl => if String.eqb k k' then Some v else get k tl
  end.

(** [d[k] = v]: an existing key keeps its position. *)
Fixpoint set (k : string) (v : V) (d : dict) : dict :=
  match d with
  | [] => [(k, v)]
  | (k', v') :: tl =>
      if String.eqb k k' then (k', v) :: tl else (k', v') :: set k v tl
  end.

Definition keys (d : dict) : list string := map fst d.
End Dict.

End Py.

(* ===================================================================== *)
(** ** The pipeline orchestrator                                          *)
(* ===================================================================== *)

Module Orchestrator.

Inductive Status := SUCCESS | FAILED.

(** The dict [run_stage] returns: ["status"], ["elapsed"], and ["error"]
    only on failure. Times are in hundredths of a second, the precision
    [round(..., 2)] keeps. *)
Record StageResult := {
  status : Status;
  elapsed : Z;
  error : option string
}.

Definition is_failed (v : StageResult) : bool :=
  match status v with FAILED => true | SUCCESS => false end.

Inductive exn :=
| RuntimeError (msg : string)
| KeyError (key : string).

Inductive res (A : Type) :=
| Ok (a : A)
| Raise (e : exn).
Arguments Ok {A} a.
Arguments Raise {A} e.

(** Lines the notebook prints, with the values they show. The rules drawn
    around them, the run banner (pipeline name, run id, environment) and the
    duration line of the summary carry no value the run depends on and are
    left out. *)
Inductive Printed :=
| PStage (description notebook_path : string)
| PCompleted (elapsed : Z)
| PFailed (elapsed : Z) (shown : string)
| PRow (stage icon : string) (elapsed : Z)
| PResult (text : string).

(** What the run cannot decide: the child notebooks and the clock.
    [notebook_run path timeout args] is [inr v] when
    [dbutils.notebook.run] returns [v] and [inl t] when it raises an
    [Exception] [e] with [str(e) = t]. [time_time n] is the [n]-th reading
    of the clock. *)
Record World := {
  notebook_run : string -> Z -> list (string * string) -> string + string;
  time_time : nat -> Z;
  COMMON_ARGS : list (string * string)
}.

Record State := {
  results : Py.dict StageResult;
  ticks : nat;
  calls : list string;
  stdout : list Printed
}.

Definition init : State :=
  {| results := []; ticks := 0; calls := []; stdout := [] |}.

Definition M (A : Type) := State -> State * res A.

Definition ret {A} (a : A) : M A := fun s => (s, Ok a).

Definition bind {A B} (m : M A) (f : A -> M B) : M B :=
  fun s =>
    match m s with
    | (s', Ok a) => f a s'
    | (s', Raise e) => (s', Raise e)
    end.

Definition raise {A} (e : exn) : M A := fun s => (s, Raise e).

Declare Scope py_scope.
Delimit Scope py_scope with py.
Notation "x <- m ;; k" := (bind m (fun x => k))
  (at level 61, m at next level, right associativity) : py_scope.
Notation "m ;; k" := (bind m (fun _ => k))
  (at level 61, right associativity) : py_scope.
Local Open Scope py_scope.

Definition get_results : M (Py.dict StageResult) :=
  fun s => (s, Ok (results s)).

Definition print (p : Printed) : M unit :=
  fun s => ({| results := results s; ticks := ticks s; calls := calls s;
               stdout := stdout s ++ [p] |}, Ok tt).

Section Run.
Variable w : World.

(** [time.time()] *)
Definition now : M Z :=
  fun s => ({| results := results s; ticks := S (ticks s);
               calls := calls s; stdout := stdout s |},
            Ok (time_time w (ticks s))).

(** [dbutils.notebook.run(path, timeout, COMMON_ARGS)] inside [try]. *)
Definition dbutils_notebook_run (path : string) (timeout : Z)
  : M (string + string) :=
  fun s => ({| results := results s; ticks := ticks s;
               calls := calls s ++ [path]; stdout := stdout s |},
            Ok (notebook_run w path timeout (COMMON_ARGS w))).

Definition run_stage (notebook_path description : string)
           (timeout_seconds : Z) : M StageResult :=
  start <- now ;;
  print (PStage description notebook_path) ;;
  r <- dbutils_notebook_run notebook_path timeout_seconds ;;
  match r with
  | inr _ =>
      t <- now ;;
      let elapsed := t - start in
      print (PCompleted elapsed) ;;
      ret {| status := SUCCESS; elapsed := elapsed; error := None |}
  | inl e =>
      t <- now ;;
      let elapsed := t - start in
      print (PFailed elapsed (Py.slice_to 200 e)) ;;
      ret {| status := FAILED; elapsed := elapsed; error := Some e |}
  end.

(** [results[k] = run_stage(path, description)] *)
Definition assign (k : string) (m : M StageResult) : M unit :=
  v <- m ;;
  fun s => ({| results := Py.set k v (results s); ticks := ticks s;
               calls := calls s; stdout := stdout s |}, Ok tt).

(** [for x in l: body(x)] *)
Fixpoint for_each {A} (l : list A) (body : A -> M unit) : M unit :=
  match l with
  | [] => ret tt
  | x :: tl => body x ;; for_each tl body
  end.

(** [results[k]] *)
Definition subscript (k : string) : M StageResult :=
  rs <- get_results ;;
  match Py.get k rs with
  | Some v => ret v
  | None => raise (KeyError k)
  end.

(** The summary cell shared by both notebooks. *)
Definition failed_of (rs : Py.dict StageResult) : Py.dict StageResult :=
  filter (fun kv => is_failed (snd kv)) rs.

Definition pipeline_summary : M unit :=
  rs <- get_results ;;
  let failed := failed_of rs in
  for_each rs (fun kv =>
    let icon := match status (snd kv) with
                | SUCCESS => "OK"
                | FAILED => "FAIL"
                end in
    print (PRow (fst kv) icon (elapsed (snd kv)))) ;;
  print (PResult (match failed with
                  | [] => "SUCCESS"
                  | _ => "FAILED (" ++ Py.str_of_nat (List.length failed)
                         ++ " failures)"
                  end)) ;;
  match failed with
  | [] => ret tt
  | _ => raise (RuntimeError ("Pipeline finished with failures: "
                              ++ Py.repr_list (Py.keys failed)))
  end.

(** [pipelines/run_sales_analytics.py] *)
Definition sales_timeout : Z := 3600.

Definition run_sales_analytics : M unit :=
  let run_stage p d := run_stage p d sales_timeout in
  (* 1 - Schema DDL *)
  assign "schema_bronze" (run_stage "../schemas/create_extract_schemas" "Create Bronze Schema + Tables") ;;
  assign "schema_silver" (run_stage "../schemas/create_refined_schemas" "Create Silver Schema + Tables") ;;
  assign "schema_gold" (run_stage "../schemas/create_views_schemas" "Create Gold Schema") ;;
  (rs <- get_results ;;
   for_each rs (fun kv =>
     if is_failed (snd kv)
     then raise (RuntimeError ("Schema setup failed at '" ++ fst kv ++ "': "
                               ++ Py.fmt_opt (error (snd kv))))
     else ret tt)) ;;
  (* 2 - Extract (Bronze) *)
  assign "ext_nation_region" (run_stage "../extract/extract_nation_region" "Extract Nation & Region") ;;
  assign "ext_customers" (run_stage "../extract/extract_customers" "Extract Customers") ;;
  assign "ext_suppliers" (run_stage "../extract/extract_suppliers" "Extract Suppliers") ;;
  assign "ext_parts" (run_stage "../extract/extract_parts" "Extract Parts & PartSupp") ;;
  assign "ext_orders" (run_stage "../extract/extract_orders" "Extract Orders") ;;
  assign "ext_lineitem" (run_stage "../extract/extract_lineitem" "Extract Line Items") ;;
  for_each ["ext_orders"; "ext_lineitem"] (fun critical =>
    v <- subscript critical ;;
    if is_failed v
    then raise (RuntimeError ("Critical extract failed: " ++ critical))
    else ret tt) ;;
  (* 3 - Refined (Silver) *)
  assign "ref_order_details" (run_stage "../refined/refined_order_details" "Refined Order Details") ;;
  assign "ref_customer_orders" (run_stage "../refined/refined_customer_orders" "Refined Customer Orders (RFM)") ;;
  (rs <- get_results ;;
   for_each rs (fun kv =>
     if Py.startswith (fst kv) "ref_" && is_failed (snd kv)
     then raise (RuntimeError ("Refined stage failed: " ++ fst kv))
     else ret tt)) ;;
  (* 4 - Views (Gold) *)
  assign "vw_revenue" (run_stage "../views/vw_revenue_by_region" "View: Revenue by Region") ;;
  assign "vw_clv" (run_stage "../views/vw_customer_lifetime_value" "View: Customer Lifetime Value") ;;
  assign "vw_trends" (run_stage "../views/vw_monthly_sales_trends" "View: Monthly Sales Trends") ;;
  (* 5 - Data Quality Checks *)
  assign "quality" (run_stage "../tests/data_quality_checks" "Data Quality Checks") ;;
  pipeline_summary.

(** [pipelines/run_supplier_analytics.py] *)
Definition supplier_timeout : Z := 1800.

Definition run_supplier_analytics : M unit :=
  let run_stage p d := run_stage p d supplier_timeout in
  (* 1 - Schema DDL *)
  assign "schema_bronze" (run_stage "../schemas/create_extract_schemas" "Create Bronze Schema + Tables") ;;
  assign "schema_silver" (run_stage "../schemas/create_refined_schemas" "Create Silver Schema + Tables") ;;
  assign "schema_gold" (run_stage "../schemas/create_views_schemas" "Create Gold Schema") ;;
  (rs <- get_results ;;
   for_each rs (fun kv =>
     if is_failed (snd kv)
     then raise (RuntimeError ("Schema setup failed: " ++ fst kv))
     else ret tt)) ;;
  (* 2 - Extract (Bronze) *)
  assign "ext_nation_region" (run_stage "../extract/extract_nation_region" "Extract Nation & Region") ;;
  assign "ext_suppliers" (run_stage "../extract/extract_suppliers" "Extract Suppliers") ;;
  assign "ext_parts" (run_stage "../extract/extract_parts" "Extract Parts & PartSupp") ;;
  assign "ext_orders" (run_stage "../extract/extract_orders" "Extract Orders") ;;
  assign "ext_lineitem" (run_stage "../extract/extract_lineitem" "Extract Line Items") ;;
  for_each ["ext_suppliers"; "ext_parts"] (fun critical =>
    v <- subscript critical ;;
    if is_failed v
    then raise (RuntimeError ("Critical extract failed: " ++ critical))
    else ret tt) ;;
  (* 3 - Refined (Silver) *)
  assign "ref_order_details" (run_stage "../refined/refined_order_details" "Refined Order Details") ;;
  assign "ref_supplier_parts" (run_stage "../refined/refined_supplier_parts" "Refined Supplier Parts") ;;
  (rs <- get_results ;;
   for_each rs (fun kv =>
     if Py.startswith (fst kv) "ref_" && is_failed (snd kv)
     then raise (RuntimeError ("Refined stage failed: " ++ fst kv))
     else ret tt)) ;;
  (* 4 - Views (Gold) *)
  assign "vw_supplier" (run_stage "../views/vw_supplier_performance" "View: Supplier Performance") ;;
  (* 5 - Data Quality Checks *)
  assign "quality" (run_stage "../tests/data_quality_checks" "Data Quality Checks") ;;
  pipeline_summary.

(** *** The same two notebooks as tables

    Each notebook is a sequence of stage groups; a group is the list of
    its [results[k] = run_stage(path, description)] lines followed by the
    loop that gates the next group. *)

Record StageDecl := {
  sd_key : string;
  sd_path : string;
  sd_desc : string
}.

Inductive Gate :=
| GateItems (sel : string -> bool) (msg : string -> StageResult -> string)
    (* for k, v in results.items(): if sel(k) and FAILED: raise *)
| GateKeys (ks : list string) (msg : string -> string)
    (* for critical in ks: if results[critical] FAILED: raise *)
| GateNone.

Record Group := {
  g_stages : list StageDecl;
  g_gate : Gate
}.

Definition run_gate (g : Gate) : M unit :=
  match g with
  | GateItems sel msg =>
      rs <- get_results ;;
      for_each rs (fun kv =>
        if sel (fst kv) && is_failed (snd kv)
        then raise (RuntimeError (msg (fst kv) (snd kv)))
        else ret tt)
  | GateKeys ks msg =>
      for_each ks (fun critical =>
        v <- subscript critical ;;
        if is_failed v
        then raise (RuntimeError (msg critical))
        else ret tt)
  | GateNone => ret tt
  end.

Section Table.
Variable timeout : Z.

Fixpoint run_stages_then (sts : list StageDecl) (k : M unit) : M unit :=
  match sts with
  | [] => k
  | st :: tl =>
      assign (sd_key st) (run_stage (sd_path st) (sd_desc st) timeout) ;;
      run_stages_then tl k
  end.

Fixpoint run_groups_then (gs : list Group) (k : M unit) : M unit :=
  match gs with
  | [] => k
  | g :: tl =>
      run_stages_then (g_stages g)
        (match g_gate g with
         | GateNone => run_groups_then tl k
         | gate => run_gate gate ;; run_groups_then tl k
         end)
  end.
End Table.

End Run.

Definition stage (k p d : string) : StageDecl :=
  {| sd_key := k; sd_path := p; sd_desc := d |}.

Definition schema_stages : list StageDecl :=
  [ stage "schema_bronze" "../schemas/create_extract_schemas" "Create Bronze Schema + Tables";
    stage "schema_silver" "../schemas/create_refined_schemas" "Create Silver Schema + Tables";
    stage "schema_gold" "../schemas/create_views_schemas" "Create Gold Schema" ].

Definition ref_gate : Gate :=
  GateItems (fun k => Py.startswith k "ref_")
            (fun k _ => "Refined stage failed: " ++ k).

Definition extract_gate (ks : list string) : Gate :=
  GateKeys ks (fun critical => "Critical extract failed: " ++ critical).

Definition sales_groups : list Group :=
  [ {| g_stages := schema_stages;
       g_gate := GateItems (fun _ => true)
                   (fun k v => "Schema setup failed at '" ++ k ++ "': "
                               ++ Py.fmt_opt (error v)) |};
    {| g_stages :=
         [ stage "ext_nation_region" "../extract/extract_nation_region" "Extract Nation & Region";
           stage "ext_customers" "../extract/extract_customers" "Extract Customers";
           stage "ext_suppliers" "../extract/extract_suppliers" "Extract Suppliers";
           stage "ext_parts" "../extract/extract_parts" "Extract Parts & PartSupp";
           stage "ext_orders" "../extract/extract_orders" "Extract Orders";
           stage "ext_lineitem" "../extract/extract_lineitem" "Extract Line Items" ];
       g_gate := extract_gate ["ext_orders"; "ext_lineitem"] |};
    {| g_stages :=
         [ stage "ref_order_details" "../refined/refined_order_details" "Refined Order Details";
           stage "ref_customer_orders" "../refined/refined_customer_orders" "Refined Customer Orders (RFM)" ];
       g_gate := ref_gate |};
    {| g_stages :=
         [ stage "vw_revenue" "../views/vw_revenue_by_region" "View: Revenue by Region";
           stage "vw_clv" "../views/vw_customer_lifetime_value" "View: Customer Lifetime Value";
           stage "vw_trends" "../views/vw_monthly_sales_trends" "View: Monthly Sales Trends" ];
       g_gate := GateNone |};
    {| g_stages :=
         [ stage "quality" "../tests/data_quality_checks" "Data Quality Checks" ];
       g_gate := GateNone |} ].

Definition supplier_groups : list Group :=
  [ {| g_stages := schema_stages;
       g_gate := GateItems (fun _ => true)
                   (fun k _ => "Schema setup failed: " ++ k) |};
    {| g_stages :=
         [ stage "ext_nation_region" "../extract/extract_nation_region" "Extract Nation & Region";
           stage "ext_suppliers" "../extract/extract_suppliers" "Extract Suppliers";
           stage "ext_parts" "../extract/extract_parts" "Extract Parts & PartSupp";
           stage "ext_orders" "../extract/extract_orders" "Extract Orders";
           stage "ext_lineitem" "../extract/extract_lineitem" "Extract Line Items" ];
       g_gate := extract_gate ["ext_suppliers"; "ext_parts"] |};
    {| g_stages :=
         [ stage "ref_order_details" "../refined/refined_order_details" "Refined Order Details";
           stage "ref_supplier_parts" "../refined/refined_supplier_parts" "Refined Supplier Parts" ];
       g_gate := ref_gate |};
    {| g_stages :=
         [ stage "vw_supplier" "../views/vw_supplier_performance" "View: Supplier Performance" ];
       g_gate := GateNone |};
    {| g_stages :=
         [ stage "quality" "../tests/data_quality_checks" "Data Quality Checks" ];
       g_gate := GateNone |} ].

Inductive Pipeline := SalesAnalytics | SupplierAnalytics.

Definition pipeline_groups (p : Pipeline) : list Group :=
  match p with
  | SalesAnalytics => sales_groups
  | SupplierAnalytics => supplier_groups
  end.

Definition pipeline_timeout (p : Pipeline) : Z :=
  match p with
  | SalesAnalytics => sales_timeout
  | SupplierAnalytics => supplier_timeout
  end.

(** One run of a pipeline notebook, from the empty [results]. *)
Definition run_pipeline (p : Pipeline) (w : World) : State * res unit :=
  match p with
  | SalesAnalytics => run_sales_analytics w init
  | SupplierAnalytics => run_supplier_analytics w init
  end.

(** *** Notions the properties of a run are stated with *)

(** A stage is critical when the gate that follows its group checks it. *)
Definition critical (g : Group) (k : string) : bool :=
  match g_gate g with
  | GateItems sel _ => sel k
  | GateKeys ks _ => existsb (String.eqb k) ks
  | GateNone => false
  end.

Definition failed_at (rs : Py.dict StageResult) (k : string) : bool :=
  match Py.get k rs with
  | Some v => is_failed v
  | None => false
  end.

(** The critical stages of a group recorded FAILED, in declaration order. *)
Definition failing_critical (g : Group) (rs : Py.dict StageResult)
  : list string :=
  filter (fun k => critical g k && failed_at rs k)
         (map sd_key (g_stages g)).

(** The text a gate raises with for stage [k] recorded as [v]. *)
Definition gate_message (g : Gate) (k : string) (v : StageResult) : string :=
  match g with
  | GateItems _ msg => msg k v
  | GateKeys _ msg => msg k
  | GateNone => ""
  end.

(** The stage groups before [g] ran and none of their gates fired. *)
Definition reaches (p : Pipeline) (w : World) (pre : list Group)
           (s1 : State) : Prop :=
  run_groups_then w (pipeline_timeout p) pre (ret tt) init = (s1, Ok tt).

(** The state once the stages of [g] have run from [s1]. *)
Definition after_group (p : Pipeline) (w : World) (g : Group)
           (s1 : State) : State :=
  fst (run_stages_then w (pipeline_timeout p) (g_stages g) (ret tt) s1).

(** The overall status the summary shows for a [results] dict. *)
Definition overall_status (rs : Py.dict StageResult) : Status :=
  match failed_of rs with
  | [] => SUCCESS
  | _ => FAILED
  end.

(** A message enumerates a list of stage names. *)
Definition enumerates (msg : string) (names : list string) : Prop :=
  forall k, In k names -> Py.contains k msg = true.

(** What a gate decides on a given [results], as a function. *)
Fixpoint keys_check (msg : string -> string) (ks : list string)
         (rs : Py.dict StageResult) : option exn :=
  match ks with
  | [] => None
  | k :: tl =>
      match Py.get k rs with
      | None => Some (KeyError k)
      | Some v =>
          if is_failed v then Some (RuntimeError (msg k))
          else keys_check msg tl rs
      end
  end.

Definition gate_check (g : Gate) (rs : Py.dict StageResult) : option exn :=
  match g with
  | GateItems sel msg =>
      option_map (fun kv => RuntimeError (msg (fst kv) (snd kv)))
                 (find (fun kv => sel (fst kv) && is_failed (snd kv)) rs)
  | GateKeys ks msg => keys_check msg ks rs
  | GateNone => None
  end.

(** Keys of a dict after [d[k] = v]. *)
Definition add_key (ks : list string) (k : string) : list string :=
  if existsb (String.eqb k) ks then ks else ks ++ [k].

Fixpoint list_eqb (a b : list string) : bool :=
  match a, b with
  | [], [] => true
  | x :: a', y :: b' => String.eqb x y && list_eqb a' b'
  | _, _ => false
  end.

Fixpoint nodupb (l : list string) : bool :=
  match l with
  | [] => true
  | x :: tl => negb (existsb (String.eqb x) tl) && nodupb tl
  end.

(** A gate only ever looks at stages of its own group, in the order they
    are declared, and every key it subscripts has been assigned. *)
Definition gate_scoped (g : Group) (seen : list string) : bool :=
  let gkeys := map sd_key (g_stages g) in
  match g_gate g with
  | GateItems sel _ => list_eqb (filter sel seen) (filter sel gkeys)
  | GateKeys ks _ =>
      list_eqb ks (filter (fun k => existsb (String.eqb k) ks) gkeys)
      && forallb (fun k => existsb (String.eqb k) seen) ks
  | GateNone => true
  end.

Fixpoint well_gated (seen : list string) (gs : list Group) : bool :=
  match gs with
  | [] => true
  | g :: tl =>
      let seen' := fold_left add_key (map sd_key (g_stages g)) seen in
      nodupb seen' && gate_scoped g seen' && well_gated seen' tl
  end.

Definition all_paths (gs : list Group) : list string :=
  flat_map (fun g => map sd_path (g_stages g)) gs.

(** The [StageResult] [run_stage] returns when started in state [s]. *)
Definition recorded (w : World) (path : string) (timeout : Z) (s : State)
  : StageResult :=
  let el := time_time w (S (ticks s)) - time_time w (ticks s) in
  match notebook_run w path timeout (COMMON_ARGS w) with
  | inr _ => {| status := SUCCESS; elapsed := el; error := None |}
  | inl e => {| status := FAILED; elapsed := el; error := Some e |}
  end.

(** The line [run_stage] prints last. *)
Definition outcome_line (w : World) (path : string) (timeout : Z)
           (s : State) : Printed :=
  let el := time_time w (S (ticks s)) - time_time w (ticks s) in
  match notebook_run w path timeout (COMMON_ARGS w) with
  | inr _ => PCompleted el
  | inl e => PFailed el (Py.slice_to 200 e)
  end.

(** The state after [results[k] = run_stage(path, description)]. *)
Definition stage_step (w : World) (t : Z) (st : StageDecl) (s : State)
  : State :=
  {| results := Py.set (sd_key st) (recorded w (sd_path st) t s) (results s);
     ticks := S (S (ticks s));
     calls := calls s ++ [sd_path st];
     stdout := (stdout s ++ [PStage (sd_desc st) (sd_path st)])
               ++ [outcome_line w (sd_path st) t s] |}.

Definition after_stages (w : World) (t : Z) (sts : list StageDecl)
           (s : State) : State :=
  fold_left (fun a st => stage_step w t st a) sts s.

Definition keys_after (seen : list string) (gs : list Group) : list string :=
  fold_left (fun a g => fold_left add_key (map sd_key (g_stages g)) a)
            gs seen.

(** A step never forgets a notebook it has already called. *)
Definition calls_grow (m : M unit) : Prop :=
  forall s s' o x, m s = (s', o) -> In x (calls s) -> In x (calls s').

(** The world in which every notebook raises with text [e]. *)
Definition world_raising (e : string) : World :=
  {| notebook_run := fun _ _ _ => inl e;
     time_time := fun n => Z.of_nat n;
     COMMON_ARGS := [] |}.

(** An exception text of [n] characters. *)
Fixpoint long_text (n : nat) : string :=
  match n with
  | O => ""
  | S m => String "x" (long_text m)
  end.

(** The world in which exactly the notebooks of [failing] raise. *)
Definition world_failing (failing : list string) : World :=
  {| notebook_run := fun path _ _ =>
       if existsb (String.eqb path) failing
       then inl "boom" else inr "";
     time_time := fun n => Z.of_nat n;
     COMMON_ARGS := [] |}.

(** *** Further notions for whole runs *)

(** The child notebook at [path] raises in world [w]. *)
Definition raises (w : World) (t : Z) (path : string) : bool :=
  match notebook_run w path t (COMMON_ARGS w) with
  | inl _ => true
  | inr _ => false
  end.

(** The stages a notebook declares, in order. *)
Definition all_stages (gs : list Group) : list StageDecl :=
  flat_map g_stages gs.

Definition all_keys (gs : list Group) : list string :=
  map sd_key (all_stages gs).

(** The line of the summary table for one entry of [results]. *)
Definition summary_row (kv : string * StageResult) : Printed :=
  PRow (fst kv)
       (match status (snd kv) with SUCCESS => "OK" | FAILED => "FAIL" end)
       (elapsed (snd kv)).

(** The text after [Result:] in the summary. *)
Definition result_text (rs : Py.dict StageResult) : string :=
  match failed_of rs with
  | [] => "SUCCESS"
  | failed => "FAILED (" ++ Py.str_of_nat (List.length failed) ++ " failures)"
  end.

(** A line only the summary cell prints. *)
Definition is_summary_line (p : Printed) : bool :=
  match p with
  | PRow _ _ _ => true
  | PResult _ => true
  | _ => false
  end.

(** Two worlds a pipeline cannot tell apart: the same clock, and the same
    outcome of every notebook when called with the pipeline's timeout and
    the shared arguments. *)
Definition same_for (p : Pipeline) (w w' : World) : Prop :=
  (forall n, time_time w n = time_time w' n)
  /\ (forall path,
        notebook_run w path (pipeline_timeout p) (COMMON_ARGS w)
        = notebook_run w' path (pipeline_timeout p) (COMMON_ARGS w')).

(** The clock never goes back. *)
Definition monotone_clock (w : World) : Prop :=
  forall n, time_time w n <= time_time w (S n).

(** A world that behaves as [w] when a notebook is called with timeout [t],
    and in which every notebook raises when called with another timeout. *)
Definition only_with_timeout (t : Z) (w : World) : World :=
  {| notebook_run := fun path t' args =>
       if Z.eqb t' t then notebook_run w path t' args else inl "timeout";
     time_time := time_time w;
     COMMON_ARGS := COMMON_ARGS w |}.

(** The sales run in which the customers extract and one view fail. *)
Definition world_customers_down : World :=
  world_failing ["../extract/extract_customers";
                 "../views/vw_customer_lifetime_value"].

End Orchestrator.

(* ===================================================================== *)
(** ** The pipeline context (pipelines/_context.py)                       *)
(* ===================================================================== *)

Module Context.

Inductive exn :=
| AssertionError (msg : string)
| KeyError (key : string).

Definition VALID_ENVS : list string := ["dev"; "stage"; "prod"].

(** The six top-level variables the notebook exposes. *)
Record Config := {
  CATALOG : string;
  EXTRACT_SCHEMA : string;
  REFINED_SCHEMA : string;
  VIEWS_SCHEMA : string;
  SOURCE_CATALOG : string;
  SOURCE_SCHEMA : string
}.

(** The fallback of the [except FileNotFoundError] branch. *)
Definition inline_defaults (ENV : string) : Py.dict string :=
  [ ("catalog", ENV ++ "_lakehouse");
    ("extract_schema", "bronze");
    ("refined_schema", "silver");
    ("views_schema", "gold");
    ("source_catalog", "samples");
    ("source_schema", "tpch") ].

(** [_config[key]] *)
Definition subscript (d : Py.dict string) (key : string) : exn + string :=
  match Py.get key d with
  | Some v => inr v
  | None => inl (KeyError key)
  end.

Definition bind {A B} (m : exn + A) (f : A -> exn + B) : exn + B :=
  match m with
  | inl e => inl e
  | inr a => f a
  end.

(** [json.load] of a JSON object with string values, given by its members
    in the order of the file: the dict holds each name once, and a name
    that occurs more than once in the file keeps the value of its last
    occurrence. *)
Definition json_load (members : list (string * string)) : Py.dict string :=
  fold_left (fun d kv => Py.set (fst kv) (snd kv) d) members [].

(** The notebook, from the value of the [env] widget and the config file:
    [None] when opening [configs/<env>.json] raises FileNotFoundError,
    otherwise the members of the JSON object it holds, with string values.
    Any other failure to read the file is outside the model. *)
Definition context (ENV : string)
           (config_file : option (list (string * string)))
  : exn + Config :=
  if existsb (String.eqb ENV) VALID_ENVS
  then
    let _config := match config_file with
                   | Some members => json_load members
                   | None => inline_defaults ENV
                   end in
    bind (subscript _config "catalog") (fun catalog =>
    bind (subscript _config "extract_schema") (fun extract_schema =>
    bind (subscript _config "refined_schema") (fun refined_schema =>
    bind (subscript _config "views_schema") (fun views_schema =>
    bind (subscript _config "source_catalog") (fun source_catalog =>
    bind (subscript _config "source_schema") (fun source_schema =>
    inr {| CATALOG := catalog;
           EXTRACT_SCHEMA := extract_schema;
           REFINED_SCHEMA := refined_schema;
           VIEWS_SCHEMA := views_schema;
           SOURCE_CATALOG := source_catalog;
           SOURCE_SCHEMA := source_schema |}))))))
  else inl (AssertionError
              ("Invalid environment '" ++ ENV ++ "'. Must be one of: "
               ++ Py.repr_list VALID_ENVS)).

(** The arguments the pipeline notebooks hand to every child notebook. *)
Definition COMMON_ARGS (c : Config) : Py.dict string :=
  [ ("catalog", CATALOG c);
    ("extract_schema", EXTRACT_SCHEMA c);
    ("refined_schema", REFINED_SCHEMA c);
    ("views_schema", VIEWS_SCHEMA c);
    ("source_catalog", SOURCE_CATALOG c);
    ("source_schema", SOURCE_SCHEMA c) ].

(** A config file of another project layout. *)
Definition sample_config : Config :=
  {| CATALOG := "main"; EXTRACT_SCHEMA := "raw"; REFINED_SCHEMA := "clean";
     VIEWS_SCHEMA := "marts"; SOURCE_CATALOG := "samples";
     SOURCE_SCHEMA := "tpch" |}.

End Context.

(* ===================================================================== *)
(** ** The fragment of Spark SQL the notebooks use                        *)
(* ===================================================================== *)

Module Sql.

(** A column value: [None] is NULL. BIGINT and INT columns are [Z],
    DECIMAL columns are rationals, DATE columns count days and TIMESTAMP
    columns microseconds since the epoch, STRING columns are [string].
    Sums, differences, products and quotients of DECIMAL values are taken
    exact; [ROUND] and [AVG] round as the engine does, and the precision of
    a DECIMAL column is checked where a refine notebook stores into its
    silver table ([INSERT_OVERWRITE]). The extract notebooks copy source
    columns into bronze columns, which are taken to have the type of their
    source. *)
Definition col (A : Type) := option A.

(** A relation is the list of its rows in the arrangement the engine
    happens to hold them in; no query fixes that arrangement. *)
Definition relation (R : Type) := list R.

(** Three-valued truth: [None] is UNKNOWN. *)
Definition tri := option bool.

Definition AND (a b : tri) : tri :=
  match a, b with
  | Some false, _ => Some false
  | _, Some false => Some false
  | Some true, Some true => Some true
  | _, _ => None
  end.

Definition OR (a b : tri) : tri :=
  match a, b with
  | Some true, _ => Some true
  | _, Some true => Some true
  | Some false, Some false => Some false
  | _, _ => None
  end.

(** WHERE, ON and CASE WHEN keep what evaluates to TRUE. *)
Definition holds (a : tri) : bool :=
  match a with
  | Some true => true
  | _ => false
  end.

Definition IS_NOT_NULL {A} (a : col A) : tri :=
  Some (match a with Some _ => true | None => false end).

Definition IS_NULL {A} (a : col A) : tri :=
  Some (match a with Some _ => false | None => true end).

Definition compare_with {A} (f : A -> A -> bool) (a b : col A) : tri :=
  match a, b with
  | Some x, Some y => Some (f x y)
  | _, _ => None
  end.

Definition Qlt_bool (x y : Q) : bool := negb (Qle_bool y x).

Definition eq_z := compare_with Z.eqb.
Definition gt_z := compare_with (fun x y => Z.ltb y x).
Definition le_z := compare_with Z.leb.
Definition eq_s := compare_with String.eqb.
Definition eq_q := compare_with Qeq_bool.
Definition gt_q := compare_with (fun x y => Qlt_bool y x).
Definition ge_q := compare_with (fun x y => Qle_bool y x).
Definition lt_q := compare_with Qlt_bool.
Definition le_q := compare_with Qle_bool.

Definition WHERE {R} (p : R -> tri) (l : relation R) : relation R :=
  filter (fun r => holds (p r)) l.

(** Counting all rows, and the rows where an expression is not NULL. *)
Definition COUNT_STAR {R} (l : relation R) : Z := Z.of_nat (List.length l).

Definition COUNT {R A} (e : R -> col A) (l : relation R) : Z :=
  Z.of_nat (List.length
              (filter (fun r => match e r with Some _ => true | None => false end) l)).

(** [count(CASE WHEN p THEN 1 END)] *)
Definition COUNT_WHEN {R} (p : R -> tri) (l : relation R) : Z :=
  Z.of_nat (List.length (filter (fun r => holds (p r)) l)).

Definition non_null {R A} (e : R -> col A) (l : relation R) : list A :=
  flat_map (fun r => match e r with Some x => [x] | None => [] end) l.

Definition MAX_z {R} (e : R -> col Z) (l : relation R) : col Z :=
  match non_null e l with
  | [] => None
  | x :: tl => Some (fold_left Z.max tl x)
  end.

Definition MIN_z {R} (e : R -> col Z) (l : relation R) : col Z :=
  match non_null e l with
  | [] => None
  | x :: tl => Some (fold_left Z.min tl x)
  end.

Definition SUM {R} (e : R -> col Q) (l : relation R) : col Q :=
  match non_null e l with
  | [] => None
  | x :: tl => Some (fold_left Qplus tl x)
  end.

(** [ROUND(x, d)] rounds half away from zero. *)
Definition round_half_up (d : nat) (x : Q) : Q :=
  let m := inject_Z (10 ^ Z.of_nat d) in
  if Qle_bool 0 x
  then (inject_Z (Qfloor (x * m + (1 # 2))) / m)%Q
  else (- (inject_Z (Qfloor (- x * m + (1 # 2))) / m))%Q.

Definition ROUND (x : col Q) (d : nat) : col Q :=
  option_map (round_half_up d) x.

(** [AVG] of a DECIMAL(15,2) column, the only kind the notebooks average
    ([ps_supplycost], [o_totalprice]): the result is a DECIMAL(19,6), the
    sum over the count rounded half up to six decimals. *)
Definition AVG {R} (e : R -> col Q) (l : relation R) : col Q :=
  match non_null e l with
  | [] => None
  | x :: tl =>
      Some (round_half_up 6
              (fold_left Qplus tl x
               / inject_Z (Z.of_nat (List.length (x :: tl)))))%Q
  end.

Definition COALESCE {A} (a : col A) (d : A) : col A :=
  match a with
  | Some x => Some x
  | None => Some d
  end.

(** [NULLIF(a, b)]: NULL when [a = b], else [a]. *)
Definition NULLIF (a b : col Q) : col Q :=
  match a, b with
  | Some x, Some y => if Qeq_bool x y then None else Some x
  | _, _ => a
  end.

Inductive error := DIVIDE_BY_ZERO | CAST_OVERFLOW.

(** The result of evaluating an expression that may raise. *)
Definition eval (A : Type) := (error + A)%type.

(** [a / b]. A NULL operand gives NULL. A zero divisor raises under ANSI
    mode and gives NULL otherwise. *)
Definition DIV (ansi : bool) (a b : col Q) : eval (col Q) :=
  match a, b with
  | Some x, Some y =>
      if Qeq_bool y 0
      then (if ansi then inl DIVIDE_BY_ZERO else inr None)
      else inr (Some (x / y)%Q)
  | _, _ => inr None
  end.

(** A denominator that is NULL or zero. *)
Definition undefined_or_zero (b : col Q) : Prop :=
  b = None \/ exists y, b = Some y /\ (y == 0)%Q.

Definition bind {A B} (m : eval A) (f : A -> eval B) : eval B :=
  match m with
  | inl e => inl e
  | inr a => f a
  end.

(** A SELECT list evaluated on every row: the query fails when a row does. *)
Fixpoint SELECT {R S} (f : R -> eval S) (l : relation R)
  : eval (relation S) :=
  match l with
  | [] => inr []
  | r :: tl => bind (f r) (fun x => bind (SELECT f tl) (fun xs => inr (x :: xs)))
  end.

(** A value fits a DECIMAL(p, s) column when, rounded half up to [s]
    decimals, it has at most [p - s] digits before the point. NULL fits. *)
Definition fits_decimal (p s : nat) (x : col Q) : bool :=
  match x with
  | Some v => Qlt_bool (Qabs (round_half_up s v))
                       (inject_Z (10 ^ Z.of_nat (p - s)))
  | None => true
  end.

(** [INSERT OVERWRITE table SELECT ... FROM view] into a table with typed
    columns, under the default store assignment policy: the statement
    raises, and writes nothing, when a value of some row does not fit its
    column (CAST_OVERFLOW_IN_TABLE_INSERT); otherwise the table holds the
    rows of the view. Every DECIMAL expression the notebooks insert has the
    scale of its column already (the bronze columns are DECIMAL(15,2), the
    derived ones end in ROUND to the column's scale), and every INT or
    BIGINT column is fed by an expression of its own type, so the cast can
    fail on the DECIMAL columns only and changes no value. *)
Definition INSERT_OVERWRITE {R} (fits : R -> bool) (rows : relation R)
  : eval (relation R) :=
  if forallb fits rows then inr rows else inl CAST_OVERFLOW.

(** [a / d] for a literal [d] other than zero. *)
Definition DIV_BY (d : Q) (a : col Q) : col Q :=
  option_map (fun x => (x / d)%Q) a.

Definition z_sub (a b : col Z) : col Z :=
  match a, b with Some x, Some y => Some (x - y) | _, _ => None end.
Definition z_add (a b : col Z) : col Z :=
  match a, b with Some x, Some y => Some (x + y) | _, _ => None end.
Definition q_sub (a b : col Q) : col Q :=
  match a, b with Some x, Some y => Some (x - y)%Q | _, _ => None end.
Definition q_add (a b : col Q) : col Q :=
  match a, b with Some x, Some y => Some (x + y)%Q | _, _ => None end.
Definition q_mul (a b : col Q) : col Q :=
  match a, b with Some x, Some y => Some (x * y)%Q | _, _ => None end.
Definition q_of_z (a : col Z) : col Q := option_map inject_Z a.

(** [DATEDIFF(a, b)] on day numbers. *)
Definition DATEDIFF (a b : col Z) : col Z :=
  match a, b with Some x, Some y => Some (x - y) | _, _ => None end.

(** Year and month of a day number in the proleptic Gregorian calendar. *)
Definition civil (days : Z) : Z * Z :=
  let z := days + 719468 in
  let era := z / 146097 in
  let doe := z - era * 146097 in
  let yoe := (doe - doe / 1460 + doe / 36524 - doe / 146096) / 365 in
  let doy := doe - (365 * yoe + yoe / 4 - yoe / 100) in
  let mp := (5 * doy + 2) / 153 in
  let m := if mp <? 10 then mp + 3 else mp - 9 in
  let y := yoe + era * 400 + (if m <=? 2 then 1 else 0) in
  (y, m).

Definition YEAR (d : col Z) : col Z := option_map (fun x => fst (civil x)) d.
Definition MONTH (d : col Z) : col Z := option_map (fun x => snd (civil x)) d.
Definition QUARTER (d : col Z) : col Z :=
  option_map (fun x => (snd (civil x) + 2) / 3) d.

(** [unix_timestamp(ts)]: whole seconds since the epoch. *)
Definition unix_timestamp (ts : col Z) : col Z :=
  option_map (fun t => t / 1000000) ts.

(** Joins. A row of the right side matches when ON is TRUE. *)
Definition INNER_JOIN {A B} (l : relation A) (r : relation B)
           (on : A -> B -> tri) : relation (A * B) :=
  flat_map (fun a => map (fun b => (a, b))
                         (filter (fun b => holds (on a b)) r)) l.

Definition LEFT_JOIN {A B} (l : relation A) (r : relation B)
           (on : A -> B -> tri) : relation (A * option B) :=
  flat_map (fun a =>
              match filter (fun b => holds (on a b)) r with
              | [] => [(a, None)]
              | ms => map (fun b => (a, Some b)) ms
              end) l.

(** A column of the nullable side of a left join. *)
Definition of_right {B A} (b : option B) (c : B -> col A) : col A :=
  match b with
  | Some x => c x
  | None => None
  end.

(** *** Windows *)
Section Window.
Variables R K : Type.
Variable key : R -> K.                 (* PARTITION BY *)
Variable key_eqb : K -> K -> bool.
Variable before : R -> R -> bool.      (* ORDER BY: strictly earlier *)

(** The partition keys, each once. *)
Fixpoint distinct (ks : list K) : list K :=
  match ks with
  | [] => []
  | k :: tl => k :: filter (fun k' => negb (key_eqb k' k)) (distinct tl)
  end.

Definition partition_of (k : K) (l : relation R) : relation R :=
  filter (fun r => key_eqb (key r) k) l.

(** Ordering a partition: a row goes behind the rows that sort strictly
    before it; rows the ORDER BY does not tell apart stay in the
    arrangement they were found in. *)
Fixpoint place (r : R) (sorted : list R) : list R :=
  match sorted with
  | [] => [r]
  | x :: tl => if before x r then x :: place r tl else r :: x :: tl
  end.

Fixpoint ordered (l : list R) : list R :=
  match l with
  | [] => []
  | r :: tl => place r (ordered tl)
  end.

(** [ROW_NUMBER() OVER (PARTITION BY key ORDER BY ...)] *)
Definition numbered (l : list R) : list (R * Z) :=
  combine l (map Z.of_nat (seq 1 (List.length l))).

Definition ROW_NUMBER (l : relation R) : relation (R * Z) :=
  flat_map (fun k => numbered (ordered (partition_of k l)))
           (distinct (map key l)).

(** A row of [l] that no row of [l] sorts strictly before. *)
Definition leads (h : R) (l : list R) : Prop :=
  In h l /\ forall r, In r l -> before r h = false.

(** The first row of every ordered partition. *)
Definition leaders (l : relation R) : relation R :=
  flat_map (fun k => firstn 1 (ordered (partition_of k l)))
           (distinct (map key l)).
End Window.

(** [ORDER BY ts DESC]: later first, NULLs last. *)
Definition desc_z (a b : col Z) : bool :=
  match a, b with
  | Some x, Some y => y <? x
  | Some _, None => true
  | None, _ => false
  end.

Definition desc_q (a b : col Q) : bool :=
  match a, b with
  | Some x, Some y => Qlt_bool y x
  | Some _, None => true
  | None, _ => false
  end.

(** [ORDER BY c ASC]: smaller first, NULLs first. *)
Definition asc_z (a b : col Z) : bool :=
  match a, b with
  | None, Some _ => true
  | Some x, Some y => x <? y
  | _, None => false
  end.

Definition asc_q (a b : col Q) : bool :=
  match a, b with
  | None, Some _ => true
  | Some x, Some y => Qlt_bool x y
  | _, None => false
  end.

(** The bucket, from 1, of the row at position [i], from 0, when [len]
    ordered rows are dealt into [n] buckets: the first [len mod n] buckets
    hold one row more than the others. *)
Definition ntile_bucket (n len i : nat) : Z :=
  let q := Nat.div len n in
  let r := Nat.modulo len n in
  if Nat.ltb i (r * S q)
  then Z.of_nat (S (Nat.div i (S q)))
  else Z.of_nat (S (r + Nat.div (i - r * S q) q)).

(** [NTILE(n) OVER (ORDER BY ...)]: the bucket of every row of [l], in the
    arrangement of [l]. *)
Definition NTILE {R} (n : nat) (before : R -> R -> bool) (l : relation R)
  : list Z :=
  let len := List.length l in
  let sorted := ordered (fun a b => before (snd a) (snd b))
                        (combine (seq 0 len) l) in
  let placed := combine (map fst sorted) (seq 0 len) in
  map (fun i =>
         match find (fun ip => Nat.eqb (fst ip) i) placed with
         | Some ip => ntile_bucket n len (snd ip)
         | None => 0
         end)
      (seq 0 len).

(** [a] is not after [b] in time; NULL is before everything. *)
Definition no_later (a b : col Z) : Prop :=
  match a, b with
  | None, _ => True
  | Some x, Some y => x <= y
  | Some _, None => False
  end.

Definition col_eqb {A} (f : A -> A -> bool) (a b : col A) : bool :=
  match a, b with
  | Some x, Some y => f x y
  | None, None => true
  | _, _ => false
  end.

End Sql.

(* ===================================================================== *)
(** ** Extract notebooks                                                  *)
(* ===================================================================== *)

Module Extract.
Import Sql.

(** A row of a [tv_*_raw] view or of a bronze table: the source columns
    and the three audit columns. *)
Record audited (A : Type) := {
  cols : A;
  _ingested_at : col Z;
  _source_system : col string;
  _batch_id : col string
}.

(** [SELECT ..., current_timestamp() AS _ingested_at, 'tpch' AS
    _source_system, '{batch_id}' AS _batch_id FROM source]:
    [current_timestamp()] is one value for the whole query. *)
Definition capture {A} (now : Z) (batch_id : string) (source : relation A)
  : relation (audited A) :=
  map (fun r => {| cols := r; _ingested_at := Some now;
                   _source_system := Some "tpch";
                   _batch_id := Some batch_id |}) source.

(** [SELECT * FROM (SELECT *, ROW_NUMBER() OVER (PARTITION BY key ORDER BY
    _ingested_at DESC) AS _rn FROM cleaned) WHERE _rn = 1], then the
    column list of the INSERT OVERWRITE, which drops [_rn]. *)
Definition latest_per_key {A K} (key : A -> K) (key_eqb : K -> K -> bool)
           (cleaned : relation (audited A)) : relation (audited A) :=
  map fst
    (WHERE (fun rn => eq_z (Some (snd rn)) (Some 1))
       (ROW_NUMBER (fun r => key (cols r)) key_eqb
          (fun x y => desc_z (_ingested_at x) (_ingested_at y))
          cleaned)).

(** The ORDER BY of the dedup, as a relation on rows. *)
Definition ingested_later {A} (x y : audited A) : bool :=
  desc_z (_ingested_at x) (_ingested_at y).

(** The three stages every extract notebook chains before its INSERT
    OVERWRITE, which replaces the whole bronze table by their result. *)
Definition extract_with {A K} (key : A -> K) (key_eqb : K -> K -> bool)
           (kept : A -> tri) (now : Z) (batch_id : string)
           (source : relation A) : relation (audited A) :=
  latest_per_key key key_eqb
    (WHERE (fun r => kept (cols r)) (capture now batch_id source)).

(** The rows of a relation that carry natural key [k]. *)
Definition rows_of_key {A K} (key : A -> K) (key_eqb : K -> K -> bool)
           (k : K) (l : relation (audited A)) : relation (audited A) :=
  filter (fun r => key_eqb (key (cols r)) k) l.

(** *** extract_orders.py *)

Record orders := {
  o_orderkey : col Z;
  o_custkey : col Z;
  o_orderstatus : col string;
  o_totalprice : col Q;
  o_orderdate : col Z;
  o_orderpriority : col string;
  o_clerk : col string;
  o_shippriority : col Z;
  o_comment : col string
}.

Definition tv_orders_raw := @capture orders.

(** The WHERE clause of [tv_orders_cleaned]. *)
Definition orders_kept (r : orders) : tri :=
  AND (IS_NOT_NULL (o_orderkey r)) (IS_NOT_NULL (o_orderdate r)).

Definition tv_orders_cleaned (raw : relation (audited orders)) :=
  WHERE (fun r => orders_kept (cols r)) raw.

Definition tv_orders_deduped (cleaned : relation (audited orders)) :=
  latest_per_key o_orderkey (col_eqb Z.eqb) cleaned.

(** The bronze [orders] table after the notebook ran. *)
Definition extract_orders (now : Z) (batch_id : string)
           (source : relation orders) : relation (audited orders) :=
  tv_orders_deduped (tv_orders_cleaned (tv_orders_raw now batch_id source)).

(** The SELECT list of Stage 1 names the nine columns of [orders]: of a
    source table whose rows hold further columns, such as an ingestion time
    of their own, the notebook reads these nine only. *)
Definition orders_columns {X} (source : relation (orders * X))
  : relation orders :=
  map fst source.

(** *** extract_lineitem.py *)

Record lineitem := {
  l_orderkey : col Z;
  l_partkey : col Z;
  l_suppkey : col Z;
  l_linenumber : col Z;
  l_quantity : col Q;
  l_extendedprice : col Q;
  l_discount : col Q;
  l_tax : col Q;
  l_returnflag : col string;
  l_linestatus : col string;
  l_shipdate : col Z;
  l_commitdate : col Z;
  l_receiptdate : col Z;
  l_shipinstruct : col string;
  l_shipmode : col string;
  l_comment : col string
}.

Definition tv_lineitem_raw := @capture lineitem.

(** The WHERE clause of [tv_lineitem_cleaned]. *)
Definition lineitem_kept (r : lineitem) : tri :=
  AND (AND (AND (IS_NOT_NULL (l_orderkey r))
                (IS_NOT_NULL (l_linenumber r)))
           (gt_q (l_quantity r) (Some 0%Q)))
      (gt_q (l_extendedprice r) (Some 0%Q)).

Definition tv_lineitem_cleaned (raw : relation (audited lineitem)) :=
  WHERE (fun r => lineitem_kept (cols r)) raw.

Definition lineitem_key (r : lineitem) : col Z * col Z :=
  (l_orderkey r, l_linenumber r).

Definition pair_eqb (a b : col Z * col Z) : bool :=
  col_eqb Z.eqb (fst a) (fst b) && col_eqb Z.eqb (snd a) (snd b).

Definition tv_lineitem_deduped (cleaned : relation (audited lineitem)) :=
  latest_per_key lineitem_key pair_eqb cleaned.

Definition extract_lineitem (now : Z) (batch_id : string)
           (source : relation lineitem) : relation (audited lineitem) :=
  tv_lineitem_deduped
    (tv_lineitem_cleaned (tv_lineitem_raw now batch_id source)).

(** *** extract_customers.py *)

Record customers := {
  c_custkey : col Z;
  c_name : col string;
  c_address : col string;
  c_nationkey : col Z;
  c_phone : col string;
  c_acctbal : col Q;
  c_mktsegment : col string;
  c_comment : col string
}.

Definition tv_customers_raw := @capture customers.

(** The WHERE clause of [tv_customers_cleaned]. *)
Definition customers_kept (r : customers) : tri :=
  AND (IS_NOT_NULL (c_custkey r)) (IS_NOT_NULL (c_name r)).

Definition tv_customers_cleaned (raw : relation (audited customers)) :=
  WHERE (fun r => customers_kept (cols r)) raw.

Definition tv_customers_deduped (cleaned : relation (audited customers)) :=
  latest_per_key c_custkey (col_eqb Z.eqb) cleaned.

Definition extract_customers (now : Z) (batch_id : string)
           (source : relation customers) : relation (audited customers) :=
  tv_customers_deduped
    (tv_customers_cleaned (tv_customers_raw now batch_id source)).

(** *** The other bronze tables (schemas/create_extract_schemas.py) *)

Record parts := {
  p_partkey : col Z;
  p_name : col string;
  p_mfgr : col string;
  p_brand : col string;
  p_type : col string;
  p_size : col Z;
  p_container : col string;
  p_retailprice : col Q;
  p_comment : col string
}.

Record partsupp := {
  ps_partkey : col Z;
  ps_suppkey : col Z;
  ps_availqty : col Z;
  ps_supplycost : col Q;
  ps_comment : col string
}.

Record suppliers := {
  s_suppkey : col Z;
  s_name : col string;
  s_address : col string;
  s_nationkey : col Z;
  s_phone : col string;
  s_acctbal : col Q;
  s_comment : col string
}.

Record nation := {
  n_nationkey : col Z;
  n_name : col string;
  n_regionkey : col Z;
  n_comment : col string
}.

Record region := {
  r_regionkey : col Z;
  r_name : col string;
  r_comment : col string
}.

(** *** extract_suppliers.py *)

Definition tv_suppliers_raw := @capture suppliers.

(** The WHERE clause of [tv_suppliers_cleaned]. *)
Definition suppliers_kept (r : suppliers) : tri :=
  AND (IS_NOT_NULL (s_suppkey r)) (IS_NOT_NULL (s_name r)).

Definition tv_suppliers_cleaned (raw : relation (audited suppliers)) :=
  WHERE (fun r => suppliers_kept (cols r)) raw.

Definition tv_suppliers_deduped (cleaned : relation (audited suppliers)) :=
  latest_per_key s_suppkey (col_eqb Z.eqb) cleaned.

Definition extract_suppliers (now : Z) (batch_id : string)
           (source : relation suppliers) : relation (audited suppliers) :=
  tv_suppliers_deduped
    (tv_suppliers_cleaned (tv_suppliers_raw now batch_id source)).

(** *** extract_parts.py *)

Definition tv_parts_raw := @capture parts.

(** The WHERE clause of [tv_parts_cleaned]. *)
Definition parts_kept (r : parts) : tri := IS_NOT_NULL (p_partkey r).

Definition tv_parts_cleaned (raw : relation (audited parts)) :=
  WHERE (fun r => parts_kept (cols r)) raw.

Definition tv_parts_deduped (cleaned : relation (audited parts)) :=
  latest_per_key p_partkey (col_eqb Z.eqb) cleaned.

Definition tv_partsupp_raw := @capture partsupp.

(** The WHERE clause of [tv_partsupp_cleaned]. *)
Definition partsupp_kept (r : partsupp) : tri :=
  AND (IS_NOT_NULL (ps_partkey r)) (IS_NOT_NULL (ps_suppkey r)).

Definition tv_partsupp_cleaned (raw : relation (audited partsupp)) :=
  WHERE (fun r => partsupp_kept (cols r)) raw.

Definition partsupp_key (r : partsupp) : col Z * col Z :=
  (ps_partkey r, ps_suppkey r).

Definition tv_partsupp_deduped (cleaned : relation (audited partsupp)) :=
  latest_per_key partsupp_key pair_eqb cleaned.

(** The bronze [parts] and [partsupp] tables after the notebook ran: two
    INSERT OVERWRITE statements, each with its own [current_timestamp()],
    under the one [batch_id] the notebook computed first. *)
Definition extract_parts (now_parts now_partsupp : Z) (batch_id : string)
           (src_part : relation parts) (src_partsupp : relation partsupp)
  : relation (audited parts) * relation (audited partsupp) :=
  (tv_parts_deduped (tv_parts_cleaned (tv_parts_raw now_parts batch_id src_part)),
   tv_partsupp_deduped
     (tv_partsupp_cleaned (tv_partsupp_raw now_partsupp batch_id src_partsupp))).

(** *** extract_nation_region.py *)

Definition tv_nation_raw := @capture nation.
Definition tv_region_raw := @capture region.

(** The bronze [nation] and [region] tables after the notebook ran: the raw
    views are inserted as they are, with no cleaning and no dedup stage. *)
Definition extract_nation_region (now_nation now_region : Z)
           (batch_id : string)
           (src_nation : relation nation) (src_region : relation region)
  : relation (audited nation) * relation (audited region) :=
  (tv_nation_raw now_nation batch_id src_nation,
   tv_region_raw now_region batch_id src_region).

(** *** What a bronze table is to its source *)

(** [bronze] holds one row for every natural key of the source rows that
    pass the cleaning filter, and nothing else. *)
Definition one_row_per_key {A K} (key : A -> K) (kept : A -> tri)
           (source : relation A) (bronze : relation (audited A)) : Prop :=
  NoDup (map (fun r => key (cols r)) bronze)
  /\ (forall r, In r bronze ->
                In (cols r) source /\ holds (kept (cols r)) = true)
  /\ (forall a, In a source -> holds (kept a) = true ->
                exists r, In r bronze /\ key (cols r) = key a).

(** Every row of [bronze] carries the audit columns of one run. *)
Definition audited_by {A} (now : Z) (batch_id : string)
           (bronze : relation (audited A)) : Prop :=
  forall r, In r bronze ->
            _ingested_at r = Some now
            /\ _source_system r = Some "tpch"
            /\ _batch_id r = Some batch_id.

(** The cleaning and dedup stages leave [bronze] as it is. *)
Definition settled {A K} (key : A -> K) (key_eqb : K -> K -> bool)
           (kept : A -> tri) (bronze : relation (audited A)) : Prop :=
  latest_per_key key key_eqb (WHERE (fun r => kept (cols r)) bronze) = bronze.

(** *** Sample rows *)

Definition an_order (k : Z) (date : col Z) (comment : string) : orders :=
  {| o_orderkey := Some k; o_custkey := Some 7; o_orderstatus := Some "O";
     o_totalprice := Some (100 # 1)%Q; o_orderdate := date;
     o_orderpriority := Some "1-URGENT"; o_clerk := Some "Clerk#1";
     o_shippriority := Some 0; o_comment := Some comment |}.

Definition a_lineitem (k n : col Z) (quantity : Q) (comment : string)
  : lineitem :=
  {| l_orderkey := k; l_partkey := Some 1; l_suppkey := Some 1;
     l_linenumber := n; l_quantity := Some quantity;
     l_extendedprice := Some (50 # 1)%Q; l_discount := Some (1 # 10)%Q;
     l_tax := Some (2 # 100)%Q; l_returnflag := Some "N";
     l_linestatus := Some "O"; l_shipdate := Some 9000;
     l_commitdate := Some 9010; l_receiptdate := Some 9005;
     l_shipinstruct := Some "NONE"; l_shipmode := Some "MAIL";
     l_comment := Some comment |}.

Definition a_customer (k : Z) (name : string) : customers :=
  {| c_custkey := Some k; c_name := Some name; c_address := Some "addr";
     c_nationkey := Some 3; c_phone := Some "555"; c_acctbal := Some (10 # 1)%Q;
     c_mktsegment := Some "BUILDING"; c_comment := None |}.

Definition audit {A} (r : A) (ts : Z) : audited A :=
  {| cols := r; _ingested_at := Some ts; _source_system := Some "tpch";
     _batch_id := Some "batch_20240101_060000" |}.

Definition a_supplier (k : Z) (name : string) : suppliers :=
  {| s_suppkey := Some k; s_name := Some name; s_address := Some "addr";
     s_nationkey := Some 3; s_phone := Some "555";
     s_acctbal := Some (250 # 1)%Q; s_comment := None |}.

Definition a_part (k : Z) (retail : Q) : parts :=
  {| p_partkey := Some k; p_name := Some "blue steel";
     p_mfgr := Some "Manufacturer#1"; p_brand := Some "Brand#13";
     p_type := Some "STANDARD POLISHED TIN"; p_size := Some 7;
     p_container := Some "JUMBO PKG"; p_retailprice := Some retail;
     p_comment := None |}.

Definition a_partsupp (part supplier : Z) (cost : col Q) : partsupp :=
  {| ps_partkey := Some part; ps_suppkey := Some supplier;
     ps_availqty := Some 100; ps_supplycost := cost; ps_comment := None |}.

(** Rows whose derived columns do not fit the silver tables: a line item
    of quantity 0.01 and extended price 10^12 has a unit price of 10^14;
    ten orders without an order key, counted as fulfilled but not as
    orders, give a fulfillment rate of 1000; a part of retail price 0.01
    supplied at 1000 has a margin_pct of -99999. *)
Definition overpriced_lineitem : lineitem :=
  {| l_orderkey := Some 1; l_partkey := Some 1; l_suppkey := Some 1;
     l_linenumber := Some 1; l_quantity := Some (1 # 100)%Q;
     l_extendedprice := Some (1000000000000 # 1)%Q;
     l_discount := Some (1 # 10)%Q; l_tax := Some (2 # 100)%Q;
     l_returnflag := Some "N"; l_linestatus := Some "O";
     l_shipdate := Some 9000; l_commitdate := Some 9010;
     l_receiptdate := Some 9005; l_shipinstruct := Some "NONE";
     l_shipmode := Some "MAIL"; l_comment := None |}.

Definition unkeyed_order (comment : string) : orders :=
  {| o_orderkey := None; o_custkey := Some 7; o_orderstatus := Some "F";
     o_totalprice := Some (100 # 1)%Q; o_orderdate := Some 9000;
     o_orderpriority := None; o_clerk := None;
     o_shippriority := Some 0; o_comment := Some comment |}.

Definition unkeyed_orders : relation (audited orders) :=
  audit (an_order 1 (Some 9000) "keyed") 0
  :: map (fun c => audit (unkeyed_order c) 0)
         ["1"; "2"; "3"; "4"; "5"; "6"; "7"; "8"; "9"; "10"].

(** Two suppliers of one part, the second without a supply cost. *)
Definition sample_suppliers : relation (audited suppliers) :=
  [audit (a_supplier 1 "Supplier#1") 0; audit (a_supplier 2 "Supplier#2") 0].

Definition sample_parts : relation (audited parts) :=
  [audit (a_part 1 (20 # 1)%Q) 0].

Definition sample_partsupp : relation (audited partsupp) :=
  [audit (a_partsupp 1 1 (Some (12 # 1)%Q)) 0;
   audit (a_partsupp 1 2 None) 0].

(** Two customers and three orders, two of them of customer 7. *)
Definition sample_customers : relation (audited customers) :=
  [audit (a_customer 7 "Customer#7") 0; audit (a_customer 8 "Customer#8") 0].

Definition sample_lineitem : relation (audited lineitem) :=
  [audit (a_lineitem (Some 1) (Some 1) (5 # 1)%Q "x") 0;
   audit (a_lineitem (Some 1) (Some 2) (6 # 1)%Q "y") 0;
   audit (a_lineitem (Some 9) (Some 1) (7 # 1)%Q "z") 0].

Definition sample_orders : relation (audited orders) :=
  [audit (an_order 1 (Some 9000) "a") 0;
   audit (an_order 2 (Some 9100) "b") 0;
   audit (an_order 3 None "c") 0].

End Extract.

(* ===================================================================== *)
(** ** Refined notebooks                                                  *)
(* ===================================================================== *)

Module Refined.
Import Sql Extract.

(** A row of a silver table: the business columns and the two audit
    columns. *)
Record stamped (A : Type) := {
  fields : A;
  _refined_at : col Z;
  _batch_id : col string
}.

Definition stamp {A} (now : Z) (batch_id : string) (r : A) : stamped A :=
  {| fields := r; _refined_at := Some now; _batch_id := Some batch_id |}.

Definition one : col Q := Some 1%Q.
Definition zero : col Q := Some 0%Q.

(** [CASE WHEN c THEN a ELSE b END] *)
Definition CASE_WHEN {A} (c : tri) (a b : A) : A := if holds c then a else b.

End Refined.

(** *** refined_order_details.py *)

Module RefinedOrderDetails.
Import Sql Extract Refined.

Record order_details_joined := {
  j_order_key : col Z;
  j_line_number : col Z;
  j_customer_key : col Z;
  j_part_key : col Z;
  j_supplier_key : col Z;
  j_order_date : col Z;
  j_order_status : col string;
  j_order_priority : col string;
  j_part_name : col string;
  j_part_brand : col string;
  j_part_type : col string;
  j_quantity : col Q;
  j_extended_price : col Q;
  j_discount_pct : col Q;
  j_tax_pct : col Q;
  j_ship_date : col Z;
  j_commit_date : col Z;
  j_receipt_date : col Z;
  j_ship_mode : col string;
  j_return_flag : col string
}.

(** Stage 1: orders INNER JOIN lineitem LEFT JOIN parts. *)
Definition tv_order_details_joined
           (b_orders : relation (audited orders))
           (b_lineitem : relation (audited lineitem))
           (b_parts : relation (audited parts))
  : relation order_details_joined :=
  map (fun x =>
         let o := cols (fst (fst x)) in
         let li := cols (snd (fst x)) in
         let p := option_map (@cols parts) (snd x) in
         {| j_order_key := o_orderkey o;
            j_line_number := l_linenumber li;
            j_customer_key := o_custkey o;
            j_part_key := l_partkey li;
            j_supplier_key := l_suppkey li;
            j_order_date := o_orderdate o;
            j_order_status := o_orderstatus o;
            j_order_priority := o_orderpriority o;
            j_part_name := of_right p p_name;
            j_part_brand := of_right p p_brand;
            j_part_type := of_right p p_type;
            j_quantity := l_quantity li;
            j_extended_price := l_extendedprice li;
            j_discount_pct := l_discount li;
            j_tax_pct := l_tax li;
            j_ship_date := l_shipdate li;
            j_commit_date := l_commitdate li;
            j_receipt_date := l_receiptdate li;
            j_ship_mode := l_shipmode li;
            j_return_flag := l_returnflag li |})
      (LEFT_JOIN
         (INNER_JOIN b_orders b_lineitem
            (fun o li => eq_z (o_orderkey (cols o)) (l_orderkey (cols li))))
         b_parts
         (fun oli p => eq_z (l_partkey (cols (snd oli))) (p_partkey (cols p)))).

Record order_details := {
  order_key : col Z;
  line_number : col Z;
  customer_key : col Z;
  part_key : col Z;
  supplier_key : col Z;
  order_date : col Z;
  order_status : col string;
  order_priority : col string;
  part_name : col string;
  part_brand : col string;
  part_type : col string;
  quantity : col Q;
  unit_price : col Q;
  extended_price : col Q;
  discount_pct : col Q;
  tax_pct : col Q;
  net_revenue : col Q;
  tax_amount : col Q;
  total_charge : col Q;
  ship_date : col Z;
  commit_date : col Z;
  receipt_date : col Z;
  ship_mode : col string;
  shipping_delay_days : col Z;
  delivery_delay_days : col Z;
  is_late_shipment : col bool;
  return_flag : col string;
  order_year : col Z;
  order_month : col Z;
  order_quarter : col Z
}.

(** Stage 2: the SELECT list of [tv_order_details_calculated] on one row. *)
Definition order_details_calculated (ansi : bool) (r : order_details_joined)
  : eval order_details :=
  bind (DIV ansi (j_extended_price r) (NULLIF (j_quantity r) zero))
       (fun per_unit =>
  let net := q_mul (j_extended_price r) (q_sub one (j_discount_pct r)) in
  inr {| order_key := j_order_key r;
         line_number := j_line_number r;
         customer_key := j_customer_key r;
         part_key := j_part_key r;
         supplier_key := j_supplier_key r;
         order_date := j_order_date r;
         order_status := j_order_status r;
         order_priority := j_order_priority r;
         part_name := j_part_name r;
         part_brand := j_part_brand r;
         part_type := j_part_type r;
         quantity := j_quantity r;
         unit_price := ROUND per_unit 2;
         extended_price := j_extended_price r;
         discount_pct := j_discount_pct r;
         tax_pct := j_tax_pct r;
         net_revenue := ROUND net 2;
         tax_amount := ROUND (q_mul net (j_tax_pct r)) 2;
         total_charge := ROUND (q_mul net (q_add one (j_tax_pct r))) 2;
         ship_date := j_ship_date r;
         commit_date := j_commit_date r;
         receipt_date := j_receipt_date r;
         ship_mode := j_ship_mode r;
         shipping_delay_days := DATEDIFF (j_ship_date r) (j_order_date r);
         delivery_delay_days := DATEDIFF (j_receipt_date r) (j_ship_date r);
         is_late_shipment :=
           CASE_WHEN (gt_z (j_ship_date r) (j_commit_date r))
                     (Some true) (Some false);
         return_flag := j_return_flag r;
         order_year := YEAR (j_order_date r);
         order_month := MONTH (j_order_date r);
         order_quarter := QUARTER (j_order_date r) |}).

Definition tv_order_details_calculated (ansi : bool)
           (joined : relation order_details_joined)
  : eval (relation order_details) :=
  SELECT (order_details_calculated ansi) joined.

(** The WHERE clause of [tv_order_details_final]. *)
Definition order_details_kept (r : order_details) : tri :=
  AND (AND (gt_q (quantity r) zero) (gt_q (extended_price r) zero))
      (ge_q (net_revenue r) zero).

(** Positive quantity and price, revenue not negative. *)
Definition in_range (r : order_details) : Prop :=
  (exists q, quantity r = Some q /\ (0 < q)%Q)
  /\ (exists p, extended_price r = Some p /\ (0 < p)%Q)
  /\ (exists n, net_revenue r = Some n /\ (0 <= n)%Q).

(** Stage 3: the quality gate and the audit columns. *)
Definition tv_order_details_final (now : Z) (batch_id : string)
           (calculated : relation order_details)
  : relation (stamped order_details) :=
  map (stamp now batch_id) (WHERE order_details_kept calculated).

(** The DECIMAL columns of the silver table
    (schemas/create_refined_schemas.py): each is a DECIMAL(15,2). *)
Definition order_details_fits (r : stamped order_details) : bool :=
  fits_decimal 15 2 (quantity (fields r))
  && fits_decimal 15 2 (unit_price (fields r))
  && fits_decimal 15 2 (extended_price (fields r))
  && fits_decimal 15 2 (discount_pct (fields r))
  && fits_decimal 15 2 (tax_pct (fields r))
  && fits_decimal 15 2 (net_revenue (fields r))
  && fits_decimal 15 2 (tax_amount (fields r))
  && fits_decimal 15 2 (total_charge (fields r)).

(** The silver [order_details] table after the notebook ran, or the error
    the notebook stopped with: a division by zero in a view, or a value
    that overflows its column in the final INSERT OVERWRITE. *)
Definition refined_order_details (ansi : bool) (now : Z) (batch_id : string)
           (b_orders : relation (audited orders))
           (b_lineitem : relation (audited lineitem))
           (b_parts : relation (audited parts))
  : eval (relation (stamped order_details)) :=
  bind (tv_order_details_calculated ansi
          (tv_order_details_joined b_orders b_lineitem b_parts))
       (fun calculated =>
          INSERT_OVERWRITE order_details_fits
            (tv_order_details_final now batch_id calculated)).

(** A joined row of a line with nothing ordered. *)
Definition zero_quantity_line : order_details_joined :=
  {| j_order_key := Some 1; j_line_number := Some 1;
     j_customer_key := Some 7; j_part_key := Some 1;
     j_supplier_key := Some 1; j_order_date := Some 9000;
     j_order_status := Some "O"; j_order_priority := Some "1-URGENT";
     j_part_name := None; j_part_brand := None; j_part_type := None;
     j_quantity := Some 0%Q; j_extended_price := Some (50 # 1)%Q;
     j_discount_pct := Some (1 # 10)%Q; j_tax_pct := Some (2 # 100)%Q;
     j_ship_date := Some 9000; j_commit_date := Some 9010;
     j_receipt_date := Some 9005; j_ship_mode := Some "MAIL";
     j_return_flag := Some "N" |}.

End RefinedOrderDetails.

(** *** refined_supplier_parts.py *)

Module RefinedSupplierParts.
Import Sql Extract Refined.

Record supplier_parts_joined := {
  sj_supplier_key : col Z;
  sj_supplier_name : col string;
  sj_supplier_nation : col string;
  sj_supplier_region : col string;
  sj_supplier_acct_balance : col Q;
  sj_part_key : col Z;
  sj_part_name : col string;
  sj_part_brand : col string;
  sj_part_type : col string;
  sj_part_size : col Z;
  sj_retail_price : col Q;
  sj_supply_cost : col Q;
  sj_available_qty : col Z
}.

(** Stage 1: suppliers INNER JOIN partsupp INNER JOIN parts LEFT JOIN nation
    LEFT JOIN region. *)
Definition tv_supplier_parts_joined
           (b_suppliers : relation (audited suppliers))
           (b_partsupp : relation (audited partsupp))
           (b_parts : relation (audited parts))
           (b_nation : relation (audited nation))
           (b_region : relation (audited region))
  : relation supplier_parts_joined :=
  map (fun x =>
         let s := cols (fst (fst (fst (fst x)))) in
         let ps := cols (snd (fst (fst (fst x)))) in
         let p := cols (snd (fst (fst x))) in
         let n := option_map (@cols nation) (snd (fst x)) in
         let r := option_map (@cols region) (snd x) in
         {| sj_supplier_key := s_suppkey s;
            sj_supplier_name := s_name s;
            sj_supplier_nation := of_right n n_name;
            sj_supplier_region := of_right r r_name;
            sj_supplier_acct_balance := s_acctbal s;
            sj_part_key := p_partkey p;
            sj_part_name := p_name p;
            sj_part_brand := p_brand p;
            sj_part_type := p_type p;
            sj_part_size := p_size p;
            sj_retail_price := p_retailprice p;
            sj_supply_cost := ps_supplycost ps;
            sj_available_qty := ps_availqty ps |})
      (LEFT_JOIN
         (LEFT_JOIN
            (INNER_JOIN
               (INNER_JOIN b_suppliers b_partsupp
                  (fun s ps => eq_z (s_suppkey (cols s)) (ps_suppkey (cols ps))))
               b_parts
               (fun sps p => eq_z (ps_partkey (cols (snd sps)))
                                  (p_partkey (cols p))))
            b_nation
            (fun spp n => eq_z (s_nationkey (cols (fst (fst spp))))
                               (n_nationkey (cols n))))
         b_region
         (fun sppn r => eq_z (of_right (option_map (@cols nation) (snd sppn))
                                       n_regionkey)
                             (r_regionkey (cols r)))).

Record supplier_parts_margin := {
  m_joined : supplier_parts_joined;
  m_cost_margin : col Q;
  m_margin_pct : col Q
}.

(** Stage 2: the SELECT list of [tv_supplier_parts_margin] on one row. *)
Definition supplier_parts_margin_of (ansi : bool) (r : supplier_parts_joined)
  : eval supplier_parts_margin :=
  let margin := q_sub (sj_retail_price r) (sj_supply_cost r) in
  bind (DIV ansi margin (NULLIF (sj_retail_price r) zero))
       (fun pct =>
  inr {| m_joined := r;
         m_cost_margin := ROUND margin 2;
         m_margin_pct := ROUND pct 4 |}).

Definition tv_supplier_parts_margin (ansi : bool)
           (joined : relation supplier_parts_joined)
  : eval (relation supplier_parts_margin) :=
  SELECT (supplier_parts_margin_of ansi) joined.

Record supplier_parts := {
  supplier_key : col Z;
  supplier_name : col string;
  supplier_nation : col string;
  supplier_region : col string;
  supplier_acct_balance : col Q;
  part_key : col Z;
  part_name : col string;
  part_brand : col string;
  part_type : col string;
  part_size : col Z;
  retail_price : col Q;
  supply_cost : col Q;
  available_qty : col Z;
  cost_margin : col Q;
  margin_pct : col Q;
  cost_rank_in_region : col Z;
  is_cheapest_in_region : col bool;
  avg_region_cost : col Q;
  cost_vs_region_avg : col Q
}.

(** [PARTITION BY supplier_region, part_type] *)
Definition region_type (r : supplier_parts_margin) : col string * col string :=
  (sj_supplier_region (m_joined r), sj_part_type (m_joined r)).

Definition region_type_eqb (a b : col string * col string) : bool :=
  col_eqb String.eqb (fst a) (fst b) && col_eqb String.eqb (snd a) (snd b).

Definition supply_cost_of (r : supplier_parts_margin) : col Q :=
  sj_supply_cost (m_joined r).

(** [DENSE_RANK() OVER (PARTITION BY ... ORDER BY supply_cost ASC)]: one more
    than the number of distinct costs of the partition that sort before the
    row's cost. *)
Definition DENSE_RANK (part : relation supplier_parts_margin)
           (r : supplier_parts_margin) : Z :=
  1 + Z.of_nat
        (List.length
           (distinct (col_eqb Qeq_bool)
              (filter (fun c => asc_q c (supply_cost_of r))
                      (map supply_cost_of part)))).

(** Stage 3: the SELECT list of [tv_supplier_parts_final] on one row of the
    relation [all]. *)
Definition supplier_parts_final_of (ansi : bool) (now : Z) (batch_id : string)
           (all : relation supplier_parts_margin) (r : supplier_parts_margin)
  : eval (stamped supplier_parts) :=
  let part := partition_of region_type region_type_eqb (region_type r) all in
  let rank := DENSE_RANK part r in
  let avg := AVG supply_cost_of part in
  bind (DIV ansi (supply_cost_of r) (NULLIF avg zero))
       (fun ratio =>
  let j := m_joined r in
  inr (stamp now batch_id
         {| supplier_key := sj_supplier_key j;
            supplier_name := sj_supplier_name j;
            supplier_nation := sj_supplier_nation j;
            supplier_region := sj_supplier_region j;
            supplier_acct_balance := sj_supplier_acct_balance j;
            part_key := sj_part_key j;
            part_name := sj_part_name j;
            part_brand := sj_part_brand j;
            part_type := sj_part_type j;
            part_size := sj_part_size j;
            retail_price := sj_retail_price j;
            supply_cost := sj_supply_cost j;
            available_qty := sj_available_qty j;
            cost_margin := m_cost_margin r;
            margin_pct := m_margin_pct r;
            cost_rank_in_region := Some rank;
            is_cheapest_in_region :=
              CASE_WHEN (eq_z (Some rank) (Some 1)) (Some true) (Some false);
            avg_region_cost := ROUND avg 2;
            cost_vs_region_avg := ROUND ratio 4 |})).

Definition tv_supplier_parts_final (ansi : bool) (now : Z) (batch_id : string)
           (margin : relation supplier_parts_margin)
  : eval (relation (stamped supplier_parts)) :=
  SELECT (supplier_parts_final_of ansi now batch_id margin) margin.

(** The DECIMAL columns of the silver table
    (schemas/create_refined_schemas.py): [margin_pct] and
    [cost_vs_region_avg] are DECIMAL(8,4), the others DECIMAL(15,2). *)
Definition supplier_parts_fits (r : stamped supplier_parts) : bool :=
  fits_decimal 15 2 (supplier_acct_balance (fields r))
  && fits_decimal 15 2 (retail_price (fields r))
  && fits_decimal 15 2 (supply_cost (fields r))
  && fits_decimal 15 2 (cost_margin (fields r))
  && fits_decimal 8 4 (margin_pct (fields r))
  && fits_decimal 15 2 (avg_region_cost (fields r))
  && fits_decimal 8 4 (cost_vs_region_avg (fields r)).

(** The silver [supplier_parts] table after the notebook ran, or the error
    the notebook stopped with: a division by zero in a view, or a value
    that overflows its column in the final INSERT OVERWRITE. *)
Definition refined_supplier_parts (ansi : bool) (now : Z) (batch_id : string)
           (b_suppliers : relation (audited suppliers))
           (b_partsupp : relation (audited partsupp))
           (b_parts : relation (audited parts))
           (b_nation : relation (audited nation))
           (b_region : relation (audited region))
  : eval (relation (stamped supplier_parts)) :=
  bind (tv_supplier_parts_margin ansi
          (tv_supplier_parts_joined b_suppliers b_partsupp b_parts
                                    b_nation b_region))
       (fun margin =>
          bind (tv_supplier_parts_final ansi now batch_id margin)
               (INSERT_OVERWRITE supplier_parts_fits)).

End RefinedSupplierParts.

(** *** refined_customer_orders.py *)

Module RefinedCustomerOrders.
Import Sql Extract Refined.

Record customers_geo := {
  g_customer_key : col Z;
  g_customer_name : col string;
  g_market_segment : col string;
  g_account_balance : col Q;
  g_nation_name : col string;
  g_region_name : col string
}.

(** Stage 1: customers LEFT JOIN nation LEFT JOIN region. *)
Definition tv_customers_geo
           (b_customers : relation (audited customers))
           (b_nation : relation (audited nation))
           (b_region : relation (audited region))
  : relation customers_geo :=
  map (fun x =>
         let c := cols (fst (fst x)) in
         let n := option_map (@cols nation) (snd (fst x)) in
         let r := option_map (@cols region) (snd x) in
         {| g_customer_key := c_custkey c;
            g_customer_name := c_name c;
            g_market_segment := c_mktsegment c;
            g_account_balance := c_acctbal c;
            g_nation_name := of_right n n_name;
            g_region_name := of_right r r_name |})
      (LEFT_JOIN
         (LEFT_JOIN b_customers b_nation
            (fun c n => eq_z (c_nationkey (cols c)) (n_nationkey (cols n))))
         b_region
         (fun cn r => eq_z (of_right (option_map (@cols nation) (snd cn))
                                     n_regionkey)
                           (r_regionkey (cols r)))).

Record customer_order_agg := {
  a_customer_key : col Z;
  a_customer_name : col string;
  a_market_segment : col string;
  a_nation_name : col string;
  a_region_name : col string;
  a_account_balance : col Q;
  a_total_orders : col Z;
  a_total_revenue : col Q;
  a_avg_order_value : col Q;
  a_first_order_date : col Z;
  a_last_order_date : col Z;
  a_days_since_last_order : col Z;
  a_order_frequency_days : col Q;
  a_fulfilled_orders : col Z;
  a_open_orders : col Z;
  a_partial_orders : col Z;
  a_fulfillment_rate : col Q;
  a_customer_tenure_days : col Z
}.

(** A row of [tv_customers_geo cg LEFT JOIN orders o]. *)
Definition geo_order := (customers_geo * option (audited orders))%type.

(** A column of the [o] side. *)
Definition o_ {A} (c : orders -> col A) (x : geo_order) : col A :=
  of_right (option_map (@cols orders) (snd x)) c.

(** The GROUP BY columns. *)
Definition group_key := (col Z * col string * col string * col string
                         * col string * col Q)%type.

Definition group_of (cg : customers_geo) : group_key :=
  (g_customer_key cg, g_customer_name cg, g_market_segment cg,
   g_nation_name cg, g_region_name cg, g_account_balance cg).

Definition group_eqb (a b : group_key) : bool :=
  match a, b with
  | (k1, n1, m1, na1, r1, b1), (k2, n2, m2, na2, r2, b2) =>
      col_eqb Z.eqb k1 k2 && col_eqb String.eqb n1 n2
      && col_eqb String.eqb m1 m2 && col_eqb String.eqb na1 na2
      && col_eqb String.eqb r1 r2 && col_eqb Qeq_bool b1 b2
  end.

(** The [customer_key] column of a group. *)
Definition group_customer (k : group_key) : col Z :=
  match k with (key, _, _, _, _, _) => key end.

(** Stage 2: the SELECT list of [tv_customer_order_agg] on one group. *)
Definition customer_order_agg_of (ansi : bool) (current_date : Z)
           (k : group_key) (grp : relation geo_order)
  : eval customer_order_agg :=
  let n := COUNT (o_ o_orderkey) grp in
  let first := MIN_z (o_ o_orderdate) grp in
  let last := MAX_z (o_ o_orderdate) grp in
  let count_status (st : string) :=
    COUNT_WHEN (fun x => eq_s (o_ o_orderstatus x) (Some st)) grp in
  bind (if holds (gt_z (Some n) (Some 1))
        then bind (DIV ansi (q_of_z (DATEDIFF last first))
                       (Some (inject_Z n - 1)%Q))
                  (fun d => inr (ROUND d 2))
        else inr None)
       (fun frequency =>
  bind (if holds (gt_z (Some n) (Some 0))
        then bind (DIV ansi (Some (100 * inject_Z (count_status "F"))%Q)
                       (Some (inject_Z n)))
                  (fun d => inr (ROUND d 2))
        else inr zero)
       (fun rate =>
  match k with
  | (key, name, segment, nation_name, region_name, balance) =>
      inr {| a_customer_key := key;
             a_customer_name := name;
             a_market_segment := segment;
             a_nation_name := nation_name;
             a_region_name := region_name;
             a_account_balance := balance;
             a_total_orders := Some n;
             a_total_revenue := COALESCE (SUM (o_ o_totalprice) grp) 0%Q;
             a_avg_order_value :=
               COALESCE (ROUND (AVG (o_ o_totalprice) grp) 2) 0%Q;
             a_first_order_date := first;
             a_last_order_date := last;
             a_days_since_last_order := DATEDIFF (Some current_date) last;
             a_order_frequency_days := frequency;
             a_fulfilled_orders := Some (count_status "F");
             a_open_orders := Some (count_status "O");
             a_partial_orders := Some (count_status "P");
             a_fulfillment_rate := rate;
             a_customer_tenure_days := DATEDIFF last first |}
  end)).

Definition tv_customer_order_agg (ansi : bool) (current_date : Z)
           (geo : relation customers_geo)
           (b_orders : relation (audited orders))
  : eval (relation customer_order_agg) :=
  let joined :=
    LEFT_JOIN geo b_orders
      (fun cg o => eq_z (g_customer_key cg) (o_custkey (cols o))) in
  SELECT (fun k =>
            customer_order_agg_of ansi current_date k
              (partition_of (fun x => group_of (fst x)) group_eqb k joined))
         (distinct group_eqb (map (fun x => group_of (fst x)) joined)).

Record customer_rfm := {
  rfm_agg : customer_order_agg;
  rfm_recency : Z;
  rfm_frequency : Z;
  rfm_monetary : Z
}.

(** Stage 3: only customers with orders get the three quintile scores. *)
Definition tv_customer_rfm (agg : relation customer_order_agg)
  : relation customer_rfm :=
  let with_orders := WHERE (fun r => gt_z (a_total_orders r) (Some 0)) agg in
  let recency :=
    NTILE 5 (fun a b => asc_z (a_days_since_last_order a)
                              (a_days_since_last_order b)) with_orders in
  let frequency :=
    NTILE 5 (fun a b => desc_z (a_total_orders a) (a_total_orders b))
          with_orders in
  let monetary :=
    NTILE 5 (fun a b => desc_q (a_total_revenue a) (a_total_revenue b))
          with_orders in
  map (fun x => {| rfm_agg := fst x;
                   rfm_recency := fst (snd x);
                   rfm_frequency := fst (snd (snd x));
                   rfm_monetary := snd (snd (snd x)) |})
      (combine with_orders (combine recency (combine frequency monetary))).

Record customer_orders := {
  customer_key : col Z;
  customer_name : col string;
  market_segment : col string;
  nation_name : col string;
  region_name : col string;
  account_balance : col Q;
  total_orders : col Z;
  total_revenue : col Q;
  avg_order_value : col Q;
  first_order_date : col Z;
  last_order_date : col Z;
  days_since_last_order : col Z;
  order_frequency_days : col Q;
  fulfilled_orders : col Z;
  open_orders : col Z;
  partial_orders : col Z;
  fulfillment_rate : col Q;
  customer_tenure_days : col Z;
  rfm_recency_score : col Z;
  rfm_frequency_score : col Z;
  rfm_monetary_score : col Z;
  customer_segment : col string
}.

Definition segment_of (r f m : Z) : string :=
  if (r <=? 2) && (f <=? 2) && (m <=? 2) then "Champions"
  else if (r <=? 2) && (f <=? 3) then "Loyal Customers"
  else if (r <=? 2) && (m <=? 2) then "Big Spenders"
  else if (r <=? 3) && (f <=? 3) then "Potential Loyalists"
  else if (4 <=? r) && (4 <=? f) then "At Risk"
  else if (4 <=? r) && (f <=? 2) then "Cannot Lose Them"
  else "Others".

(** Stage 4: the segment and the audit columns. *)
Definition tv_customer_orders_final (now : Z) (batch_id : string)
           (rfm : relation customer_rfm)
  : relation (stamped customer_orders) :=
  map (fun x =>
         let a := rfm_agg x in
         stamp now batch_id
           {| customer_key := a_customer_key a;
              customer_name := a_customer_name a;
              market_segment := a_market_segment a;
              nation_name := a_nation_name a;
              region_name := a_region_name a;
              account_balance := a_account_balance a;
              total_orders := a_total_orders a;
              total_revenue := a_total_revenue a;
              avg_order_value := a_avg_order_value a;
              first_order_date := a_first_order_date a;
              last_order_date := a_last_order_date a;
              days_since_last_order := a_days_since_last_order a;
              order_frequency_days := a_order_frequency_days a;
              fulfilled_orders := a_fulfilled_orders a;
              open_orders := a_open_orders a;
              partial_orders := a_partial_orders a;
              fulfillment_rate := a_fulfillment_rate a;
              customer_tenure_days := a_customer_tenure_days a;
              rfm_recency_score := Some (rfm_recency x);
              rfm_frequency_score := Some (rfm_frequency x);
              rfm_monetary_score := Some (rfm_monetary x);
              customer_segment :=
                Some (segment_of (rfm_recency x) (rfm_frequency x)
                                 (rfm_monetary x)) |})
      rfm.

(** The DECIMAL columns of the silver table
    (schemas/create_refined_schemas.py). *)
Definition customer_orders_fits (r : stamped customer_orders) : bool :=
  fits_decimal 15 2 (account_balance (fields r))
  && fits_decimal 18 2 (total_revenue (fields r))
  && fits_decimal 15 2 (avg_order_value (fields r))
  && fits_decimal 10 2 (order_frequency_days (fields r))
  && fits_decimal 5 2 (fulfillment_rate (fields r)).

(** The silver [customer_orders] table after the notebook ran, or the error
    the notebook stopped with: a division by zero in a view, or a value
    that overflows its column in the final INSERT OVERWRITE. *)
Definition refined_customer_orders (ansi : bool) (current_date now : Z)
           (batch_id : string)
           (b_customers : relation (audited customers))
           (b_nation : relation (audited nation))
           (b_region : relation (audited region))
           (b_orders : relation (audited orders))
  : eval (relation (stamped customer_orders)) :=
  bind (tv_customer_order_agg ansi current_date
          (tv_customers_geo b_customers b_nation b_region) b_orders)
       (fun agg =>
          INSERT_OVERWRITE customer_orders_fits
            (tv_customer_orders_final now batch_id (tv_customer_rfm agg))).

End RefinedCustomerOrders.

(* ===================================================================== *)
(** ** tests/data_quality_checks.py                                       *)
(* ===================================================================== *)

Module Quality.
Import Sql Extract Refined.

(** *** Check 4: business rules *)

Record rule_check := {
  check_type : string;
  check_name : string;
  violation_count : Z;
  status : string
}.

Definition rule (name : string) (violations : Z) : rule_check :=
  {| check_type := "Business Rule";
     check_name := name;
     violation_count := violations;
     status := CASE_WHEN (eq_z (Some violations) (Some 0)) "PASS" "FAIL" |}.

Definition hundred : col Q := Some (100 # 1)%Q.

Definition df_rules
           (s_order_details : relation (stamped RefinedOrderDetails.order_details))
           (s_customer_orders :
              relation (stamped RefinedCustomerOrders.customer_orders))
  : relation rule_check :=
  [ rule "No negative net_revenue"
      (COUNT_WHEN (fun r => lt_q (RefinedOrderDetails.net_revenue (fields r))
                                 zero) s_order_details);
    rule "No zero/neg quantity"
      (COUNT_WHEN (fun r => le_q (RefinedOrderDetails.quantity (fields r))
                                 zero) s_order_details);
    rule "Discount range 0-1"
      (COUNT_WHEN (fun r =>
                     OR (lt_q (RefinedOrderDetails.discount_pct (fields r)) zero)
                        (gt_q (RefinedOrderDetails.discount_pct (fields r)) one))
                  s_order_details);
    rule "Tax range 0-1"
      (COUNT_WHEN (fun r =>
                     OR (lt_q (RefinedOrderDetails.tax_pct (fields r)) zero)
                        (gt_q (RefinedOrderDetails.tax_pct (fields r)) one))
                  s_order_details);
    rule "Fulfillment rate 0-100"
      (COUNT_WHEN (fun r =>
                     OR (lt_q (RefinedCustomerOrders.fulfillment_rate (fields r))
                              zero)
                        (gt_q (RefinedCustomerOrders.fulfillment_rate (fields r))
                              hundred))
                  s_customer_orders);
    rule "Segment not null"
      (COUNT_WHEN (fun r =>
                     IS_NULL (RefinedCustomerOrders.customer_segment (fields r)))
                  s_customer_orders) ].

(** *** Check 5: freshness *)

Record freshness_check := {
  f_check_type : string;
  table_name : string;
  last_refresh : col Z;
  hours_since : col Q;
  f_status : string
}.

(** One row of [df_fresh]. The division is by the literal 3600; the engine
    does it in floating point, the embedding in exact rationals. *)
Definition freshness (now : Z) (table : string) (last : col Z)
  : freshness_check :=
  let hours :=
    ROUND (DIV_BY (3600 # 1)
             (q_of_z (z_sub (unix_timestamp (Some now)) (unix_timestamp last))))
          1 in
  {| f_check_type := "Freshness";
     table_name := table;
     last_refresh := last;
     hours_since := hours;
     f_status := CASE_WHEN (le_q hours (Some (25 # 1)%Q)) "PASS" "STALE" |}.

Definition df_fresh (now : Z)
           (b_orders : relation (audited orders))
           (s_order_details : relation (stamped RefinedOrderDetails.order_details))
           (s_customer_orders :
              relation (stamped RefinedCustomerOrders.customer_orders))
  : relation freshness_check :=
  [ freshness now "bronze.orders" (MAX_z (@_ingested_at orders) b_orders);
    freshness now "silver.order_details"
              (MAX_z (@_refined_at _) s_order_details);
    freshness now "silver.customer_orders"
              (MAX_z (@_refined_at _) s_customer_orders) ].

(** Microseconds in an hour. *)
Definition hour : Z := 3600 * 1000000.

(** *** Check 1: row counts *)

Record row_count_check := {
  rc_check_type : string;
  rc_table_name : string;
  row_count : Z;
  rc_status : string
}.

(** One row of [df_rows]: [count] of all rows of the table. *)
Definition row_count_of {R} (table : string) (rows : relation R)
  : row_count_check :=
  let n := COUNT_STAR rows in
  {| rc_check_type := "Row Count";
     rc_table_name := table;
     row_count := n;
     rc_status := CASE_WHEN (gt_z (Some n) (Some 0)) "PASS" "FAIL" |}.

Definition df_rows
           (b_orders : relation (audited orders))
           (b_customers : relation (audited customers))
           (b_lineitem : relation (audited lineitem))
           (b_suppliers : relation (audited suppliers))
           (b_parts : relation (audited parts))
           (b_partsupp : relation (audited partsupp))
           (b_nation : relation (audited nation))
           (b_region : relation (audited region))
           (s_order_details : relation (stamped RefinedOrderDetails.order_details))
           (s_customer_orders :
              relation (stamped RefinedCustomerOrders.customer_orders))
           (s_supplier_parts :
              relation (stamped RefinedSupplierParts.supplier_parts))
  : relation row_count_check :=
  [ row_count_of "bronze.orders" b_orders;
    row_count_of "bronze.customers" b_customers;
    row_count_of "bronze.lineitem" b_lineitem;
    row_count_of "bronze.suppliers" b_suppliers;
    row_count_of "bronze.parts" b_parts;
    row_count_of "bronze.partsupp" b_partsupp;
    row_count_of "bronze.nation" b_nation;
    row_count_of "bronze.region" b_region;
    row_count_of "silver.order_details" s_order_details;
    row_count_of "silver.customer_orders" s_customer_orders;
    row_count_of "silver.supplier_parts" s_supplier_parts ].

(** *** Check 2: null validation *)

Record null_check := {
  nc_check_type : string;
  nc_check_name : string;
  null_count : Z;
  nc_status : string
}.

Definition null_check_of (name : string) (nulls : Z) : null_check :=
  {| nc_check_type := "Null Check";
     nc_check_name := name;
     null_count := nulls;
     nc_status := CASE_WHEN (eq_z (Some nulls) (Some 0)) "PASS" "FAIL" |}.

Definition df_nulls
           (b_orders : relation (audited orders))
           (b_customers : relation (audited customers))
           (b_lineitem : relation (audited lineitem))
           (s_order_details : relation (stamped RefinedOrderDetails.order_details))
           (s_customer_orders :
              relation (stamped RefinedCustomerOrders.customer_orders))
  : relation null_check :=
  [ null_check_of "orders.o_orderkey"
      (COUNT_WHEN (fun r => IS_NULL (o_orderkey (cols r))) b_orders);
    null_check_of "customers.c_custkey"
      (COUNT_WHEN (fun r => IS_NULL (c_custkey (cols r))) b_customers);
    null_check_of "lineitem.l_orderkey"
      (COUNT_WHEN (fun r => IS_NULL (l_orderkey (cols r))) b_lineitem);
    null_check_of "order_details.net_revenue"
      (COUNT_WHEN (fun r => IS_NULL (RefinedOrderDetails.net_revenue (fields r)))
                  s_order_details);
    null_check_of "customer_orders.customer_key"
      (COUNT_WHEN (fun r =>
                     IS_NULL (RefinedCustomerOrders.customer_key (fields r)))
                  s_customer_orders) ].

(** *** Check 3: referential integrity *)

Record ref_check := {
  ri_check_type : string;
  ri_check_name : string;
  orphan_count : Z;
  ri_status : string
}.

Definition ref_check_of (name : string) (orphans : Z) : ref_check :=
  {| ri_check_type := "Referential Integrity";
     ri_check_name := name;
     orphan_count := orphans;
     ri_status := CASE_WHEN (eq_z (Some orphans) (Some 0)) "PASS" "FAIL" |}.

(** [SELECT count of all rows FROM child LEFT JOIN parent ON fk = pk WHERE
    pk IS NULL] *)
Definition orphans {A B} (fk : A -> col Z) (pk : B -> col Z)
           (child : relation A) (parent : relation B) : Z :=
  COUNT_STAR
    (WHERE (fun x => IS_NULL (of_right (snd x) pk))
       (LEFT_JOIN child parent (fun a b => eq_z (fk a) (pk b)))).

(** A child row that no parent row joins. *)
Definition unmatched {A B} (fk : A -> col Z) (pk : B -> col Z)
           (parent : relation B) (a : A) : bool :=
  negb (existsb (fun b => holds (eq_z (fk a) (pk b))) parent).

Definition df_ref
           (b_orders : relation (audited orders))
           (b_customers : relation (audited customers))
           (b_lineitem : relation (audited lineitem))
           (s_order_details : relation (stamped RefinedOrderDetails.order_details))
  : relation ref_check :=
  [ ref_check_of "orders -> customers"
      (orphans (fun o => o_custkey (cols o)) (fun c => c_custkey (cols c))
               b_orders b_customers);
    ref_check_of "lineitem -> orders"
      (orphans (fun li => l_orderkey (cols li)) (fun o => o_orderkey (cols o))
               b_lineitem b_orders);
    ref_check_of "order_details -> orders"
      (orphans (fun od => RefinedOrderDetails.order_key (fields od))
               (fun o => o_orderkey (cols o))
               s_order_details b_orders) ].

End Quality.

(* ===================================================================== *)
(** * Verification                                                        *)
(* ===================================================================== *)

Module OrchestratorFacts.
Import Orchestrator.
Local Open Scope py_scope.

Lemma run_pipeline_table (p : Pipeline) (w : World) :
  run_pipeline p w
  = run_groups_then w (pipeline_timeout p) (pipeline_groups p)
      (pipeline_summary) init.
Proof. destruct p; reflexivity. Qed.

(** **** The [results] dict *)

Lemma existsb_eqb_In (k : string) (l : list string) :
  existsb (String.eqb k) l = true <-> In k l.
Proof.
  rewrite existsb_exists. split.
  - intros [x [Hin Heq]]. apply String.eqb_eq in Heq. now subst.
  - intros Hin. exists k. split; [assumption | apply String.eqb_refl].
Qed.

Lemma keys_set (k : string) (v : StageResult) (d : Py.dict StageResult) :
  Py.keys (Py.set k v d) = add_key (Py.keys d) k.
Proof.
  unfold add_key. induction d as [| [k' v'] tl IH]; simpl.
  - reflexivity.
  - destruct (String.eqb k k') eqn:E; simpl.
    + reflexivity.
    + rewrite IH. unfold Py.keys.
      destruct (existsb (String.eqb k) (map fst tl)); reflexivity.
Qed.

Lemma get_set_same (k : string) (v : StageResult) (d : Py.dict StageResult) :
  Py.get k (Py.set k v d) = Some v.
Proof.
  induction d as [| [k' v'] tl IH]; simpl.
  - now rewrite String.eqb_refl.
  - destruct (String.eqb k k') eqn:E; simpl; rewrite E; auto.
Qed.

Lemma get_In_keys (k : string) (d : Py.dict StageResult) :
  In k (Py.keys d) -> exists v, Py.get k d = Some v /\ In (k, v) d.
Proof.
  induction d as [| [k' v'] tl IH]; simpl; [tauto |].
  intros H. destruct (String.eqb k k') eqn:E.
  - apply String.eqb_eq in E. subst. eauto.
  - destruct H as [H | H].
    + subst. rewrite String.eqb_refl in E. discriminate.
    + destruct (IH H) as [v [Hg Hi]]. eauto.
Qed.

Lemma get_Some_In (k : string) (v : StageResult) (d : Py.dict StageResult) :
  Py.get k d = Some v -> In (k, v) d.
Proof.
  induction d as [| [k' v'] tl IH]; simpl; [discriminate |].
  destruct (String.eqb k k') eqn:E.
  - apply String.eqb_eq in E. intros [= ->]. subst. now left.
  - auto.
Qed.

(** **** One stage *)

Lemma run_stage_eq (w : World) (path desc : string) (t : Z) (s : State) :
  run_stage w path desc t s
  = ({| results := results s; ticks := S (S (ticks s));
        calls := calls s ++ [path];
        stdout := (stdout s ++ [PStage desc path])
                  ++ [outcome_line w path t s] |},
     Ok (recorded w path t s)).
Proof.
  unfold run_stage, recorded, outcome_line, bind, now, print,
    dbutils_notebook_run, ret; simpl.
  destruct (notebook_run w path t (COMMON_ARGS w)); reflexivity.
Qed.

Lemma assign_run_stage (w : World) (t : Z) (st : StageDecl) (s : State) :
  assign (sd_key st) (run_stage w (sd_path st) (sd_desc st) t) s
  = (stage_step w t st s, Ok tt).
Proof. unfold assign, bind. rewrite run_stage_eq. reflexivity. Qed.

Lemma run_stages_then_eq (w : World) (t : Z) (sts : list StageDecl)
      (k : M unit) (s : State) :
  run_stages_then w t sts k s = k (after_stages w t sts s).
Proof.
  unfold after_stages. revert s.
  induction sts as [| st tl IH]; intros s; simpl.
  - reflexivity.
  - unfold bind at 1. rewrite assign_run_stage. apply IH.
Qed.

Lemma keys_after_stages (w : World) (t : Z) (sts : list StageDecl)
      (s : State) :
  Py.keys (results (after_stages w t sts s))
  = fold_left add_key (map sd_key sts) (Py.keys (results s)).
Proof.
  unfold after_stages. revert s.
  induction sts as [| st tl IH]; intros s; simpl; [reflexivity |].
  rewrite IH. simpl. now rewrite keys_set.
Qed.

Lemma calls_after_stages (w : World) (t : Z) (sts : list StageDecl)
      (s : State) :
  calls (after_stages w t sts s) = (calls s ++ map sd_path sts)%list.
Proof.
  unfold after_stages. revert s.
  induction sts as [| st tl IH]; intros s; simpl.
  - now rewrite app_nil_r.
  - rewrite IH. simpl. now rewrite <- app_assoc.
Qed.

(** **** Gates *)

Lemma items_gate_eq (sel : string -> bool)
      (msg : string -> StageResult -> string)
      (l : Py.dict StageResult) (s : State) :
  for_each l (fun kv =>
    if sel (fst kv) && is_failed (snd kv)
    then raise (RuntimeError (msg (fst kv) (snd kv)))
    else ret tt) s
  = (s, match find (fun kv => sel (fst kv) && is_failed (snd kv)) l with
        | Some kv => Raise (RuntimeError (msg (fst kv) (snd kv)))
        | None => Ok tt
        end).
Proof.
  induction l as [| kv tl IH]; simpl; [reflexivity |].
  unfold bind at 1.
  destruct (sel (fst kv) && is_failed (snd kv)); simpl; [reflexivity |].
  apply IH.
Qed.

Lemma keys_gate_eq (msg : string -> string) (ks : list string) (s : State) :
  for_each ks (fun critical =>
    v <- subscript critical ;;
    if is_failed v
    then raise (RuntimeError (msg critical))
    else ret tt) s
  = (s, match keys_check msg ks (results s) with
        | Some e => Raise e
        | None => Ok tt
        end).
Proof.
  induction ks as [| k tl IH]; simpl; [reflexivity |].
  unfold bind at 1. unfold bind at 1. unfold subscript, bind, get_results.
  destruct (Py.get k (results s)) as [v |]; simpl; [| reflexivity].
  destruct (is_failed v); simpl; [reflexivity |].
  apply IH.
Qed.

Lemma run_gate_eq (g : Gate) (s : State) :
  run_gate g s
  = (s, match gate_check g (results s) with
        | Some e => Raise e
        | None => Ok tt
        end).
Proof.
  destruct g as [sel msg | ks msg |]; simpl.
  - unfold bind, get_results. rewrite items_gate_eq.
    destruct (find _ (results s)); reflexivity.
  - apply keys_gate_eq.
  - reflexivity.
Qed.

Lemma run_groups_then_cons (w : World) (t : Z) (g : Group)
      (tl : list Group) (k : M unit) (s : State) :
  run_groups_then w t (g :: tl) k s
  = let s2 := after_stages w t (g_stages g) s in
    match gate_check (g_gate g) (results s2) with
    | Some e => (s2, Raise e)
    | None => run_groups_then w t tl k s2
    end.
Proof.
  cbn [run_groups_then]. rewrite run_stages_then_eq. cbv zeta.
  destruct (g_gate g) as [sel msg | ks msg |].
  - unfold bind at 1. rewrite run_gate_eq.
    destruct (gate_check _ _); reflexivity.
  - unfold bind at 1. rewrite run_gate_eq.
    destruct (gate_check _ _); reflexivity.
  - reflexivity.
Qed.

Lemma run_groups_then_app (w : World) (t : Z) (pre rest : list Group)
      (k : M unit) (s : State) :
  run_groups_then w t (pre ++ rest) k s
  = match run_groups_then w t pre (ret tt) s with
    | (s1, Ok _) => run_groups_then w t rest k s1
    | (s1, Raise e) => (s1, Raise e)
    end.
Proof.
  revert s. induction pre as [| g tl IH]; intros s.
  - reflexivity.
  - rewrite <- app_comm_cons. rewrite !run_groups_then_cons. cbv zeta.
    destruct (gate_check _ _); [reflexivity | apply IH].
Qed.

Lemma reaches_state (w : World) (t : Z) (pre : list Group) (s s1 : State) :
  run_groups_then w t pre (ret tt) s = (s1, Ok tt) ->
  Py.keys (results s1) = keys_after (Py.keys (results s)) pre
  /\ calls s1 = (calls s ++ all_paths pre)%list.
Proof.
  revert s. induction pre as [| g tl IH]; intros s H.
  - injection H as <-. simpl. now rewrite app_nil_r.
  - rewrite run_groups_then_cons in H. cbv zeta in H.
    destruct (gate_check _ _); [discriminate |].
    apply IH in H. destruct H as [Hk Hc].
    rewrite keys_after_stages in Hk. rewrite calls_after_stages in Hc.
    simpl. split; [exact Hk |]. now rewrite Hc, app_assoc.
Qed.

Lemma well_gated_app (seen : list string) (pre rest : list Group) :
  well_gated seen (pre ++ rest) = true ->
  well_gated (keys_after seen pre) rest = true.
Proof.
  revert seen. induction pre as [| g tl IH]; intros seen H; simpl in *.
  - exact H.
  - apply andb_true_iff in H. destruct H as [_ H]. now apply IH.
Qed.

(** **** A gate fires on the first failing critical stage of its group *)

Lemma list_eqb_eq (a b : list string) : list_eqb a b = true -> a = b.
Proof.
  revert b. induction a as [| x a IH]; intros [| y b] H; simpl in H;
    try discriminate; [reflexivity |].
  apply andb_true_iff in H. destruct H as [Hx Hl].
  apply String.eqb_eq in Hx. f_equal; auto.
Qed.

Lemma nodupb_NoDup (l : list string) : nodupb l = true -> NoDup l.
Proof.
  induction l as [| x tl IH]; simpl; intros H; constructor.
  - apply andb_true_iff in H. destruct H as [H _].
    apply negb_true_iff in H. intros Hin.
    apply existsb_eqb_In in Hin. congruence.
  - apply andb_true_iff in H. tauto.
Qed.

Lemma get_of_In (rs : Py.dict StageResult) (k : string) (v : StageResult) :
  NoDup (Py.keys rs) -> In (k, v) rs -> Py.get k rs = Some v.
Proof.
  induction rs as [| [k' v'] tl IH]; simpl; intros Hnd Hin; [tauto |].
  inversion Hnd as [| ? ? Hnotin Hnd']; subst.
  destruct Hin as [Heq | Hin].
  - injection Heq as -> ->. now rewrite String.eqb_refl.
  - destruct (String.eqb k k') eqn:E.
    + apply String.eqb_eq in E. subst. exfalso. apply Hnotin.
      change k' with (fst (k', v)). now apply in_map.
    + auto.
Qed.

Lemma filter_andb {A} (a b : A -> bool) (l : list A) :
  filter (fun x => a x && b x) l = filter b (filter a l).
Proof.
  induction l as [| x tl IH]; simpl; [reflexivity |].
  destruct (a x); simpl; [destruct (b x) |]; now rewrite IH.
Qed.

Lemma find_items (sel : string -> bool) (rs l : Py.dict StageResult) :
  (forall kv, In kv l -> Py.get (fst kv) rs = Some (snd kv)) ->
  match filter (fun k => sel k && failed_at rs k) (Py.keys l) with
  | [] => find (fun kv => sel (fst kv) && is_failed (snd kv)) l = None
  | k :: _ =>
      exists v, Py.get k rs = Some v /\ is_failed v = true
                /\ find (fun kv => sel (fst kv) && is_failed (snd kv)) l
                   = Some (k, v)
  end.
Proof.
  induction l as [| [k v] tl IH]; intros Hget; simpl; [reflexivity |].
  assert (Hk : Py.get k rs = Some v) by (apply (Hget (k, v)); now left).
  unfold failed_at at 1. rewrite Hk.
  destruct (sel k && is_failed v) eqn:E.
  - exists v. apply andb_true_iff in E. tauto.
  - apply IH. intros kv Hin. apply Hget. now right.
Qed.

Lemma keys_check_filter (msg : string -> string) (ks : list string)
      (rs : Py.dict StageResult) :
  (forall k, In k ks -> In k (Py.keys rs)) ->
  match filter (failed_at rs) ks with
  | [] => keys_check msg ks rs = None
  | k :: _ =>
      exists v, Py.get k rs = Some v /\ is_failed v = true
                /\ keys_check msg ks rs = Some (RuntimeError (msg k))
  end.
Proof.
  induction ks as [| k tl IH]; intros Hin; simpl; [reflexivity |].
  destruct (get_In_keys k rs) as [v [Hg _]]; [apply Hin; now left |].
  unfold failed_at at 1. rewrite Hg.
  destruct (is_failed v) eqn:E.
  - exists v. auto.
  - apply IH. intros k' H'. apply Hin. now right.
Qed.

Lemma gate_check_scoped (g : Group) (rs : Py.dict StageResult) :
  nodupb (Py.keys rs) = true ->
  gate_scoped g (Py.keys rs) = true ->
  match failing_critical g rs with
  | [] => gate_check (g_gate g) rs = None
  | k :: _ =>
      exists v, Py.get k rs = Some v /\ is_failed v = true
                /\ gate_check (g_gate g) rs
                   = Some (RuntimeError (gate_message (g_gate g) k v))
  end.
Proof.
  intros Hnd Hsc. apply nodupb_NoDup in Hnd.
  unfold failing_critical, critical, gate_scoped in *.
  destruct (g_gate g) as [sel msg | ks msg |]; simpl.
  - apply list_eqb_eq in Hsc.
    rewrite filter_andb, <- Hsc, <- filter_andb.
    assert (H : forall kv, In kv rs -> Py.get (fst kv) rs = Some (snd kv))
      by (intros [k v] Hin; now apply get_of_In).
    apply (find_items sel rs rs) in H. revert H.
    destruct (filter (fun k => sel k && failed_at rs k) (Py.keys rs))
      as [| k tl].
    + intros H. now rewrite H.
    + intros [v [Hg [Hf Hfind]]].
      exists v. rewrite Hfind. auto.
  - apply andb_true_iff in Hsc. destruct Hsc as [Hord Hin].
    apply list_eqb_eq in Hord.
    rewrite filter_andb, <- Hord.
    apply keys_check_filter. intros k Hk.
    rewrite forallb_forall in Hin. apply existsb_eqb_In. now apply Hin.
  - induction (map sd_key (g_stages g)); simpl; auto.
Qed.

(** **** The summary cell *)

Lemma summary_rows_eq (l : Py.dict StageResult) (s : State) :
  exists out,
    for_each l (fun kv =>
      let icon := match status (snd kv) with
                  | SUCCESS => "OK"
                  | FAILED => "FAIL"
                  end in
      print (PRow (fst kv) icon (elapsed (snd kv)))) s
    = ({| results := results s; ticks := ticks s; calls := calls s;
          stdout := (stdout s ++ out)%list |}, Ok tt).
Proof.
  revert s. induction l as [| kv tl IH]; intros s; simpl.
  - exists []. rewrite app_nil_r. now destruct s.
  - unfold bind at 1. unfold print at 1.
    match goal with |- context [for_each tl ?f ?s0] =>
      destruct (IH s0) as [out Hout] end.
    simpl in Hout. eexists. rewrite Hout. rewrite <- app_assoc. reflexivity.
Qed.

Lemma pipeline_summary_eq (s : State) :
  exists out,
    pipeline_summary s
    = ({| results := results s; ticks := ticks s; calls := calls s;
          stdout := (stdout s ++ out)%list |},
       match failed_of (results s) with
       | [] => Ok tt
       | _ => Raise (RuntimeError ("Pipeline finished with failures: "
                ++ Py.repr_list (Py.keys (failed_of (results s)))))
       end)
    /\ last out (PResult "")
       = PResult (match overall_status (results s) with
                  | SUCCESS => "SUCCESS"
                  | FAILED =>
                      "FAILED ("
                      ++ Py.str_of_nat (List.length (failed_of (results s)))
                      ++ " failures)"
                  end).
Proof.
  unfold pipeline_summary, overall_status.
  unfold bind at 1. unfold get_results at 1.
  unfold bind at 1.
  destruct (summary_rows_eq (results s) s) as [out Hout].
  cbv zeta in Hout. rewrite Hout. unfold bind at 1. unfold print at 1. simpl.
  exists (out ++ [PResult
            match failed_of (results s) with
            | [] => "SUCCESS"
            | _ :: _ =>
                "FAILED ("
                ++ Py.str_of_nat (List.length (failed_of (results s)))
                ++ " failures)"
            end])%list.
  rewrite last_last, app_assoc.
  split; destruct (failed_of (results s)); reflexivity.
Qed.

(** **** Text of the gate errors *)

Lemma prefix_app (k b : string) : prefix k (k ++ b) = true.
Proof.
  induction k as [| c k IH]; simpl.
  - now destruct b.
  - destruct (ascii_dec c c); [exact IH | contradiction].
Qed.

Lemma contains_prefix (k h : string) :
  prefix k h = true -> Py.contains k h = true.
Proof.
  intros H. destruct h; cbn [Py.contains]; rewrite H; reflexivity.
Qed.

Lemma contains_app_l (k a h : string) :
  Py.contains k h = true -> Py.contains k (a ++ h) = true.
Proof.
  intros H. induction a as [| c a IH]; simpl; [exact H |].
  rewrite IH. apply orb_true_r.
Qed.

Lemma contains_infix (k a b : string) : Py.contains k (a ++ k ++ b) = true.
Proof. apply contains_app_l, contains_prefix, prefix_app. Qed.

Lemma contains_suffix (k a : string) : Py.contains k (a ++ k) = true.
Proof.
  apply contains_app_l, contains_prefix.
  induction k as [| c k IH]; simpl; [reflexivity |].
  destruct (ascii_dec c c); [exact IH | contradiction].
Qed.

Lemma gate_message_names (p : Pipeline) (g : Group) (k : string)
      (v : StageResult) :
  In g (pipeline_groups p) ->
  critical g k = true ->
  Py.contains k (gate_message (g_gate g) k v) = true.
Proof.
  intros Hin Hc.
  destruct p; simpl in Hin;
    repeat (destruct Hin as [<- | Hin]);
    try contradiction; try discriminate Hc;
    first
      [ exact (contains_infix k "Schema setup failed at '"
                 ("': " ++ Py.fmt_opt (error v)))
      | exact (contains_suffix k "Schema setup failed: ")
      | exact (contains_suffix k "Critical extract failed: ")
      | exact (contains_suffix k "Refined stage failed: ") ].
Qed.

(** **** Whole runs *)

Lemma pipelines_well_gated (p : Pipeline) :
  well_gated [] (pipeline_groups p) = true
  /\ nodupb (all_paths (pipeline_groups p)) = true.
Proof. destruct p; split; vm_compute; reflexivity. Qed.

Lemma after_group_eq (p : Pipeline) (w : World) (g : Group) (s1 : State) :
  after_group p w g s1 = after_stages w (pipeline_timeout p) (g_stages g) s1.
Proof. unfold after_group. now rewrite run_stages_then_eq. Qed.

Lemma all_paths_app (a b : list Group) :
  all_paths (a ++ b) = (all_paths a ++ all_paths b)%list.
Proof. unfold all_paths. apply flat_map_app. Qed.

Lemma NoDup_app_disjoint {A} (a b : list A) (x : A) :
  NoDup (a ++ b) -> In x b -> ~ In x a.
Proof.
  induction a as [| y a IH]; simpl; intros Hnd Hb Ha; [assumption |].
  inversion Hnd as [| ? ? Hnotin Hnd']; subst.
  destruct Ha as [-> | Ha].
  - apply Hnotin. apply in_or_app. now right.
  - now apply IH.
Qed.

Lemma summary_calls_grow : calls_grow pipeline_summary.
Proof.
  intros s s' o x H Hin.
  destruct (pipeline_summary_eq s) as [out [Heq _]].
  rewrite Heq in H. injection H as <- _. exact Hin.
Qed.

Lemma groups_calls_grow (w : World) (t : Z) (gs : list Group) (k : M unit) :
  calls_grow k -> calls_grow (run_groups_then w t gs k).
Proof.
  intros Hk. induction gs as [| g tl IH]; [exact Hk |].
  intros s s' o x H Hin. rewrite run_groups_then_cons in H. cbv zeta in H.
  assert (Hs2 : In x (calls (after_stages w t (g_stages g) s))).
  { rewrite calls_after_stages. apply in_or_app. now left. }
  destruct (gate_check _ _).
  - injection H as <- _. exact Hs2.
  - eapply IH; eassumption.
Qed.

(** The gate of a group that was reached decides on the first failing
    critical stage of that group. *)
Lemma gate_at_split (p : Pipeline) (w : World) (pre post : list Group)
      (g : Group) (s1 : State) :
  pipeline_groups p = (pre ++ g :: post)%list ->
  reaches p w pre s1 ->
  let s2 := after_group p w g s1 in
  match failing_critical g (results s2) with
  | [] => gate_check (g_gate g) (results s2) = None
  | k :: _ =>
      exists v, Py.get k (results s2) = Some v /\ is_failed v = true
                /\ gate_check (g_gate g) (results s2)
                   = Some (RuntimeError (gate_message (g_gate g) k v))
  end.
Proof.
  intros Hsplit Hreach s2.
  destruct (pipelines_well_gated p) as [Hwg _].
  rewrite Hsplit in Hwg. apply well_gated_app in Hwg.
  apply reaches_state in Hreach. destruct Hreach as [Hkeys _].
  simpl in Hkeys, Hwg.
  apply andb_true_iff in Hwg. destruct Hwg as [Hwg _].
  apply andb_true_iff in Hwg. destruct Hwg as [Hnd Hsc].
  assert (Hk2 : Py.keys (results s2)
                = fold_left add_key (map sd_key (g_stages g))
                    (keys_after [] pre)).
  { unfold s2. rewrite after_group_eq, keys_after_stages. now rewrite Hkeys. }
  apply gate_check_scoped; now rewrite Hk2.
Qed.

(** C2 (as amended). Once the stages of a group have run: if a critical
    stage of the group is recorded FAILED, the run ends there with a
    RuntimeError whose text names the first failing critical stage of the
    group, and no stage declared in a later group is called; if no critical
    stage of the group failed (whatever the non-critical ones did), every
    stage of the next group is called. *)
Theorem critical_failure_gates_later_groups
        (p : Pipeline) (w : World) (pre post : list Group) (g : Group)
        (s1 : State) :
  pipeline_groups p = (pre ++ g :: post)%list ->
  reaches p w pre s1 ->
  let s2 := after_group p w g s1 in
  match failing_critical g (results s2) with
  | k :: _ =>
      (exists v,
          Py.get k (results s2) = Some v
          /\ run_pipeline p w
             = (s2, Raise (RuntimeError (gate_message (g_gate g) k v)))
          /\ Py.contains k (gate_message (g_gate g) k v) = true)
      /\ (forall g' st, In g' post -> In st (g_stages g') ->
                        ~ In (sd_path st) (calls s2))
  | [] =>
      forall g' post', post = g' :: post' ->
      forall st, In st (g_stages g') ->
                 In (sd_path st) (calls (fst (run_pipeline p w)))
  end.
Proof.
  intros Hsplit Hreach s2.
  pose proof (@gate_at_split p w pre post g s1 Hsplit Hreach) as Hgate.
  cbv zeta in Hgate. fold s2 in Hgate.
  assert (Hrun : run_pipeline p w
                 = match gate_check (g_gate g) (results s2) with
                   | Some e => (s2, Raise e)
                   | None => run_groups_then w (pipeline_timeout p) post
                               pipeline_summary s2
                   end).
  { rewrite run_pipeline_table, Hsplit, run_groups_then_app.
    unfold reaches in Hreach. rewrite Hreach, run_groups_then_cons.
    cbv zeta. unfold s2. now rewrite after_group_eq. }
  destruct (failing_critical g (results s2)) as [| k tl] eqn:Hfc.
  - intros g' post' -> st Hst.
    rewrite Hgate in Hrun. rewrite Hrun, run_groups_then_cons. cbv zeta.
    set (s3 := after_stages w (pipeline_timeout p) (g_stages g') s2).
    assert (H3 : In (sd_path st) (calls s3)).
    { unfold s3. rewrite calls_after_stages. apply in_or_app. right.
      now apply in_map. }
    destruct (gate_check (g_gate g') (results s3)); [exact H3 |].
    destruct (run_groups_then w (pipeline_timeout p) post'
                pipeline_summary s3) as [s' o] eqn:Hrest.
    eapply groups_calls_grow; [apply summary_calls_grow | exact Hrest |].
    exact H3.
  - destruct Hgate as [v [Hget [Hfail Hcheck]]]. split.
    + exists v. rewrite Hcheck in Hrun. repeat split; try assumption.
      apply gate_message_names with (p := p).
      * rewrite Hsplit. apply in_or_app. right. now left.
      * assert (Hin : In k (failing_critical g (results s2)))
          by (rewrite Hfc; now left).
        unfold failing_critical in Hin. apply filter_In in Hin.
        destruct Hin as [_ Hin]. apply andb_true_iff in Hin. tauto.
    + intros g' st Hg' Hst.
      destruct (pipelines_well_gated p) as [_ Hnd].
      apply nodupb_NoDup in Hnd.
      apply reaches_state in Hreach. destruct Hreach as [_ Hc1].
      unfold s2. rewrite after_group_eq, calls_after_stages, Hc1. simpl.
      rewrite Hsplit in Hnd.
      replace (pre ++ g :: post)%list with ((pre ++ [g]) ++ post)%list in Hnd
        by (now rewrite <- app_assoc).
      rewrite all_paths_app in Hnd.
      replace (all_paths pre ++ map sd_path (g_stages g))%list
        with (all_paths (pre ++ [g])).
      * eapply NoDup_app_disjoint; [exact Hnd |].
        unfold all_paths. apply in_flat_map. exists g'. split; [assumption |].
        now apply in_map.
      * rewrite all_paths_app. simpl. now rewrite app_nil_r.
Qed.

Lemma critical_failure_gates_later_groups_witness :
  let w := world_failing ["../extract/extract_orders";
                          "../extract/extract_lineitem"] in
  let pre := firstn 1 sales_groups in
  let post := skipn 2 sales_groups in
  let g := nth 1 sales_groups {| g_stages := []; g_gate := GateNone |} in
  let s1 := fst (run_groups_then w sales_timeout pre (ret tt) init) in
  let s2 := after_group SalesAnalytics w g s1 in
  failing_critical g (results s2) = ["ext_orders"; "ext_lineitem"]
  /\ (exists v,
        Py.get "ext_orders" (results s2) = Some v
        /\ run_pipeline SalesAnalytics w
           = (s2, Raise (RuntimeError
                           (gate_message (g_gate g) "ext_orders" v)))
        /\ Py.contains "ext_orders"
             (gate_message (g_gate g) "ext_orders" v) = true)
  /\ (forall g' st, In g' post -> In st (g_stages g') ->
                    ~ In (sd_path st) (calls s2)).
Proof.
  intros w pre post g s1 s2.
  assert (Hfc : failing_critical g (results s2)
                = ["ext_orders"; "ext_lineitem"])
    by (vm_compute; reflexivity).
  split; [exact Hfc |].
  pose proof (@critical_failure_gates_later_groups
                SalesAnalytics w pre post g s1) as H.
  cbv zeta in H. fold s2 in H. rewrite Hfc in H.
  apply H; vm_compute; reflexivity.
Defined.

(** C2 (as stated) fails: with both critical extracts failing, the error
    that aborts the run names [ext_orders] only. *)
Lemma gate_error_does_not_enumerate :
  ~ (forall (p : Pipeline) (w : World) (pre post : list Group) (g : Group)
            (s1 : State),
        pipeline_groups p = (pre ++ g :: post)%list ->
        reaches p w pre s1 ->
        let s2 := after_group p w g s1 in
        failing_critical g (results s2) <> [] ->
        exists msg,
          run_pipeline p w = (s2, Raise (RuntimeError msg))
          /\ enumerates msg (failing_critical g (results s2))).
Proof.
  intros H.
  pose (w := world_failing ["../extract/extract_orders";
                            "../extract/extract_lineitem"]).
  pose (pre := firstn 1 sales_groups).
  pose (s1 := fst (run_groups_then w sales_timeout pre (ret tt) init)).
  specialize (H SalesAnalytics w pre (skipn 2 sales_groups)
                (nth 1 sales_groups {| g_stages := []; g_gate := GateNone |})
                s1 eq_refl).
  destruct H as [msg [Hrun Hen]].
  - vm_compute. reflexivity.
  - vm_compute. discriminate.
  - specialize (Hen "ext_lineitem").
    assert (Hin : In "ext_lineitem"
              (failing_critical
                 (nth 1 sales_groups {| g_stages := []; g_gate := GateNone |})
                 (results (after_group SalesAnalytics w
                    (nth 1 sales_groups
                       {| g_stages := []; g_gate := GateNone |}) s1))))
      by (vm_compute; tauto).
    apply Hen in Hin.
    vm_compute in Hrun. injection Hrun as <-.
    vm_compute in Hin. discriminate.
Qed.

(** **** How a run ends *)

Lemma groups_outcome (w : World) (t : Z) (gs : list Group) (k : M unit)
      (s : State) :
  (exists s5,
      run_groups_then w t gs (ret tt) s = (s5, Ok tt)
      /\ run_groups_then w t gs k s = k s5)
  \/ (exists pre g post s1 e,
         gs = (pre ++ g :: post)%list
         /\ run_groups_then w t pre (ret tt) s = (s1, Ok tt)
         /\ gate_check (g_gate g)
              (results (after_stages w t (g_stages g) s1)) = Some e
         /\ run_groups_then w t gs k s
            = (after_stages w t (g_stages g) s1, Raise e)).
Proof.
  revert s. induction gs as [| g tl IH]; intros s.
  - left. exists s. split; reflexivity.
  - rewrite !run_groups_then_cons. cbv zeta.
    destruct (gate_check (g_gate g)
                (results (after_stages w t (g_stages g) s))) as [e |] eqn:Hg.
    + right. exists [], g, tl, s, e. repeat split; assumption.
    + destruct (IH (after_stages w t (g_stages g) s))
        as [[s5 [H1 H2]] | [pre [g' [post [s1 [e [Hs [Hr [Hc Hrun]]]]]]]]].
      * left. exists s5. split; assumption.
      * right. exists (g :: pre), g', post, s1, e. subst tl.
        repeat split; try assumption.
        rewrite run_groups_then_cons. cbv zeta. now rewrite Hg.
Qed.

Lemma failed_of_nil_iff (rs : Py.dict StageResult) :
  failed_of rs = []
  <-> forall k v, In (k, v) rs -> status v = SUCCESS.
Proof.
  unfold failed_of. split.
  - intros H k v Hin. destruct (status v) eqn:E; [reflexivity |].
    assert (Hf : In (k, v) (filter (fun kv => is_failed (snd kv)) rs)).
    { apply filter_In. split; [assumption |]. unfold is_failed. simpl.
      now rewrite E. }
    rewrite H in Hf. contradiction.
  - intros H. induction rs as [| [k v] tl IH]; simpl; [reflexivity |].
    unfold is_failed at 1. simpl. rewrite (H k v) by now left.
    apply IH. intros k' v' Hin. apply (H k'). now right.
Qed.

Lemma overall_failed_iff (rs : Py.dict StageResult) :
  overall_status rs = FAILED
  <-> exists k v, In (k, v) rs /\ status v = FAILED.
Proof.
  unfold overall_status. split.
  - destruct (failed_of rs) as [| [k v] tl] eqn:E; [discriminate |].
    intros _. exists k, v.
    assert (Hin : In (k, v) (failed_of rs)) by (rewrite E; now left).
    unfold failed_of in Hin. apply filter_In in Hin.
    destruct Hin as [Hin Hf]. split; [assumption |].
    unfold is_failed in Hf. simpl in Hf. now destruct (status v).
  - intros [k [v [Hin Hf]]].
    destruct (failed_of rs) eqn:E; [| reflexivity].
    apply failed_of_nil_iff with (k := k) (v := v) in E; [| assumption].
    congruence.
Qed.

Lemma prefix_app_r (k a b : string) :
  prefix k a = true -> prefix k (a ++ b) = true.
Proof.
  revert a. induction k as [| c k IH]; intros a H;
    [now destruct (a ++ b) |].
  destruct a as [| d a]; simpl in *; [discriminate |].
  destruct (ascii_dec c d); [now apply IH | discriminate].
Qed.

Lemma contains_app_r (k a b : string) :
  Py.contains k a = true -> Py.contains k (a ++ b) = true.
Proof.
  induction a as [| c a IH]; intros H.
  - cbn [Py.contains] in H. rewrite orb_false_r in H.
    destruct k; [| discriminate]. now destruct b.
  - cbn [Py.contains] in H. apply orb_true_iff in H.
    change (String c a ++ b) with (String c (a ++ b)).
    cbn [Py.contains]. apply orb_true_iff. destruct H as [H | H].
    + left. now apply (@prefix_app_r k (String c a) b) in H.
    + right. now apply IH.
Qed.

Lemma join_enumerates (l : list string) (k : string) :
  In k l -> Py.contains k (Py.join ", " (map Py.repr_str l)) = true.
Proof.
  assert (Hk : Py.contains k (Py.repr_str k) = true)
    by (apply (contains_infix k "'" "'")).
  induction l as [| x tl IH]; [contradiction |].
  intros Hin. destruct tl as [| y tl'].
  - destruct Hin as [-> | []]. exact Hk.
  - change (Py.join ", " (map Py.repr_str (x :: y :: tl')))
      with (Py.repr_str x ++ ", "
            ++ Py.join ", " (map Py.repr_str (y :: tl'))).
    destruct Hin as [-> | Hin].
    + now apply contains_app_r.
    + apply contains_app_l. apply (contains_app_l k ", "). now apply IH.
Qed.

Lemma repr_list_enumerates (l : list string) (k : string) :
  In k l -> Py.contains k (Py.repr_list l) = true.
Proof.
  intros Hin. unfold Py.repr_list.
  apply (contains_app_l k "["), contains_app_r.
  now apply join_enumerates.
Qed.

Lemma run_ends (p : Pipeline) (w : World) :
  (exists s5 out,
      reaches p w (pipeline_groups p) s5
      /\ run_pipeline p w
         = ({| results := results s5; ticks := ticks s5; calls := calls s5;
               stdout := (stdout s5 ++ out)%list |},
            match failed_of (results s5) with
            | [] => Ok tt
            | _ => Raise (RuntimeError ("Pipeline finished with failures: "
                     ++ Py.repr_list (Py.keys (failed_of (results s5)))))
            end))
  \/ (exists s2 k v msg,
         run_pipeline p w = (s2, Raise (RuntimeError msg))
         /\ In (k, v) (results s2) /\ status v = FAILED
         /\ forall s5, ~ reaches p w (pipeline_groups p) s5).
Proof.
  rewrite run_pipeline_table.
  destruct (groups_outcome w (pipeline_timeout p) (pipeline_groups p)
              pipeline_summary init)
    as [[s5 [H1 H2]] | [pre [g [post [s1 [e [Hs [Hr [Hc Hrun]]]]]]]]].
  - left. destruct (pipeline_summary_eq s5) as [out [Heq _]].
    exists s5, out. split; [exact H1 |]. now rewrite H2.
  - right.
    pose proof (@gate_at_split p w pre post g s1 Hs Hr) as Hgate.
    cbv zeta in Hgate. rewrite after_group_eq in Hgate.
    destruct (failing_critical g _) as [| k tl].
    + congruence.
    + destruct Hgate as [v [Hget [Hfail Hcheck]]].
      exists (after_stages w (pipeline_timeout p) (g_stages g) s1), k, v,
        (gate_message (g_gate g) k v).
      repeat split.
      * rewrite Hrun. congruence.
      * now apply get_Some_In.
      * unfold is_failed in Hfail. now destruct (status v).
      * intros s5 H5. unfold reaches in H5.
        rewrite Hs, run_groups_then_app, Hr, run_groups_then_cons in H5.
        cbv zeta in H5. rewrite Hc in H5. discriminate.
Qed.

(** C1 (as amended). The overall status of a run is FAILED exactly when
    some recorded StageResult is FAILED, and exactly then the run raises
    one RuntimeError; a run that no gate aborted raises it from the
    summary, with a text that lists the name of every failed stage; a run
    without a failed stage completes without raising. *)
Theorem run_fails_iff_stage_failed (p : Pipeline) (w : World) :
  let s := fst (run_pipeline p w) in
  let o := snd (run_pipeline p w) in
  (overall_status (results s) = FAILED
   <-> exists k v, In (k, v) (results s) /\ status v = FAILED)
  /\ (overall_status (results s) = FAILED
      <-> exists msg, o = Raise (RuntimeError msg))
  /\ (overall_status (results s) = SUCCESS -> o = Ok tt)
  /\ (forall s5,
        reaches p w (pipeline_groups p) s5 ->
        overall_status (results s) = FAILED ->
        exists msg,
          o = Raise (RuntimeError msg)
          /\ msg = "Pipeline finished with failures: "
                   ++ Py.repr_list (Py.keys (failed_of (results s)))
          /\ enumerates msg (Py.keys (failed_of (results s)))).
Proof.
  intros s o. split; [apply overall_failed_iff |].
  destruct (run_ends p w)
    as [[s5 [out [Hreach Hrun]]] | [s2 [k [v [msg [Hrun [Hin [Hf Hno]]]]]]]].
  - assert (Hs : results s = results s5) by (unfold s; now rewrite Hrun).
    assert (Ho : o = match failed_of (results s5) with
                     | [] => Ok tt
                     | _ => Raise (RuntimeError
                              ("Pipeline finished with failures: "
                               ++ Py.repr_list
                                    (Py.keys (failed_of (results s5)))))
                     end) by (unfold o; now rewrite Hrun).
    rewrite Hs, Ho. unfold overall_status.
    destruct (failed_of (results s5)) as [| kv tl] eqn:E.
    + repeat split; try discriminate.
      intros [msg Hm]. discriminate.
    + repeat split; try discriminate.
      * intros _. eexists. reflexivity.
      * intros s6 _ _. eexists. split; [reflexivity |]. split; [reflexivity |].
        intros k Hk. apply (contains_app_l k "Pipeline finished with failures: ").
        now apply repr_list_enumerates.
  - assert (Hs : s = s2) by (unfold s; now rewrite Hrun).
    assert (Ho : o = Raise (RuntimeError msg)) by (unfold o; now rewrite Hrun).
    assert (Hst : overall_status (results s) = FAILED).
    { apply overall_failed_iff. exists k, v. now rewrite Hs. }
    rewrite Hst, Ho. repeat split; try discriminate.
    + intros _. now exists msg.
    + intros s5 H5. now apply Hno in H5.
Qed.

Lemma run_fails_iff_stage_failed_witness :
  let w := world_failing ["../views/vw_revenue_by_region";
                          "../tests/data_quality_checks"] in
  let r := run_pipeline SalesAnalytics w in
  reaches SalesAnalytics w sales_groups
    (fst (run_groups_then w sales_timeout sales_groups (ret tt) init))
  /\ overall_status (results (fst r)) = FAILED
  /\ exists msg,
       snd r = Raise (RuntimeError msg)
       /\ msg = "Pipeline finished with failures: "
                ++ Py.repr_list (Py.keys (failed_of (results (fst r))))
       /\ enumerates msg (Py.keys (failed_of (results (fst r)))).
Proof.
  intros w r.
  assert (H1 : reaches SalesAnalytics w sales_groups
            (fst (run_groups_then w sales_timeout sales_groups (ret tt) init)))
    by (vm_compute; reflexivity).
  assert (H2 : overall_status (results (fst r)) = FAILED)
    by (vm_compute; reflexivity).
  split; [exact H1 |]. split; [exact H2 |].
  exact (proj2 (proj2 (proj2 (run_fails_iff_stage_failed SalesAnalytics w)))
           _ H1 H2).
Defined.

(** C1 (as stated) fails: when a gate aborts the run, the error names the
    stage the gate stopped at and not the other failed stages. *)
Lemma gate_error_omits_failed_stage :
  ~ (forall (p : Pipeline) (w : World),
        let s := fst (run_pipeline p w) in
        let o := snd (run_pipeline p w) in
        overall_status (results s) = FAILED ->
        exists msg,
          o = Raise (RuntimeError msg)
          /\ enumerates msg (Py.keys (failed_of (results s)))).
Proof.
  intros H.
  specialize (H SalesAnalytics
                (world_failing ["../schemas/create_extract_schemas";
                                "../schemas/create_refined_schemas"])).
  cbv zeta in H. destruct H as [msg [Hrun Hen]].
  - vm_compute. reflexivity.
  - specialize (Hen "schema_silver").
    vm_compute in Hrun. injection Hrun as <-.
    assert (Hfalse : Py.contains "schema_silver"
              "Schema setup failed at 'schema_bronze': boom" = true).
    { apply Hen. vm_compute. tauto. }
    vm_compute in Hfalse. discriminate.
Qed.

(** **** What [run_stage] records for a notebook that raises *)

Lemma length_slice_to (n : nat) (e : string) :
  (String.length (Py.slice_to n e) <= n)%nat.
Proof.
  unfold Py.slice_to. revert e.
  induction n as [| n IH]; intros e; destruct e as [| c e]; simpl;
    try lia.
  specialize (IH e). lia.
Qed.

Lemma length_long_text (n : nat) : String.length (long_text n) = n.
Proof. induction n as [| n IH]; simpl; [reflexivity | now rewrite IH]. Qed.

Lemma assign_raising (w : World) (k path desc : string) (t : Z)
      (s : State) (e : string) :
  notebook_run w path t (COMMON_ARGS w) = inl e ->
  let el := time_time w (S (ticks s)) - time_time w (ticks s) in
  let s' := stage_step w t {| sd_key := k; sd_path := path;
                              sd_desc := desc |} s in
  assign k (run_stage w path desc t) s = (s', Ok tt)
  /\ Py.get k (results s')
     = Some {| status := FAILED; elapsed := el; error := Some e |}
  /\ last (stdout s') (PResult "") = PFailed el (Py.slice_to 200 e).
Proof.
  intros Hraise el s'.
  pose proof (assign_run_stage w t
                {| sd_key := k; sd_path := path; sd_desc := desc |} s) as H.
  simpl in H. split; [exact H |].
  unfold s', stage_step. simpl. split.
  - rewrite get_set_same. unfold recorded. now rewrite Hraise.
  - rewrite last_last. unfold outcome_line. now rewrite Hraise.
Qed.

(** C8 (as amended). When the child notebook raises, the StageResult that
    is recorded has status FAILED, the elapsed time and, as error, the whole
    text of the exception; the text is cut to its first 200 characters only
    in the line that is printed. *)
Theorem failed_stage_records_whole_error
        (w : World) (k path desc : string) (t : Z) (s : State) (e : string) :
  notebook_run w path t (COMMON_ARGS w) = inl e ->
  let el := time_time w (S (ticks s)) - time_time w (ticks s) in
  exists s',
    assign k (run_stage w path desc t) s = (s', Ok tt)
    /\ Py.get k (results s')
       = Some {| status := FAILED; elapsed := el; error := Some e |}
    /\ last (stdout s') (PResult "") = PFailed el (Py.slice_to 200 e)
    /\ (String.length (Py.slice_to 200 e) <= 200)%nat.
Proof.
  intros Hraise el.
  destruct (@assign_raising w k path desc t s e Hraise) as [H1 [H2 H3]].
  eexists. split; [exact H1 |]. split; [exact H2 |]. split; [exact H3 |].
  apply length_slice_to.
Qed.

Lemma failed_stage_records_whole_error_witness :
  let w := world_raising (long_text 300) in
  exists s',
    assign "ext_orders"
      (run_stage w "../extract/extract_orders" "Extract Orders" 3600) init
    = (s', Ok tt)
    /\ Py.get "ext_orders" (results s')
       = Some {| status := FAILED; elapsed := 1;
                 error := Some (long_text 300) |}
    /\ last (stdout s') (PResult "") = PFailed 1 (long_text 200)
    /\ (String.length (Py.slice_to 200 (long_text 300)) <= 200)%nat.
Proof.
  intros w.
  exact (@failed_stage_records_whole_error w "ext_orders"
           "../extract/extract_orders" "Extract Orders" 3600 init
           (long_text 300) eq_refl).
Defined.

(** C8 (as stated) fails: no length bounds the recorded error message. *)
Lemma recorded_error_is_not_bounded :
  ~ (exists bound : nat,
        forall (w : World) (k path desc : string) (t : Z) (s s' : State)
               (e : string),
          notebook_run w path t (COMMON_ARGS w) = inl e ->
          assign k (run_stage w path desc t) s = (s', Ok tt) ->
          exists v m,
            Py.get k (results s') = Some v
            /\ status v = FAILED
            /\ error v = Some m
            /\ (String.length m <= bound)%nat).
Proof.
  intros [bound H].
  pose (e := long_text (S bound)).
  destruct (@assign_raising (world_raising e) "k" "p" "d" 0 init e eq_refl)
    as [Hrun [Hget _]].
  destruct (H (world_raising e) "k" "p" "d" 0 init _ e eq_refl Hrun)
    as [v [m [Hget' [_ [Herr Hlen]]]]].
  rewrite Hget in Hget'. injection Hget' as <-. simpl in Herr.
  injection Herr as <-. unfold e in Hlen.
  rewrite length_long_text in Hlen. lia.
Qed.

End OrchestratorFacts.

Module SqlFacts.
Import Sql.

Section WindowFacts.
Variables R K : Type.
Variable key : R -> K.
Variable key_eqb : K -> K -> bool.
Variable before : R -> R -> bool.

Hypothesis key_eqb_eq : forall a b, key_eqb a b = true <-> a = b.
Hypothesis before_asym : forall a b, before a b = true -> before b a = false.
Hypothesis before_negtrans :
  forall a b c, before a b = false -> before b c = false ->
                before a c = false.

Lemma key_eqb_refl (k : K) : key_eqb k k = true.
Proof. now apply key_eqb_eq. Qed.

Lemma key_eqb_neq (a b : K) : key_eqb a b = false <-> a <> b.
Proof.
  split.
  - intros H Heq. apply key_eqb_eq in Heq. congruence.
  - intros H. destruct (key_eqb a b) eqn:E; [| reflexivity].
    apply key_eqb_eq in E. contradiction.
Qed.

Lemma distinct_In (k : K) (ks : list K) :
  In k (distinct key_eqb ks) <-> In k ks.
Proof.
  induction ks as [| k0 tl IH]; simpl; [tauto |].
  rewrite filter_In, IH, negb_true_iff, key_eqb_neq.
  split.
  - intros [H | [H _]]; auto.
  - intros [H | H]; [now left |].
    destruct (key_eqb k k0) eqn:E.
    + apply key_eqb_eq in E. now left.
    + apply key_eqb_neq in E. right. split; assumption.
Qed.

Lemma distinct_NoDup (ks : list K) : NoDup (distinct key_eqb ks).
Proof.
  induction ks as [| k0 tl IH]; simpl; constructor.
  - rewrite filter_In, negb_true_iff, key_eqb_neq. intros [_ H].
    now apply H.
  - now apply NoDup_filter.
Qed.

Lemma place_perm (r : R) (l : list R) :
  Permutation (place before r l) (r :: l).
Proof.
  induction l as [| x tl IH]; simpl; [reflexivity |].
  destruct (before x r); [| reflexivity].
  rewrite IH. apply perm_swap.
Qed.

Lemma ordered_perm (l : list R) : Permutation (ordered before l) l.
Proof.
  induction l as [| r tl IH]; simpl; [reflexivity |].
  rewrite place_perm. now constructor.
Qed.

Lemma before_irrefl (a : R) : before a a = false.
Proof.
  destruct (before a a) eqn:E; [| reflexivity].
  now rewrite (before_asym E) in E.
Qed.

Lemma place_head (r : R) (sorted : list R) :
  (forall h tl, sorted = h :: tl -> leads before h sorted) ->
  exists h tl, place before r sorted = h :: tl
               /\ leads before h (r :: sorted).
Proof.
  intros Hs. destruct sorted as [| x tl]; simpl.
  - exists r, []. split; [reflexivity |]. split; [now left |].
    intros r' [<- | []]. apply before_irrefl.
  - destruct (Hs x tl eq_refl) as [_ Hx].
    destruct (before x r) eqn:E.
    + exists x, (place before r tl). split; [reflexivity |].
      split; [right; now left |].
      intros r' [<- | Hin]; [now apply before_asym | now apply Hx].
    + exists r, (x :: tl). split; [reflexivity |].
      split; [now left |].
      intros r' [<- | Hin]; [apply before_irrefl |].
      apply before_negtrans with (b := x); [now apply Hx | exact E].
Qed.

Lemma leads_perm (h : R) (l l' : list R) :
  Permutation l l' -> leads before h l -> leads before h l'.
Proof.
  intros Hp [Hin Hmax]. split.
  - now apply (Permutation_in _ Hp).
  - intros r Hr. apply Hmax.
    now apply (Permutation_in _ (Permutation_sym Hp)).
Qed.

Lemma ordered_head (l : list R) :
  forall h tl, ordered before l = h :: tl -> leads before h l.
Proof.
  induction l as [| r rest IH]; intros h tl H; [discriminate |].
  simpl in H.
  assert (IH' : forall h tl, ordered before rest = h :: tl ->
                             leads before h (ordered before rest)).
  { intros h0 tl0 H0. apply leads_perm with (l := rest).
    - symmetry. apply ordered_perm.
    - eapply IH. exact H0. }
  destruct (place_head r IH') as [h' [tl' [Hp Hl]]].
  rewrite Hp in H. injection H as <- <-.
  apply leads_perm with (l := r :: ordered before rest);
    [| exact Hl].
  constructor. apply ordered_perm.
Qed.

Lemma ordered_nonempty (l : list R) :
  l <> [] -> exists h tl, ordered before l = h :: tl.
Proof.
  intros Hne. destruct (ordered before l) as [| h tl] eqn:E; [| eauto].
  exfalso. apply Hne. apply Permutation_nil.
  rewrite <- E. apply ordered_perm.
Qed.

(** Only the first row of a numbered partition has [_rn = 1]. *)
Lemma numbered_tail (l : list R) (start : nat) :
  (2 <= start)%nat ->
  WHERE (fun rn : R * Z => eq_z (Some (snd rn)) (Some 1))
        (combine l (map Z.of_nat (seq start (List.length l)))) = [].
Proof.
  revert start. induction l as [| r tl IH]; intros start Hs; simpl;
    [reflexivity |].
  destruct (Z.of_nat start =? 1) eqn:E; [apply Z.eqb_eq in E; lia |].
  apply IH. lia.
Qed.

Lemma numbered_first (l : list R) :
  map fst (WHERE (fun rn : R * Z => eq_z (Some (snd rn)) (Some 1))
                 (numbered l)) = firstn 1 l.
Proof.
  destruct l as [| h tl]; [reflexivity |].
  pose proof (@numbered_tail tl 2 (le_n 2)) as Ht.
  unfold numbered, WHERE in *.
  change (seq 1 (List.length (h :: tl)))
    with (1%nat :: seq 2 (List.length tl)).
  cbn [map combine filter]. rewrite Ht. reflexivity.
Qed.

Lemma row_number_one (l : relation R) :
  map fst (WHERE (fun rn : R * Z => eq_z (Some (snd rn)) (Some 1))
                 (ROW_NUMBER key key_eqb before l))
  = leaders key key_eqb before l.
Proof.
  unfold ROW_NUMBER, leaders.
  induction (distinct key_eqb (map key l)) as [| k ks IH];
    [reflexivity |].
  cbn [flat_map]. unfold WHERE in *.
  rewrite filter_app, map_app, IH. f_equal.
  apply numbered_first.
Qed.

Lemma partition_of_In (k : K) (l : relation R) (r : R) :
  In r (partition_of key key_eqb k l) <-> In r l /\ key r = k.
Proof. unfold partition_of. now rewrite filter_In, key_eqb_eq. Qed.

Lemma leader_In (k : K) (l : relation R) (r : R) :
  In r (firstn 1 (ordered before (partition_of key key_eqb k l))) ->
  In r l /\ key r = k.
Proof.
  intros H. apply partition_of_In.
  apply (Permutation_in _ (ordered_perm _)).
  revert H. generalize (ordered before (partition_of key key_eqb k l)).
  intros [| h tl]; simpl; tauto.
Qed.

Lemma filter_none {A} (f : A -> bool) (l : list A) :
  (forall x, In x l -> f x = false) -> filter f l = [].
Proof.
  induction l as [| x tl IH]; intros H; simpl; [reflexivity |].
  rewrite (H x) by now left. apply IH. intros y Hy. apply H. now right.
Qed.

Lemma filter_flat_map_key (f : K -> list R) (ks : list K) (k : K) :
  NoDup ks -> In k ks ->
  (forall k' r, In k' ks -> In r (f k') -> key r = k') ->
  filter (fun r => key_eqb (key r) k) (flat_map f ks) = f k.
Proof.
  induction ks as [| k0 tl IH]; intros Hnd Hin Hf; [contradiction |].
  cbn [flat_map]. rewrite filter_app.
  inversion Hnd as [| ? ? Hnotin Hnd']; subst.
  destruct Hin as [-> | Hin].
  - rewrite forallb_filter_id.
    + rewrite filter_none; [apply app_nil_r |].
      intros r Hr. apply in_flat_map in Hr. destruct Hr as [k' [Hk' Hr]].
      apply key_eqb_neq. rewrite (Hf k' r); [| now right | assumption].
      intros ->. contradiction.
    + apply forallb_forall. intros r Hr. apply key_eqb_eq.
      apply (Hf k); [now left | assumption].
  - rewrite filter_none.
    + apply IH; try assumption.
      intros k' r Hk' Hr. apply (Hf k'); [now right | assumption].
    + intros r Hr. apply key_eqb_neq.
      rewrite (Hf k0 r); [| now left | assumption].
      intros ->. contradiction.
Qed.

(** Exactly one row per partition key gets [_rn = 1], and it leads its
    partition. *)
Lemma leaders_of_key (l : relation R) (k : K) :
  In k (map key l) ->
  exists h,
    filter (fun r => key_eqb (key r) k) (leaders key key_eqb before l) = [h]
    /\ leads before h (partition_of key key_eqb k l).
Proof.
  intros Hin. unfold leaders.
  rewrite filter_flat_map_key.
  - apply in_map_iff in Hin. destruct Hin as [r [Hk Hr]].
    destruct (@ordered_nonempty (partition_of key key_eqb k l))
      as [h [tl E]].
    + intros Hnil.
      assert (Hp : In r (partition_of key key_eqb k l))
        by (apply partition_of_In; split; assumption).
      rewrite Hnil in Hp. contradiction.
    + exists h. rewrite E. split; [reflexivity |].
      now apply ordered_head with (tl := tl).
  - apply distinct_NoDup.
  - now apply distinct_In.
  - intros k' r _ Hr. now apply leader_In in Hr.
Qed.

Lemma leaders_In (l : relation R) (r : R) :
  In r (leaders key key_eqb before l) -> In r l.
Proof.
  unfold leaders. intros H. apply in_flat_map in H.
  destruct H as [k [_ H]]. now apply leader_In in H.
Qed.

(** The keys that survive are the partition keys, each once. *)
Lemma leaders_keys (l : relation R) :
  map key (leaders key key_eqb before l) = distinct key_eqb (map key l).
Proof.
  unfold leaders.
  assert (H : forall ks, (forall k, In k ks -> In k (map key l)) ->
            map key (flat_map
              (fun k => firstn 1 (ordered before
                                    (partition_of key key_eqb k l))) ks)
            = ks).
  { induction ks as [| k tl IH]; intros Hks; [reflexivity |].
    cbn [flat_map]. rewrite map_app, IH
      by (intros k' Hk'; apply Hks; now right).
    assert (Hk : In k (map key l)) by (apply Hks; now left).
    apply in_map_iff in Hk. destruct Hk as [r [Hk Hr]].
    destruct (@ordered_nonempty (partition_of key key_eqb k l))
      as [h [tl' E]].
    - intros Hnil.
      assert (Hp : In r (partition_of key key_eqb k l))
        by (apply partition_of_In; split; assumption).
      rewrite Hnil in Hp. contradiction.
    - rewrite E. simpl. f_equal.
      assert (Hh : In h (firstn 1 (ordered before
                            (partition_of key key_eqb k l))))
        by (rewrite E; now left).
      now apply leader_In in Hh. }
  apply H. intros k Hk. apply distinct_In. exact Hk.
Qed.

End WindowFacts.

End SqlFacts.

Module ExtractFacts.
Import Sql Extract SqlFacts.

Lemma desc_z_asym (a b : col Z) : desc_z a b = true -> desc_z b a = false.
Proof.
  destruct a as [x |], b as [y |]; simpl; try discriminate; try reflexivity.
  rewrite !Z.ltb_lt, Z.ltb_ge. lia.
Qed.

Lemma desc_z_false (a b : col Z) : desc_z a b = false <-> no_later a b.
Proof.
  destruct a as [x |], b as [y |]; simpl; try tauto.
  - rewrite Z.ltb_ge. tauto.
  - split; [discriminate | contradiction].
Qed.

Lemma desc_z_negtrans (a b c : col Z) :
  desc_z a b = false -> desc_z b c = false -> desc_z a c = false.
Proof.
  rewrite !desc_z_false.
  destruct a as [x |], b as [y |], c as [z |]; simpl; try tauto; lia.
Qed.

Lemma col_eqb_eq (a b : col Z) : col_eqb Z.eqb a b = true <-> a = b.
Proof.
  destruct a as [x |], b as [y |]; simpl; split; try discriminate;
    try reflexivity.
  - intros H. apply Z.eqb_eq in H. now subst.
  - intros [= ->]. apply Z.eqb_refl.
Qed.

Lemma pair_eqb_eq (a b : col Z * col Z) : pair_eqb a b = true <-> a = b.
Proof.
  destruct a as [a1 a2], b as [b1 b2]. unfold pair_eqb. simpl.
  rewrite andb_true_iff, !col_eqb_eq. split.
  - intros [-> ->]. reflexivity.
  - intros [= -> ->]. split; reflexivity.
Qed.

Section Latest.
Variables A K : Type.
Variable key : A -> K.
Variable key_eqb : K -> K -> bool.
Hypothesis key_eqb_eq : forall a b, key_eqb a b = true <-> a = b.

Lemma latest_per_key_leaders (cleaned : relation (audited A)) :
  latest_per_key key key_eqb cleaned
  = leaders (fun r => key (cols r)) key_eqb (@ingested_later A) cleaned.
Proof. unfold latest_per_key. apply row_number_one. Qed.

(** One row survives per natural key, and no row with that key was
    ingested after it. *)
Lemma latest_per_key_spec (cleaned : relation (audited A)) (k : K) :
  rows_of_key key key_eqb k cleaned <> [] ->
  exists r,
    rows_of_key key key_eqb k (latest_per_key key key_eqb cleaned) = [r]
    /\ In r cleaned /\ key (cols r) = k
    /\ forall r', In r' cleaned -> key (cols r') = k ->
                  no_later (_ingested_at r') (_ingested_at r).
Proof.
  intros Hne. rewrite latest_per_key_leaders. unfold rows_of_key in *.
  destruct (@leaders_of_key _ _ (fun r => key (cols r)) key_eqb
                  (@ingested_later A)
              key_eqb_eq
              (fun a b => @desc_z_asym (_ingested_at a) (_ingested_at b))
              (fun a b c => @desc_z_negtrans (_ingested_at a)
                              (_ingested_at b) (_ingested_at c))
              cleaned k) as [h [Hone [Hin Hmax]]].
  - destruct (filter _ cleaned) as [| r tl] eqn:E; [contradiction |].
    assert (Hr : In r (filter (fun r => key_eqb (key (cols r)) k) cleaned))
      by (rewrite E; now left).
    apply filter_In in Hr. destruct Hr as [Hr Hk].
    apply key_eqb_eq in Hk. apply in_map_iff. exists r. split; assumption.
  - exists h. split; [exact Hone |].
    apply partition_of_In in Hin; [| exact key_eqb_eq].
    destruct Hin as [Hin Hk]. repeat split; try assumption.
    intros r' Hr' Hk'. apply desc_z_false. apply Hmax.
    apply partition_of_In; [exact key_eqb_eq |]. split; assumption.
Qed.

Lemma latest_per_key_keys (cleaned : relation (audited A)) :
  map (fun r => key (cols r)) (latest_per_key key key_eqb cleaned)
  = distinct key_eqb (map (fun r => key (cols r)) cleaned).
Proof.
  rewrite latest_per_key_leaders.
  apply leaders_keys with (key := fun r => key (cols r)).
  exact key_eqb_eq.
Qed.

End Latest.

Lemma tied_orders_swap :
  let a := an_order 2 (Some 9000) "first" in
  let b := an_order 2 (Some 9000) "second" in
  extract_orders 0 "batch" [a; b] = capture 0 "batch" [a]
  /\ extract_orders 0 "batch" [b; a] = capture 0 "batch" [b].
Proof. split; vm_compute; reflexivity. Qed.

(** C3 (as amended). For every key with more than one cleaned row, exactly
    one row with that key survives the dedup and is written to bronze, and
    no cleaned row with that key has a later [_ingested_at]; this holds for
    orders (key [o_orderkey]) and for line items (key [l_orderkey,
    l_linenumber]), in whatever arrangement the engine holds the cleaned
    rows. When rows of a key share the latest [_ingested_at], no second
    ordering key decides: two arrangements of the same source rows can leave
    different rows in bronze. *)
Theorem dedup_keeps_one_latest_row_per_key :
  (forall (cleaned : relation (audited orders)) (K : col Z),
      (1 < List.length
             (rows_of_key o_orderkey (col_eqb Z.eqb) K cleaned))%nat ->
      exists r,
        rows_of_key o_orderkey (col_eqb Z.eqb) K (tv_orders_deduped cleaned)
        = [r]
        /\ In r cleaned /\ o_orderkey (cols r) = K
        /\ forall r', In r' cleaned -> o_orderkey (cols r') = K ->
                      no_later (_ingested_at r') (_ingested_at r))
  /\ (forall (cleaned : relation (audited lineitem)) (K : col Z * col Z),
        (1 < List.length
               (rows_of_key lineitem_key pair_eqb K cleaned))%nat ->
        exists r,
          rows_of_key lineitem_key pair_eqb K (tv_lineitem_deduped cleaned)
          = [r]
          /\ In r cleaned /\ lineitem_key (cols r) = K
          /\ forall r', In r' cleaned -> lineitem_key (cols r') = K ->
                        no_later (_ingested_at r') (_ingested_at r))
  /\ (exists (source source' : relation orders) (now : Z) (batch_id : string)
             (r : audited orders),
        Permutation source source'
        /\ In r (extract_orders now batch_id source)
        /\ ~ In r (extract_orders now batch_id source')).
Proof.
  split; [| split]; try intros cleaned K Hn.
  - apply (@latest_per_key_spec _ _ o_orderkey (col_eqb Z.eqb) col_eqb_eq).
    intros E. rewrite E in Hn. simpl in Hn. lia.
  - apply (@latest_per_key_spec _ _ lineitem_key pair_eqb pair_eqb_eq).
    intros E. rewrite E in Hn. simpl in Hn. lia.
  - destruct tied_orders_swap as [Hab Hba].
    exists [an_order 2 (Some 9000) "first"; an_order 2 (Some 9000) "second"],
      [an_order 2 (Some 9000) "second"; an_order 2 (Some 9000) "first"],
      0, "batch",
      {| cols := an_order 2 (Some 9000) "first"; _ingested_at := Some 0;
         _source_system := Some "tpch"; _batch_id := Some "batch" |}.
    split; [apply perm_swap |]. cbv zeta in Hab, Hba. rewrite Hab, Hba.
    split; [now left |].
    intros [H | []]. discriminate H.
Qed.

Lemma dedup_keeps_one_latest_row_per_key_witness :
  let cleaned := [ audit (an_order 2 (Some 9000) "first") 10;
                   audit (an_order 5 (Some 9001) "other") 10;
                   audit (an_order 2 (Some 9000) "second") 20 ] in
  exists r,
    rows_of_key o_orderkey (col_eqb Z.eqb) (Some 2)
                (tv_orders_deduped cleaned) = [r]
    /\ In r cleaned /\ o_orderkey (cols r) = Some 2
    /\ forall r', In r' cleaned -> o_orderkey (cols r') = Some 2 ->
                  no_later (_ingested_at r') (_ingested_at r).
Proof.
  intros cleaned.
  apply (proj1 dedup_keeps_one_latest_row_per_key cleaned (Some 2)).
  simpl. lia.
Defined.

(** C3 (as stated) fails in its last part: the ORDER BY of the dedup has no
    second key, so among rows of one key with the same [_ingested_at] the
    survivor changes with the arrangement of the same rows. *)
Lemma dedup_tie_follows_arrangement :
  ~ (forall (source source' : relation orders) (now : Z) (batch_id : string),
        Permutation source source' ->
        forall r, In r (extract_orders now batch_id source)
                  <-> In r (extract_orders now batch_id source')).
Proof.
  intros H.
  pose (a := an_order 2 (Some 9000) "first").
  pose (b := an_order 2 (Some 9000) "second").
  specialize (H [a; b] [b; a] 0 "batch" (perm_swap b a [])
                {| cols := a; _ingested_at := Some 0;
                   _source_system := Some "tpch";
                   _batch_id := Some "batch" |}).
  destruct H as [H _].
  assert (Hin : In {| cols := a; _ingested_at := Some 0;
                      _source_system := Some "tpch";
                      _batch_id := Some "batch" |}
                   (extract_orders 0 "batch" [a; b]))
    by (vm_compute; now left).
  apply H in Hin. vm_compute in Hin.
  destruct Hin as [Hin | []]. discriminate Hin.
Qed.

(** **** A whole extract *)

Lemma clean_capture {A} (kept : A -> tri) (now : Z) (batch_id : string)
      (source : relation A) :
  WHERE (fun r => kept (cols r)) (capture now batch_id source)
  = capture now batch_id (filter (fun a => holds (kept a)) source).
Proof.
  unfold WHERE, capture.
  induction source as [| a tl IH]; simpl; [reflexivity |].
  destruct (holds (kept a)); simpl; now rewrite IH.
Qed.

Lemma capture_keys {A K} (key : A -> K) (now : Z) (batch_id : string)
      (source : relation A) :
  map (fun r => key (cols r)) (capture now batch_id source) = map key source.
Proof. unfold capture. rewrite map_map. reflexivity. Qed.

Section Idempotence.
Variables A K : Type.
Variable key : A -> K.
Variable key_eqb : K -> K -> bool.
Variable kept : A -> tri.
Hypothesis key_eqb_eq : forall a b, key_eqb a b = true <-> a = b.

Lemma extract_keys (now : Z) (batch_id : string) (source : relation A) :
  map (fun r => key (cols r)) (extract_with key key_eqb kept now batch_id source)
  = distinct key_eqb (map key (filter (fun a => holds (kept a)) source)).
Proof.
  unfold extract_with.
  rewrite (@latest_per_key_keys _ _ key key_eqb key_eqb_eq), clean_capture.
  now rewrite capture_keys.
Qed.

(** Every bronze row is a kept source row with the audit columns of the
    run. *)
Lemma extract_In (now : Z) (batch_id : string) (source : relation A)
      (r : audited A) :
  In r (extract_with key key_eqb kept now batch_id source) ->
  exists a, In a source /\ holds (kept a) = true
            /\ r = {| cols := a; _ingested_at := Some now;
                      _source_system := Some "tpch";
                      _batch_id := Some batch_id |}.
Proof.
  unfold extract_with. rewrite latest_per_key_leaders, clean_capture.
  intros H.
  apply (@leaders_In _ _ (fun r => key (cols r)) key_eqb
           (@ingested_later A) key_eqb_eq) in H.
  unfold capture in H. apply in_map_iff in H.
  destruct H as [a [<- Ha]]. apply filter_In in Ha.
  exists a. tauto.
Qed.

Lemma extract_again (now1 now2 : Z) (b1 b2 : string)
      (source source' : relation A) :
  Permutation source source' ->
  let run1 := extract_with key key_eqb kept now1 b1 source in
  let run2 := extract_with key key_eqb kept now2 b2 source' in
  (forall k, In k (map (fun r => key (cols r)) run1)
             <-> In k (map (fun r => key (cols r)) run2))
  /\ List.length run1 = List.length run2.
Proof.
  intros Hp run1 run2.
  assert (Hkeys : forall k,
             In k (map (fun r => key (cols r)) run1)
             <-> In k (map (fun r => key (cols r)) run2)).
  { intros k. unfold run1, run2. rewrite !extract_keys.
    rewrite !(@distinct_In _ key_eqb key_eqb_eq), !in_map_iff.
    split; intros [a [Ha Hin]]; exists a; (split; [assumption |]);
      apply filter_In in Hin; apply filter_In; destruct Hin as [Hin Hk];
      (split; [| assumption]).
    - now apply (Permutation_in _ Hp).
    - now apply (Permutation_in _ (Permutation_sym Hp)). }
  split; [exact Hkeys |].
  rewrite <- (length_map (fun r => key (cols r)) run1).
  rewrite <- (length_map (fun r => key (cols r)) run2).
  apply Permutation_length, NoDup_Permutation; try exact Hkeys;
    unfold run1, run2; rewrite extract_keys;
    apply (@distinct_NoDup _ key_eqb key_eqb_eq).
Qed.

End Idempotence.

(** C5. Two runs of an extract over the same source rows (whatever their
    arrangement, timestamps and batch ids) write bronze tables with the same
    set of natural-key values and the same number of rows. Stated for the
    orders and the customers notebooks. *)
Theorem extract_twice_same_keys_and_count :
  (forall (now1 now2 : Z) (b1 b2 : string) (source source' : relation orders),
      Permutation source source' ->
      let run1 := extract_orders now1 b1 source in
      let run2 := extract_orders now2 b2 source' in
      (forall k, In k (map (fun r => o_orderkey (cols r)) run1)
                 <-> In k (map (fun r => o_orderkey (cols r)) run2))
      /\ List.length run1 = List.length run2)
  /\ (forall (now1 now2 : Z) (b1 b2 : string)
             (source source' : relation customers),
        Permutation source source' ->
        let run1 := extract_customers now1 b1 source in
        let run2 := extract_customers now2 b2 source' in
        (forall k, In k (map (fun r => c_custkey (cols r)) run1)
                   <-> In k (map (fun r => c_custkey (cols r)) run2))
        /\ List.length run1 = List.length run2).
Proof.
  split; intros now1 now2 b1 b2 source source' Hp.
  - exact (@extract_again _ _ o_orderkey (col_eqb Z.eqb) orders_kept
             col_eqb_eq now1 now2 b1 b2 source source' Hp).
  - exact (@extract_again _ _ c_custkey (col_eqb Z.eqb) customers_kept
             col_eqb_eq now1 now2 b1 b2 source source' Hp).
Qed.

Lemma extract_twice_same_keys_and_count_witness :
  let source := [ an_order 2 (Some 9000) "first";
                  an_order 5 None "undated";
                  an_order 2 (Some 9000) "second";
                  an_order 3 (Some 9002) "third" ] in
  let run1 := extract_orders 100 "batch_1" source in
  let run2 := extract_orders 200 "batch_2" (rev source) in
  (forall k, In k (map (fun r => o_orderkey (cols r)) run1)
             <-> In k (map (fun r => o_orderkey (cols r)) run2))
  /\ List.length run1 = List.length run2.
Proof.
  intros source.
  exact (proj1 extract_twice_same_keys_and_count 100 200 "batch_1" "batch_2"
           source (rev source) (Permutation_rev source)).
Defined.

(** **** The clean stage *)

Lemma holds_AND (a b : tri) :
  holds (AND a b) = true <-> holds a = true /\ holds b = true.
Proof.
  destruct a as [[|] |], b as [[|] |]; simpl; split; try tauto;
    intros H; try discriminate; destruct H; discriminate.
Qed.

Lemma holds_not_null {A} (a : col A) :
  holds (IS_NOT_NULL a) = true <-> a <> None.
Proof.
  destruct a; simpl; split; intros H; try discriminate; try congruence;
    reflexivity.
Qed.

Lemma holds_positive (a : col Q) :
  holds (gt_q a (Some 0%Q)) = true <-> exists q, a = Some q /\ (0 < q)%Q.
Proof.
  destruct a as [q |]; unfold gt_q, compare_with, holds, Qlt_bool.
  - destruct (Qle_bool q 0) eqn:E; simpl; split.
    + discriminate.
    + intros [q' [[= <-] Hq]]. apply Qle_bool_iff in E.
      exfalso. now apply (Qlt_not_le _ _ Hq).
    + intros _. exists q. split; [reflexivity |].
      apply Qnot_le_lt. intros Hle. apply Qle_bool_iff in Hle. congruence.
    + reflexivity.
  - split; [discriminate | intros [q [H _]]; discriminate].
Qed.

Lemma orders_kept_iff (r : orders) :
  holds (orders_kept r) = true
  <-> o_orderkey r <> None /\ o_orderdate r <> None.
Proof. unfold orders_kept. now rewrite holds_AND, !holds_not_null. Qed.

Lemma lineitem_kept_iff (r : lineitem) :
  holds (lineitem_kept r) = true
  <-> l_orderkey r <> None /\ l_linenumber r <> None
      /\ (exists q, l_quantity r = Some q /\ (0 < q)%Q)
      /\ (exists p, l_extendedprice r = Some p /\ (0 < p)%Q).
Proof.
  unfold lineitem_kept.
  rewrite !holds_AND, !holds_not_null, !holds_positive. tauto.
Qed.

Lemma Permutation_filter {A} (f : A -> bool) (l l' : list A) :
  Permutation l l' -> Permutation (filter f l) (filter f l').
Proof.
  induction 1 as [| x l l' _ IH | x y l | l l' l'' _ IH1 _ IH2]; simpl.
  - constructor.
  - destruct (f x); [now constructor | assumption].
  - destruct (f x), (f y); try reflexivity. apply perm_swap.
  - now transitivity (filter f l').
Qed.

Lemma distinct_of_NoDup {K} (key_eqb : K -> K -> bool) (ks : list K) :
  (forall a b, key_eqb a b = true <-> a = b) ->
  NoDup ks -> distinct key_eqb ks = ks.
Proof.
  intros Heq. induction 1 as [| k tl Hnotin Hnd IH]; simpl; [reflexivity |].
  rewrite IH. f_equal. apply forallb_filter_id, forallb_forall.
  intros k' Hk'. apply negb_true_iff.
  destruct (key_eqb k' k) eqn:E; [| reflexivity].
  apply Heq in E. subst. contradiction.
Qed.

(** With pairwise distinct natural keys, the rows an extract writes are as
    many as the source rows its clean stage keeps. *)
Lemma extract_count {A K} (key : A -> K) (key_eqb : K -> K -> bool)
      (kept : A -> tri) (now : Z) (batch_id : string)
      (source valid dropped : relation A) :
  (forall a b, key_eqb a b = true <-> a = b) ->
  Permutation source (valid ++ dropped) ->
  Forall (fun r => holds (kept r) = true) valid ->
  Forall (fun r => holds (kept r) = false) dropped ->
  NoDup (map key valid) ->
  List.length (extract_with key key_eqb kept now batch_id source)
  = List.length valid.
Proof.
  intros Heq Hp Hvalid Hdropped Hnd.
  rewrite <- (length_map (fun r => key (cols r))).
  rewrite (@extract_keys _ _ key key_eqb kept Heq).
  assert (Hf : Permutation (filter (fun a => holds (kept a)) source) valid).
  { rewrite (Permutation_filter _ Hp), filter_app.
    rewrite forallb_filter_id
      by (apply forallb_forall; now apply Forall_forall).
    rewrite (@filter_none _ (fun a => holds (kept a)) dropped)
      by (now apply Forall_forall).
    now rewrite app_nil_r. }
  rewrite distinct_of_NoDup; try assumption.
  - rewrite length_map. now apply Permutation_length.
  - apply Permutation_NoDup with (l := map key valid); [| assumption].
    symmetry. now apply Permutation_map.
Qed.

Lemma not_positive (a : col Q) :
  (a = None \/ exists q, a = Some q /\ (q <= 0)%Q) ->
  holds (gt_q a (Some 0%Q)) = false.
Proof.
  intros H. destruct (holds (gt_q a (Some 0%Q))) eqn:E; [| reflexivity].
  apply holds_positive in E. destruct E as [q [Hq Hpos]].
  destruct H as [H | [q' [H Hle]]]; [congruence |].
  rewrite Hq in H. injection H as <-.
  exfalso. now apply (Qlt_not_le _ _ Hpos).
Qed.

(** C4 (as amended). The clean stage keeps exactly the rows that satisfy
    the declared predicates. Given N valid line items with pairwise
    distinct keys, one row with a NULL key column and one row whose
    quantity or price is not positive, in any arrangement, the bronze table
    has exactly N rows. For the source orders (id 1, no order date),
    (id 2, date d1) and (id 2, date d1), in any arrangement and whatever
    ingestion times the source rows carry, the bronze table has exactly one
    row: it has key 2 and date d1, it is one of the two source rows of key
    2, and its _ingested_at is the time of the run's capture. *)
Theorem clean_stage_drops_failing_rows :
  (forall raw r,
      In r (tv_orders_cleaned raw)
      <-> In r raw /\ o_orderkey (cols r) <> None
          /\ o_orderdate (cols r) <> None)
  /\ (forall raw r,
        In r (tv_lineitem_cleaned raw)
        <-> In r raw /\ l_orderkey (cols r) <> None
            /\ l_linenumber (cols r) <> None
            /\ (exists q, l_quantity (cols r) = Some q /\ (0 < q)%Q)
            /\ (exists p, l_extendedprice (cols r) = Some p /\ (0 < p)%Q))
  /\ (forall (now : Z) (batch_id : string)
             (valid source : relation lineitem)
             (bad_key bad_amount : lineitem),
        Permutation source (valid ++ [bad_key; bad_amount]) ->
        Forall (fun r => holds (lineitem_kept r) = true) valid ->
        NoDup (map lineitem_key valid) ->
        l_orderkey bad_key = None \/ l_linenumber bad_key = None ->
        (exists q, l_quantity bad_amount = Some q /\ (q <= 0)%Q)
        \/ (exists p, l_extendedprice bad_amount = Some p /\ (p <= 0)%Q) ->
        List.length (extract_lineitem now batch_id source)
        = List.length valid)
  /\ (forall (now : Z) (batch_id : string)
             (source : relation (orders * Z)) (o1 o2 o3 : orders)
             (d1 t0 t1 t2 : Z),
        Permutation source [(o1, t0); (o2, t1); (o3, t2)] ->
        o_orderkey o1 = Some 1 -> o_orderdate o1 = None ->
        o_orderkey o2 = Some 2 -> o_orderdate o2 = Some d1 ->
        o_orderkey o3 = Some 2 -> o_orderdate o3 = Some d1 ->
        exists r,
          extract_orders now batch_id (orders_columns source) = [r]
          /\ o_orderkey (cols r) = Some 2
          /\ o_orderdate (cols r) = Some d1
          /\ (cols r = o2 \/ cols r = o3)
          /\ _ingested_at r = Some now).
Proof.
  split; [| split; [| split]].
  - intros raw r. unfold tv_orders_cleaned, WHERE.
    now rewrite filter_In, orders_kept_iff.
  - intros raw r. unfold tv_lineitem_cleaned, WHERE.
    now rewrite filter_In, lineitem_kept_iff.
  - intros now batch_id valid source bad_key bad_amount Hp Hv Hnd Hk Ha.
    apply (@extract_count _ _ lineitem_key pair_eqb lineitem_kept now
             batch_id source valid [bad_key; bad_amount] pair_eqb_eq);
      try assumption.
    repeat constructor.
    + destruct (holds (lineitem_kept bad_key)) eqn:E; [| reflexivity].
      apply lineitem_kept_iff in E. destruct Hk; tauto.
    + destruct (holds (lineitem_kept bad_amount)) eqn:E; [| reflexivity].
      apply lineitem_kept_iff in E.
      destruct E as [_ [_ [[q [Hq Hpos]] [p [Hp' Hpos']]]]].
      destruct Ha as [[q' [Hq' Hle]] | [p' [Hp'' Hle]]].
      * rewrite Hq in Hq'. injection Hq' as <-.
        exfalso. now apply (Qlt_not_le _ _ Hpos).
      * rewrite Hp' in Hp''. injection Hp'' as <-.
        exfalso. now apply (Qlt_not_le _ _ Hpos').
  - intros now batch_id source o1 o2 o3 d1 t0 t1 t2 Hp K1 D1 K2 D2 K3 D3.
    assert (Hsrc : Permutation (orders_columns source) [o1; o2; o3]).
    { unfold orders_columns.
      change [o1; o2; o3] with (map fst [(o1, t0); (o2, t1); (o3, t2)]).
      now apply Permutation_map. }
    assert (H1 : holds (orders_kept o1) = false).
    { destruct (holds (orders_kept o1)) eqn:E; [| reflexivity].
      apply orders_kept_iff in E. tauto. }
    assert (H2 : holds (orders_kept o2) = true).
    { apply orders_kept_iff. rewrite K2, D2. split; discriminate. }
    assert (H3 : holds (orders_kept o3) = true).
    { apply orders_kept_iff. rewrite K3, D3. split; discriminate. }
    assert (Hkept : Permutation
                      (filter (fun a => holds (orders_kept a))
                              (orders_columns source)) [o2; o3]).
    { rewrite (Permutation_filter _ Hsrc). simpl.
      rewrite H1, H2, H3. reflexivity. }
    pose proof (@extract_keys _ _ o_orderkey (col_eqb Z.eqb) orders_kept
                  col_eqb_eq now batch_id (orders_columns source)) as Hkeys.
    assert (Hone : distinct (col_eqb Z.eqb)
                     (map o_orderkey
                        (filter (fun a => holds (orders_kept a))
                                (orders_columns source))) = [Some 2]).
    { apply Permutation_sym, Permutation_length_2_inv in Hkept.
      destruct Hkept as [-> | ->]; simpl; rewrite K2, K3; reflexivity. }
    rewrite Hone in Hkeys.
    change (extract_with o_orderkey (col_eqb Z.eqb) orders_kept now batch_id
              (orders_columns source))
      with (extract_orders now batch_id (orders_columns source)) in Hkeys.
    assert (Hrows : forall r,
               In r (extract_orders now batch_id (orders_columns source)) ->
               exists a, In a (orders_columns source)
                         /\ holds (orders_kept a) = true
                         /\ r = {| cols := a; _ingested_at := Some now;
                                   _source_system := Some "tpch";
                                   _batch_id := Some batch_id |}).
    { intros r.
      exact (@extract_In _ _ o_orderkey (col_eqb Z.eqb) orders_kept
               col_eqb_eq now batch_id (orders_columns source) r). }
    destruct (extract_orders now batch_id (orders_columns source))
      as [| r [| r' tl]]; try discriminate Hkeys.
    exists r. split; [reflexivity |].
    destruct (Hrows r (or_introl eq_refl)) as [a [Ha [Hk ->]]].
    apply (Permutation_in _ Hsrc) in Ha. simpl in Ha. simpl.
    destruct Ha as [<- | [<- | [<- | []]]].
    + rewrite H1 in Hk. discriminate.
    + tauto.
    + tauto.
Qed.

Lemma clean_stage_drops_failing_rows_witness :
  let valid := [ a_lineitem (Some 1) (Some 1) 5 "a";
                 a_lineitem (Some 1) (Some 2) 3 "b";
                 a_lineitem (Some 2) (Some 1) 1 "c" ] in
  let bad_key := a_lineitem None (Some 4) 2 "no order key" in
  let bad_amount := a_lineitem (Some 3) (Some 1) 0 "nothing ordered" in
  let source := [ (an_order 2 (Some 9000) "late", 20);
                  (an_order 1 None "undated", 5);
                  (an_order 2 (Some 9000) "early", 10) ] in
  List.length
    (extract_lineitem 100 "batch_1" (bad_amount :: bad_key :: rev valid))
  = 3%nat
  /\ exists r,
       extract_orders 100 "batch_1" (orders_columns source) = [r]
       /\ o_orderkey (cols r) = Some 2
       /\ _ingested_at r = Some 100.
Proof.
  intros valid bad_key bad_amount source.
  destruct clean_stage_drops_failing_rows as [_ [_ [Hcount Hscenario]]].
  split.
  - apply (Hcount 100 "batch_1" valid
                  (bad_amount :: bad_key :: rev valid) bad_key bad_amount).
    + transitivity (bad_key :: bad_amount :: rev valid);
        [apply perm_swap |].
      change (bad_key :: bad_amount :: rev valid)
        with ([bad_key; bad_amount] ++ rev valid)%list.
      rewrite Permutation_app_comm. apply Permutation_app_tail.
      symmetry. apply Permutation_rev.
    + repeat constructor.
    + repeat constructor; simpl; intuition discriminate.
    + now left.
    + left. exists 0%Q. split; [reflexivity | apply Qle_refl].
  - destruct (Hscenario 100 "batch_1" source
                (an_order 1 None "undated")
                (an_order 2 (Some 9000) "early")
                (an_order 2 (Some 9000) "late") 9000 5 10 20)
      as [r [Hr [Hk [_ [_ Ht]]]]]; try reflexivity.
    + unfold source.
      apply perm_trans
        with (l' := [ (an_order 1 None "undated", 5);
                      (an_order 2 (Some 9000) "late", 20);
                      (an_order 2 (Some 9000) "early", 10) ]).
      * apply perm_swap.
      * apply perm_skip. apply perm_swap.
    + exists r. tauto.
Defined.

(** C4 (as stated) fails twice. Without distinct keys the count is not N:
    two valid line items with the same key, plus the two bad rows, leave
    one row in bronze. And the bronze row of the orders scenario does not
    carry the ingestion time t2 of a source row: the capture reads the nine
    columns of orders only and stamps the row with the time of the run. *)
Lemma bronze_count_and_timestamp_differ :
  ~ (forall (now : Z) (batch_id : string) (valid : relation lineitem)
            (bad_key bad_amount : lineitem),
        Forall (fun r => holds (lineitem_kept r) = true) valid ->
        l_orderkey bad_key = None \/ l_linenumber bad_key = None ->
        (exists q, l_quantity bad_amount = Some q /\ (q <= 0)%Q)
        \/ (exists p, l_extendedprice bad_amount = Some p /\ (p <= 0)%Q) ->
        List.length
          (extract_lineitem now batch_id
             (valid ++ [bad_key; bad_amount])%list)
        = List.length valid)
  /\ ~ (forall (now : Z) (batch_id : string) (d1 t1 t2 : Z),
          t1 < t2 ->
          exists r,
            extract_orders now batch_id
              (orders_columns [ (an_order 1 None "undated", t1);
                                (an_order 2 (Some d1) "early", t1);
                                (an_order 2 (Some d1) "late", t2) ]) = [r]
            /\ o_orderkey (cols r) = Some 2
            /\ _ingested_at r = Some t2).
Proof.
  split.
  - intros H.
    specialize (H 100 "batch_1"
                  [ a_lineitem (Some 1) (Some 1) 5 "a";
                    a_lineitem (Some 1) (Some 1) 5 "a again" ]
                  (a_lineitem None (Some 4) 2 "no order key")
                  (a_lineitem (Some 3) (Some 1) 0 "nothing ordered")).
    assert (Hlen : List.length
                     (extract_lineitem 100 "batch_1"
                        ([ a_lineitem (Some 1) (Some 1) 5 "a";
                           a_lineitem (Some 1) (Some 1) 5 "a again" ]
                         ++ [ a_lineitem None (Some 4) 2 "no order key";
                              a_lineitem (Some 3) (Some 1) 0
                                         "nothing ordered" ])%list)
                   = 1%nat) by (vm_compute; reflexivity).
    rewrite H in Hlen.
    + discriminate Hlen.
    + repeat constructor.
    + now left.
    + left. exists 0%Q. split; [reflexivity | apply Qle_refl].
  - intros H.
    destruct (H 100 "batch_1" 9000 10 20 ltac:(lia)) as [r [Hr [_ Ht]]].
    vm_compute in Hr. injection Hr as <-. discriminate Ht.
Qed.

End ExtractFacts.


Module RefinedFacts.
Import Sql Extract Refined SqlFacts ExtractFacts.

(** **** Division guarded by NULLIF *)

Lemma DIV_NULLIF (ansi : bool) (a b : col Q) :
  exists v,
    DIV ansi a (NULLIF b zero) = inr v
    /\ (undefined_or_zero b -> v = None).
Proof.
  unfold NULLIF, zero, undefined_or_zero.
  destruct b as [y |].
  - destruct (Qeq_bool y 0) eqn:E.
    + exists None. split; [now destruct a | reflexivity].
    + destruct a as [x |]; simpl.
      * rewrite E. eexists. split; [reflexivity |].
        intros [H | [y' [[= <-] H]]]; [discriminate |].
        apply Qeq_bool_iff in H. congruence.
      * exists None. split; reflexivity.
  - exists None. split; [now destruct a | reflexivity].
Qed.

Lemma SELECT_total {R S} (f : R -> eval S) (l : relation R) :
  (forall r, In r l -> exists x, f r = inr x) ->
  exists out, SELECT f l = inr out /\ List.length out = List.length l.
Proof.
  induction l as [| r tl IH]; intros H; simpl.
  - exists []. split; reflexivity.
  - destruct (H r) as [x Hx]; [now left |]. rewrite Hx. simpl.
    destruct IH as [out [Hout Hlen]]; [intros r' Hr'; apply H; now right |].
    rewrite Hout. simpl. exists (x :: out). split; [reflexivity |].
    simpl. now rewrite Hlen.
Qed.

Lemma SELECT_In {R S} (f : R -> eval S) (l : relation R) (out : relation S)
      (y : S) :
  SELECT f l = inr out -> In y out -> exists x, In x l /\ f x = inr y.
Proof.
  revert out. induction l as [| r tl IH]; intros out H Hin; simpl in H.
  - injection H as <-. contradiction.
  - destruct (f r) as [e | x] eqn:Hx; simpl in H; [discriminate |].
    destruct (SELECT f tl) as [e | xs]; simpl in H; [discriminate |].
    injection H as <-. destruct Hin as [<- | Hin].
    + exists r. split; [now left | assumption].
    + destruct (IH xs eq_refl Hin) as [x' [Hx' Hf]].
      exists x'. split; [now right | assumption].
Qed.

Lemma order_details_calculated_total
      (ansi : bool) (r : RefinedOrderDetails.order_details_joined) :
  exists c,
    RefinedOrderDetails.order_details_calculated ansi r = inr c
    /\ (undefined_or_zero (RefinedOrderDetails.j_quantity r) ->
        RefinedOrderDetails.unit_price c = None).
Proof.
  unfold RefinedOrderDetails.order_details_calculated.
  destruct (DIV_NULLIF ansi (RefinedOrderDetails.j_extended_price r)
              (RefinedOrderDetails.j_quantity r)) as [v [Hv Hnull]].
  rewrite Hv. simpl. eexists. split; [reflexivity |].
  intros H. simpl. now rewrite (Hnull H).
Qed.

Lemma supplier_parts_margin_total
      (ansi : bool) (r : RefinedSupplierParts.supplier_parts_joined) :
  exists m,
    RefinedSupplierParts.supplier_parts_margin_of ansi r = inr m
    /\ (undefined_or_zero (RefinedSupplierParts.sj_retail_price r) ->
        RefinedSupplierParts.m_margin_pct m = None).
Proof.
  unfold RefinedSupplierParts.supplier_parts_margin_of.
  destruct (DIV_NULLIF ansi
              (q_sub (RefinedSupplierParts.sj_retail_price r)
                     (RefinedSupplierParts.sj_supply_cost r))
              (RefinedSupplierParts.sj_retail_price r)) as [v [Hv Hnull]].
  cbv zeta. rewrite Hv. simpl. eexists. split; [reflexivity |].
  intros H. simpl. now rewrite (Hnull H).
Qed.

Lemma supplier_parts_final_total
      (ansi : bool) (now : Z) (batch_id : string)
      (all : relation RefinedSupplierParts.supplier_parts_margin)
      (r : RefinedSupplierParts.supplier_parts_margin) :
  exists f,
    RefinedSupplierParts.supplier_parts_final_of ansi now batch_id all r
    = inr f
    /\ (undefined_or_zero
          (AVG RefinedSupplierParts.supply_cost_of
             (partition_of RefinedSupplierParts.region_type
                RefinedSupplierParts.region_type_eqb
                (RefinedSupplierParts.region_type r) all)) ->
        RefinedSupplierParts.cost_vs_region_avg (fields f) = None).
Proof.
  unfold RefinedSupplierParts.supplier_parts_final_of. cbv zeta.
  destruct (DIV_NULLIF ansi (RefinedSupplierParts.supply_cost_of r)
              (AVG RefinedSupplierParts.supply_cost_of
                 (partition_of RefinedSupplierParts.region_type
                    RefinedSupplierParts.region_type_eqb
                    (RefinedSupplierParts.region_type r) all)))
    as [v [Hv Hnull]].
  rewrite Hv. simpl. eexists. split; [reflexivity |].
  intros H. simpl. now rewrite (Hnull H).
Qed.

Lemma tv_order_details_calculated_total (ansi : bool) joined :
  exists out,
    RefinedOrderDetails.tv_order_details_calculated ansi joined = inr out
    /\ List.length out = List.length joined.
Proof.
  apply SELECT_total. intros r _.
  destruct (order_details_calculated_total ansi r) as [c [Hc _]].
  now exists c.
Qed.

(** C6. In ANSI mode or not, each division-based field of the refine stage
    is computed without an arithmetic failure on every input row, and is
    NULL when its denominator is NULL or zero: [unit_price] (denominator
    [quantity]), [margin_pct] (denominator [retail_price]) and
    [cost_vs_region_avg] (denominator the average supply cost of the row's
    region and part type); so the three views return a row for every input
    row. *)
Theorem derived_divisions_are_null_safe (ansi : bool) :
  (forall r : RefinedOrderDetails.order_details_joined,
      exists c,
        RefinedOrderDetails.order_details_calculated ansi r = inr c
        /\ (undefined_or_zero (RefinedOrderDetails.j_quantity r) ->
            RefinedOrderDetails.unit_price c = None))
  /\ (forall r : RefinedSupplierParts.supplier_parts_joined,
        exists m,
          RefinedSupplierParts.supplier_parts_margin_of ansi r = inr m
          /\ (undefined_or_zero (RefinedSupplierParts.sj_retail_price r) ->
              RefinedSupplierParts.m_margin_pct m = None))
  /\ (forall (now : Z) (batch_id : string)
             (all : relation RefinedSupplierParts.supplier_parts_margin)
             (r : RefinedSupplierParts.supplier_parts_margin),
        exists f,
          RefinedSupplierParts.supplier_parts_final_of ansi now batch_id all r
          = inr f
          /\ (undefined_or_zero
                (AVG RefinedSupplierParts.supply_cost_of
                   (partition_of RefinedSupplierParts.region_type
                      RefinedSupplierParts.region_type_eqb
                      (RefinedSupplierParts.region_type r) all)) ->
              RefinedSupplierParts.cost_vs_region_avg (fields f) = None))
  /\ (forall joined,
        exists out,
          RefinedOrderDetails.tv_order_details_calculated ansi joined = inr out
          /\ List.length out = List.length joined)
  /\ (forall (now : Z) (batch_id : string) joined,
        exists margin out,
          RefinedSupplierParts.tv_supplier_parts_margin ansi joined = inr margin
          /\ RefinedSupplierParts.tv_supplier_parts_final ansi now batch_id
               margin = inr out
          /\ List.length out = List.length joined).
Proof.
  split; [apply order_details_calculated_total |].
  split; [apply supplier_parts_margin_total |].
  split; [apply supplier_parts_final_total |].
  split; [apply tv_order_details_calculated_total |].
  intros now batch_id joined.
  destruct (@SELECT_total _ _
              (RefinedSupplierParts.supplier_parts_margin_of ansi) joined)
    as [margin [Hm Hlen]].
  { intros r _. destruct (supplier_parts_margin_total ansi r) as [m [Hm _]].
    now exists m. }
  destruct (@SELECT_total _ _
              (RefinedSupplierParts.supplier_parts_final_of ansi now batch_id
                 margin) margin) as [out [Ho Hlen']].
  { intros r _.
    destruct (supplier_parts_final_total ansi now batch_id margin r)
      as [f [Hf _]].
    now exists f. }
  exists margin, out. repeat split; try assumption. congruence.
Qed.

Lemma derived_divisions_are_null_safe_witness :
  exists c,
    RefinedOrderDetails.order_details_calculated true
      RefinedOrderDetails.zero_quantity_line = inr c
    /\ RefinedOrderDetails.unit_price c = None.
Proof.
  destruct (proj1 (derived_divisions_are_null_safe true)
              RefinedOrderDetails.zero_quantity_line) as [c [Hc Hnull]].
  exists c. split; [exact Hc |]. apply Hnull.
  right. exists 0%Q. split; reflexivity.
Defined.

(** **** refined_customer_orders *)

Lemma LEFT_JOIN_In {A B} (l : relation A) (r : relation B) (on : A -> B -> tri)
      (a : A) (b : B) :
  In (a, Some b) (LEFT_JOIN l r on) ->
  In a l /\ In b r /\ holds (on a b) = true.
Proof.
  unfold LEFT_JOIN. intros H. apply in_flat_map in H.
  destruct H as [a' [Ha' H]].
  destruct (filter (fun b0 => holds (on a' b0)) r) as [| m ms] eqn:E.
  - destruct H as [H | []]. discriminate.
  - apply in_map_iff in H. destruct H as [b' [[= <- <-] Hb']].
    rewrite <- E in Hb'. apply filter_In in Hb'. tauto.
Qed.

Lemma DIV_nonzero (ansi : bool) (a : col Q) (y : Q) :
  Qeq_bool y 0 = false -> exists v, DIV ansi a (Some y) = inr v.
Proof.
  intros H. destruct a as [x |]; simpl; [rewrite H |]; eexists; reflexivity.
Qed.

Lemma count_nonzero (n : Z) : 0 < n -> Qeq_bool (inject_Z n) 0 = false.
Proof.
  intros H. destruct (Qeq_bool (inject_Z n) 0) eqn:E; [| reflexivity].
  apply Qeq_bool_iff in E. unfold Qeq, inject_Z in E. simpl in E. lia.
Qed.

Lemma count_minus_one_nonzero (n : Z) :
  1 < n -> Qeq_bool (inject_Z n - 1) 0 = false.
Proof.
  intros H. destruct (Qeq_bool (inject_Z n - 1) 0) eqn:E; [| reflexivity].
  apply Qeq_bool_iff in E. unfold Qeq, Qminus, Qplus, Qopp, inject_Z in E.
  simpl in E. lia.
Qed.

Lemma customer_order_agg_total
      (ansi : bool) (current_date : Z)
      (k : RefinedCustomerOrders.group_key)
      (grp : relation RefinedCustomerOrders.geo_order) :
  exists a,
    RefinedCustomerOrders.customer_order_agg_of ansi current_date k grp = inr a
    /\ RefinedCustomerOrders.a_customer_key a
       = RefinedCustomerOrders.group_customer k
    /\ RefinedCustomerOrders.a_total_orders a
       = Some (COUNT (RefinedCustomerOrders.o_ o_orderkey) grp).
Proof.
  unfold RefinedCustomerOrders.customer_order_agg_of. cbv zeta.
  set (n := COUNT (RefinedCustomerOrders.o_ o_orderkey) grp).
  assert (H1 : exists v,
             (if holds (gt_z (Some n) (Some 1))
              then bind (DIV ansi
                           (q_of_z (DATEDIFF
                              (MAX_z (RefinedCustomerOrders.o_ o_orderdate) grp)
                              (MIN_z (RefinedCustomerOrders.o_ o_orderdate) grp)))
                           (Some (inject_Z n - 1)%Q))
                        (fun d => inr (ROUND d 2))
              else inr None) = inr v).
  { unfold holds, gt_z, compare_with.
    destruct (Z.ltb_spec 1 n) as [Hn | Hn]; [| eexists; reflexivity].
    destruct (@DIV_nonzero ansi
                (q_of_z (DATEDIFF
                           (MAX_z (RefinedCustomerOrders.o_ o_orderdate) grp)
                           (MIN_z (RefinedCustomerOrders.o_ o_orderdate) grp)))
                _ (count_minus_one_nonzero Hn)) as [v Hv].
    rewrite Hv. eexists. reflexivity. }
  destruct H1 as [v1 ->].
  assert (H2 : exists v,
             (if holds (gt_z (Some n) (Some 0))
              then bind (DIV ansi
                           (Some (100 * inject_Z
                              (COUNT_WHEN
                                 (fun x => eq_s
                                    (RefinedCustomerOrders.o_ o_orderstatus x)
                                    (Some "F")) grp))%Q)
                           (Some (inject_Z n)))
                        (fun d => inr (ROUND d 2))
              else inr zero) = inr v).
  { unfold holds, gt_z, compare_with.
    destruct (Z.ltb_spec 0 n) as [Hn | Hn]; [| eexists; reflexivity].
    destruct (@DIV_nonzero ansi
                (Some (100 * inject_Z
                   (COUNT_WHEN
                      (fun x => eq_s (RefinedCustomerOrders.o_ o_orderstatus x)
                                     (Some "F")) grp))%Q)
                _ (count_nonzero Hn)) as [v Hv].
    rewrite Hv. eexists. reflexivity. }
  destruct H2 as [v2 H2]. cbn [bind]. rewrite H2. cbn [bind].
  destruct k as [[[[[key name] segment] nat] reg] bal].
  eexists. split; [reflexivity |]. split; reflexivity.
Qed.

Lemma COUNT_positive {R A} (e : R -> col A) (l : relation R) :
  0 < COUNT e l -> exists r, In r l /\ e r <> None.
Proof.
  unfold COUNT. intros H.
  destruct (filter (fun r => match e r with Some _ => true | None => false end)
                   l) as [| r tl] eqn:E; [simpl in H; lia |].
  assert (Hr : In r (filter (fun r => match e r with
                                      | Some _ => true
                                      | None => false
                                      end) l)) by (rewrite E; now left).
  apply filter_In in Hr. destruct Hr as [Hr He]. exists r.
  split; [assumption |]. now destruct (e r).
Qed.

Lemma group_eqb_customer (a b : RefinedCustomerOrders.group_key) :
  RefinedCustomerOrders.group_eqb a b = true ->
  RefinedCustomerOrders.group_customer a
  = RefinedCustomerOrders.group_customer b.
Proof.
  destruct a as [[[[[k1 n1] m1] na1] r1] b1].
  destruct b as [[[[[k2 n2] m2] na2] r2] b2].
  unfold RefinedCustomerOrders.group_eqb. simpl.
  rewrite !andb_true_iff. intros [[[[[H _] _] _] _] _].
  now apply col_eqb_eq.
Qed.

(** A group with a counted order joins an order of its customer. *)
Lemma aggregated_customer_has_order
      (ansi : bool) (current_date : Z)
      (geo : relation RefinedCustomerOrders.customers_geo)
      (b_orders : relation (audited orders))
      (agg : relation RefinedCustomerOrders.customer_order_agg)
      (a : RefinedCustomerOrders.customer_order_agg) :
  RefinedCustomerOrders.tv_customer_order_agg ansi current_date geo b_orders
  = inr agg ->
  In a agg ->
  holds (gt_z (RefinedCustomerOrders.a_total_orders a) (Some 0)) = true ->
  (exists n, RefinedCustomerOrders.a_total_orders a = Some n /\ 0 < n)
  /\ exists k o,
       RefinedCustomerOrders.a_customer_key a = Some k
       /\ In o b_orders /\ o_custkey (cols o) = Some k
       /\ o_orderkey (cols o) <> None.
Proof.
  unfold RefinedCustomerOrders.tv_customer_order_agg. cbv zeta.
  intros Hagg Hin Hpos.
  destruct (@SELECT_In _ _ _ _ _ _ Hagg Hin) as [g [_ Hg]].
  destruct (customer_order_agg_total ansi current_date g
              (partition_of
                 (fun x => RefinedCustomerOrders.group_of (fst x))
                 RefinedCustomerOrders.group_eqb g
                 (LEFT_JOIN geo b_orders
                    (fun cg o => eq_z (RefinedCustomerOrders.g_customer_key cg)
                                      (o_custkey (cols o))))))
    as [a' [Ha' [Hkey Hcount]]].
  rewrite Hg in Ha'. injection Ha' as <-.
  rewrite Hcount in Hpos. unfold holds, gt_z, compare_with in Hpos.
  match type of Hpos with
  | (if ?c then _ else _) = _ => destruct c eqn:Hc; [| discriminate]
  end.
  clear Hpos. apply Z.ltb_lt in Hc. rename Hc into Hpos.
  split; [eexists; split; [exact Hcount | exact Hpos] |].
  destruct (@COUNT_positive _ _ _ _ Hpos) as [[cg o] [Hx Ho]].
  unfold partition_of in Hx. apply filter_In in Hx. destruct Hx as [Hx Hgrp].
  apply group_eqb_customer in Hgrp. simpl in Hgrp.
  destruct o as [o |]; [| now elim Ho].
  apply LEFT_JOIN_In in Hx. destruct Hx as [_ [Hio Hon]].
  unfold RefinedCustomerOrders.o_ in Ho. simpl in Ho.
  destruct (RefinedCustomerOrders.g_customer_key cg) as [k |] eqn:Ek;
    [| discriminate Hon].
  destruct (o_custkey (cols o)) as [k' |] eqn:Ek'; [| discriminate Hon].
  simpl in Hon. destruct (Z.eqb_spec k k') as [<- | _]; [| discriminate].
  exists k, o. rewrite Hkey, <- Hgrp. repeat split; assumption.
Qed.

Lemma rfm_rows_have_orders
      (agg : relation RefinedCustomerOrders.customer_order_agg)
      (x : RefinedCustomerOrders.customer_rfm) :
  In x (RefinedCustomerOrders.tv_customer_rfm agg) ->
  In (RefinedCustomerOrders.rfm_agg x) agg
  /\ holds (gt_z (RefinedCustomerOrders.a_total_orders
                    (RefinedCustomerOrders.rfm_agg x)) (Some 0)) = true.
Proof.
  unfold RefinedCustomerOrders.tv_customer_rfm. cbv zeta. intros H.
  apply in_map_iff in H. destruct H as [[a scores] [<- H]].
  apply in_combine_l in H. unfold WHERE in H. apply filter_In in H.
  exact H.
Qed.

(** **** The final INSERT OVERWRITE of the refine notebooks *)

Lemma INSERT_OVERWRITE_inr {R} (fits : R -> bool) (rows out : relation R) :
  INSERT_OVERWRITE fits rows = inr out ->
  out = rows /\ forallb fits rows = true.
Proof.
  unfold INSERT_OVERWRITE. destruct (forallb fits rows); [| discriminate].
  intros [= <-]. split; reflexivity.
Qed.

Lemma INSERT_OVERWRITE_raises {R} (fits : R -> bool) (rows : relation R)
      (e : error) :
  INSERT_OVERWRITE fits rows = inl e ->
  e = CAST_OVERFLOW /\ exists r, In r rows /\ fits r = false.
Proof.
  unfold INSERT_OVERWRITE. destruct (forallb fits rows) eqn:E; [discriminate |].
  intros [= <-]. split; [reflexivity |].
  induction rows as [| x tl IH]; [discriminate |].
  simpl in E. apply andb_false_iff in E. destruct E as [E | E].
  - exists x. split; [now left | exact E].
  - destruct (IH E) as [r [Hin Hr]]. exists r. split; [now right | exact Hr].
Qed.

Lemma tv_customer_order_agg_total
      (ansi : bool) (current_date : Z)
      (b_customers : relation (audited customers))
      (b_nation : relation (audited nation))
      (b_region : relation (audited region))
      (b_orders : relation (audited orders)) :
  exists agg,
    RefinedCustomerOrders.tv_customer_order_agg ansi current_date
      (RefinedCustomerOrders.tv_customers_geo b_customers b_nation b_region)
      b_orders = inr agg.
Proof.
  destruct (@SELECT_total _ _
              (fun k =>
                 RefinedCustomerOrders.customer_order_agg_of ansi current_date k
                   (partition_of
                      (fun x => RefinedCustomerOrders.group_of (fst x))
                      RefinedCustomerOrders.group_eqb k
                      (LEFT_JOIN
                         (RefinedCustomerOrders.tv_customers_geo
                            b_customers b_nation b_region) b_orders
                         (fun cg o =>
                            eq_z (RefinedCustomerOrders.g_customer_key cg)
                                 (o_custkey (cols o))))))
              (distinct RefinedCustomerOrders.group_eqb
                 (map (fun x => RefinedCustomerOrders.group_of (fst x))
                    (LEFT_JOIN
                       (RefinedCustomerOrders.tv_customers_geo
                          b_customers b_nation b_region) b_orders
                       (fun cg o =>
                          eq_z (RefinedCustomerOrders.g_customer_key cg)
                               (o_custkey (cols o)))))))
    as [agg [Hagg _]].
  { intros k _.
    destruct (customer_order_agg_total ansi current_date k
                (partition_of
                   (fun x => RefinedCustomerOrders.group_of (fst x))
                   RefinedCustomerOrders.group_eqb k
                   (LEFT_JOIN
                      (RefinedCustomerOrders.tv_customers_geo
                         b_customers b_nation b_region) b_orders
                      (fun cg o =>
                         eq_z (RefinedCustomerOrders.g_customer_key cg)
                              (o_custkey (cols o)))))) as [a [Ha _]].
    now exists a. }
  exists agg. exact Hagg.
Qed.

(** A run of the notebook that returns wrote exactly the rows of its last
    view, each of which fits the columns of the silver table. *)
Lemma refined_customer_orders_inr
      (ansi : bool) (current_date now : Z) (batch_id : string)
      (b_customers : relation (audited customers))
      (b_nation : relation (audited nation))
      (b_region : relation (audited region))
      (b_orders : relation (audited orders))
      (silver : relation (stamped RefinedCustomerOrders.customer_orders)) :
  RefinedCustomerOrders.refined_customer_orders ansi current_date now
    batch_id b_customers b_nation b_region b_orders = inr silver ->
  exists agg,
    RefinedCustomerOrders.tv_customer_order_agg ansi current_date
      (RefinedCustomerOrders.tv_customers_geo b_customers b_nation b_region)
      b_orders = inr agg
    /\ silver = RefinedCustomerOrders.tv_customer_orders_final now batch_id
                  (RefinedCustomerOrders.tv_customer_rfm agg)
    /\ forallb RefinedCustomerOrders.customer_orders_fits silver = true.
Proof.
  unfold RefinedCustomerOrders.refined_customer_orders.
  destruct (RefinedCustomerOrders.tv_customer_order_agg ansi current_date _ _)
    as [e | agg]; [discriminate |].
  cbn [bind]. intros H. apply INSERT_OVERWRITE_inr in H.
  destruct H as [-> Hfits]. exists agg. repeat split. exact Hfits.
Qed.

Lemma refined_order_details_inr
      (ansi : bool) (now : Z) (batch_id : string)
      (b_orders : relation (audited orders))
      (b_lineitem : relation (audited lineitem))
      (b_parts : relation (audited parts))
      (silver : relation (stamped RefinedOrderDetails.order_details)) :
  RefinedOrderDetails.refined_order_details ansi now batch_id b_orders
    b_lineitem b_parts = inr silver ->
  exists calculated,
    RefinedOrderDetails.tv_order_details_calculated ansi
      (RefinedOrderDetails.tv_order_details_joined b_orders b_lineitem
         b_parts) = inr calculated
    /\ silver = RefinedOrderDetails.tv_order_details_final now batch_id
                  calculated
    /\ forallb RefinedOrderDetails.order_details_fits silver = true.
Proof.
  unfold RefinedOrderDetails.refined_order_details.
  destruct (RefinedOrderDetails.tv_order_details_calculated ansi _)
    as [e | calculated]; [discriminate |].
  cbn [bind]. intros H. apply INSERT_OVERWRITE_inr in H.
  destruct H as [-> Hfits]. exists calculated. repeat split. exact Hfits.
Qed.

Lemma refined_supplier_parts_inr
      (ansi : bool) (now : Z) (batch_id : string)
      (b_suppliers : relation (audited suppliers))
      (b_partsupp : relation (audited partsupp))
      (b_parts : relation (audited parts))
      (b_nation : relation (audited nation))
      (b_region : relation (audited region))
      (silver : relation (stamped RefinedSupplierParts.supplier_parts)) :
  RefinedSupplierParts.refined_supplier_parts ansi now batch_id b_suppliers
    b_partsupp b_parts b_nation b_region = inr silver ->
  exists margin,
    RefinedSupplierParts.tv_supplier_parts_margin ansi
      (RefinedSupplierParts.tv_supplier_parts_joined b_suppliers b_partsupp
         b_parts b_nation b_region) = inr margin
    /\ RefinedSupplierParts.tv_supplier_parts_final ansi now batch_id margin
       = inr silver
    /\ forallb RefinedSupplierParts.supplier_parts_fits silver = true.
Proof.
  unfold RefinedSupplierParts.refined_supplier_parts.
  destruct (RefinedSupplierParts.tv_supplier_parts_margin ansi _)
    as [e | margin]; [discriminate |].
  cbn [bind].
  destruct (RefinedSupplierParts.tv_supplier_parts_final ansi now batch_id
              margin) as [e | final] eqn:Hfinal; [discriminate |].
  cbn [bind]. intros H. apply INSERT_OVERWRITE_inr in H.
  destruct H as [-> Hfits]. exists margin.
  split; [reflexivity |]. split; [exact Hfinal | exact Hfits].
Qed.

(** Each of the three notebooks can stop at its INSERT OVERWRITE, in both
    division modes, on rows that pass every filter of its views. *)
Lemma refined_order_details_overflows (ansi : bool) :
  RefinedOrderDetails.refined_order_details ansi 0 "batch" sample_orders
    [audit overpriced_lineitem 0] [] = inl CAST_OVERFLOW.
Proof. destruct ansi; vm_compute; reflexivity. Qed.

Lemma refined_customer_orders_overflows (ansi : bool) :
  RefinedCustomerOrders.refined_customer_orders ansi 9200 0 "batch"
    sample_customers [] [] unkeyed_orders = inl CAST_OVERFLOW.
Proof. destruct ansi; vm_compute; reflexivity. Qed.

Lemma refined_supplier_parts_overflows (ansi : bool) :
  RefinedSupplierParts.refined_supplier_parts ansi 0 "batch"
    sample_suppliers [audit (a_partsupp 1 1 (Some (1000 # 1)%Q)) 0]
    [audit (a_part 1 (1 # 100)%Q) 0] [] [] = inl CAST_OVERFLOW.
Proof. destruct ansi; vm_compute; reflexivity. Qed.

(** C10. Whenever the refine of customer orders returns, every row of the
    silver table it wrote has total_orders > 0 and is the row of a customer
    key that some bronze order carries; a bronze customer that no bronze
    order joins has no row in it, although the aggregation joins orders with
    a left join. (A run that does not return writes nothing: its INSERT
    OVERWRITE raised on a value too large for its column.) *)
Theorem customer_orders_keeps_customers_with_orders
        (ansi : bool) (current_date now : Z) (batch_id : string)
        (b_customers : relation (audited customers))
        (b_nation : relation (audited nation))
        (b_region : relation (audited region))
        (b_orders : relation (audited orders))
        (silver : relation (stamped RefinedCustomerOrders.customer_orders))
        (Hrun : RefinedCustomerOrders.refined_customer_orders ansi
                  current_date now batch_id b_customers b_nation b_region
                  b_orders = inr silver) :
  (forall r, In r silver ->
     (exists n, RefinedCustomerOrders.total_orders (fields r) = Some n
                /\ 0 < n)
     /\ exists k o,
          RefinedCustomerOrders.customer_key (fields r) = Some k
          /\ In o b_orders /\ o_custkey (cols o) = Some k
          /\ o_orderkey (cols o) <> None)
  /\ (forall c, In c b_customers ->
       (forall o, In o b_orders ->
                  holds (eq_z (c_custkey (cols c)) (o_custkey (cols o)))
                  = false) ->
       forall r, In r silver ->
                 RefinedCustomerOrders.customer_key (fields r)
                 <> c_custkey (cols c)).
Proof.
  apply refined_customer_orders_inr in Hrun.
  destruct Hrun as [agg [Hagg [-> _]]].
  assert (Hrows : forall r,
             In r (RefinedCustomerOrders.tv_customer_orders_final now batch_id
                     (RefinedCustomerOrders.tv_customer_rfm agg)) ->
             (exists n, RefinedCustomerOrders.total_orders (fields r) = Some n
                        /\ 0 < n)
             /\ exists k o,
                  RefinedCustomerOrders.customer_key (fields r) = Some k
                  /\ In o b_orders /\ o_custkey (cols o) = Some k
                  /\ o_orderkey (cols o) <> None).
  { intros r Hr. unfold RefinedCustomerOrders.tv_customer_orders_final in Hr.
    apply in_map_iff in Hr. destruct Hr as [x [<- Hx]].
    apply rfm_rows_have_orders in Hx. destruct Hx as [Hin Hpos].
    exact (@aggregated_customer_has_order ansi current_date _ _ _ _
             Hagg Hin Hpos). }
  split; [exact Hrows |].
  intros c _ Hnone r Hr Heq.
  destruct (Hrows r Hr) as [_ [k [o [Hk [Ho [Hck _]]]]]].
  specialize (Hnone o Ho). rewrite <- Heq, Hk, Hck in Hnone.
  simpl in Hnone. rewrite Z.eqb_refl in Hnone. discriminate.
Qed.

Lemma customer_orders_keeps_customers_with_orders_witness :
  let b_customers := [ audit (a_customer 7 "with orders") 5;
                       audit (a_customer 3 "without orders") 5 ] in
  let b_orders := [ audit (an_order 10 (Some 9000) "x") 5;
                    audit (an_order 11 (Some 9100) "y") 5 ] in
  exists silver,
    RefinedCustomerOrders.refined_customer_orders true 9200 50 "batch_1"
      b_customers [] [] b_orders = inr silver
    /\ silver <> []
    /\ forall r, In r silver ->
                 RefinedCustomerOrders.customer_key (fields r) <> Some 3.
Proof.
  intros b_customers b_orders.
  destruct (RefinedCustomerOrders.refined_customer_orders true 9200 50
              "batch_1" b_customers [] [] b_orders) as [e | silver] eqn:Hrun.
  - vm_compute in Hrun. discriminate Hrun.
  - exists silver. split; [reflexivity |]. split.
    + intros ->. vm_compute in Hrun. discriminate Hrun.
    + destruct (@customer_orders_keeps_customers_with_orders true 9200 50
                  "batch_1" b_customers [] [] b_orders silver Hrun)
        as [_ Habsent].
      apply (Habsent (audit (a_customer 3 "without orders") 5)).
      * right. now left.
      * intros o [<- | [<- | []]]; reflexivity.
Defined.

End RefinedFacts.


Module QualityFacts.
Import Sql Extract Refined Quality SqlFacts ExtractFacts RefinedFacts.

(** **** The final filter of refined_order_details *)

Lemma holds_nonneg (a : col Q) :
  holds (ge_q a zero) = true <-> exists n, a = Some n /\ (0 <= n)%Q.
Proof.
  unfold ge_q, compare_with, zero, holds. destruct a as [n |].
  - destruct (Qle_bool 0 n) eqn:E; split.
    + intros _. exists n. split; [reflexivity | now apply Qle_bool_iff].
    + reflexivity.
    + discriminate.
    + intros [n' [[= <-] Hn]]. apply Qle_bool_iff in Hn. congruence.
  - split; [discriminate | intros [n [H _]]; discriminate].
Qed.

Lemma order_details_kept_iff (r : RefinedOrderDetails.order_details) :
  holds (RefinedOrderDetails.order_details_kept r) = true
  <-> RefinedOrderDetails.in_range r.
Proof.
  unfold RefinedOrderDetails.order_details_kept, RefinedOrderDetails.in_range.
  rewrite !holds_AND, holds_nonneg.
  change zero with (Some 0%Q). rewrite !holds_positive. tauto.
Qed.

Lemma COUNT_WHEN_none {R} (p : R -> tri) (l : relation R) :
  (forall r, In r l -> holds (p r) = false) -> COUNT_WHEN p l = 0.
Proof.
  intros H. unfold COUNT_WHEN.
  now rewrite (@filter_none _ (fun r => holds (p r)) l H).
Qed.

Lemma never_negative (a : col Q) :
  (exists n, a = Some n /\ (0 <= n)%Q) -> holds (lt_q a zero) = false.
Proof.
  intros [n [-> Hn]]. unfold lt_q, compare_with, zero, holds, Qlt_bool.
  apply Qle_bool_iff in Hn. now rewrite Hn.
Qed.

Lemma never_non_positive (a : col Q) :
  (exists q, a = Some q /\ (0 < q)%Q) -> holds (le_q a zero) = false.
Proof.
  intros [q [-> Hq]]. unfold le_q, compare_with, zero, holds.
  destruct (Qle_bool q 0) eqn:E; [| reflexivity].
  apply Qle_bool_iff in E. exfalso. now apply (Qlt_not_le _ _ Hq).
Qed.

(** C9. Whenever the refine of order details returns, every row of the
    silver table it wrote has quantity > 0, extended_price > 0 and
    net_revenue >= 0; on that table the business rules "No negative
    net_revenue" and "No zero/neg quantity" count no violation and report
    PASS. (A run that does not return writes nothing: its INSERT OVERWRITE
    raised on a value too large for its column.) *)
Theorem silver_order_details_pass_business_rules
        (ansi : bool) (now : Z) (batch_id : string)
        (b_orders : relation (audited orders))
        (b_lineitem : relation (audited lineitem))
        (b_parts : relation (audited parts))
        (silver : relation (stamped RefinedOrderDetails.order_details))
        (Hrun : RefinedOrderDetails.refined_order_details ansi now batch_id
                  b_orders b_lineitem b_parts = inr silver) :
  (forall r, In r silver ->
     (exists q, RefinedOrderDetails.quantity (fields r) = Some q
                /\ (0 < q)%Q)
     /\ (exists p, RefinedOrderDetails.extended_price (fields r) = Some p
                   /\ (0 < p)%Q)
     /\ (exists n, RefinedOrderDetails.net_revenue (fields r) = Some n
                   /\ (0 <= n)%Q))
  /\ forall s_customer_orders,
      exists rest,
        df_rules silver s_customer_orders
        = {| check_type := "Business Rule";
             check_name := "No negative net_revenue";
             violation_count := 0;
             status := "PASS" |}
          :: {| check_type := "Business Rule";
                check_name := "No zero/neg quantity";
                violation_count := 0;
                status := "PASS" |}
          :: rest.
Proof.
  apply refined_order_details_inr in Hrun.
  destruct Hrun as [calc [Hcalc [-> _]]].
  assert (Hrows : forall r,
             In r (RefinedOrderDetails.tv_order_details_final now batch_id calc)
             -> RefinedOrderDetails.in_range (fields r)).
  { intros r Hr. unfold RefinedOrderDetails.tv_order_details_final in Hr.
    apply in_map_iff in Hr. destruct Hr as [c [<- Hc]].
    unfold WHERE in Hc. apply filter_In in Hc. destruct Hc as [_ Hc].
    now apply order_details_kept_iff. }
  split; [exact Hrows |].
  intros co. unfold df_rules. eexists.
  rewrite COUNT_WHEN_none.
  - rewrite COUNT_WHEN_none; [reflexivity |].
    intros r Hr. apply never_non_positive. now apply Hrows.
  - intros r Hr. apply never_negative. now apply Hrows.
Qed.

Lemma silver_order_details_pass_business_rules_witness :
  let b_orders := [ audit (an_order 1 (Some 9000) "x") 5 ] in
  let b_lineitem := [ audit (a_lineitem (Some 1) (Some 1) 5 "kept") 5;
                      audit (a_lineitem (Some 1) (Some 2) 0 "dropped") 5 ] in
  exists silver,
    RefinedOrderDetails.refined_order_details true 50 "batch_1"
      b_orders b_lineitem [] = inr silver
    /\ silver <> []
    /\ (forall r, In r silver ->
         exists q, RefinedOrderDetails.quantity (fields r) = Some q
                   /\ (0 < q)%Q)
    /\ exists rest,
        df_rules silver []
        = {| check_type := "Business Rule";
             check_name := "No negative net_revenue";
             violation_count := 0;
             status := "PASS" |}
          :: {| check_type := "Business Rule";
                check_name := "No zero/neg quantity";
                violation_count := 0;
                status := "PASS" |}
          :: rest.
Proof.
  intros b_orders b_lineitem.
  destruct (RefinedOrderDetails.refined_order_details true 50 "batch_1"
              b_orders b_lineitem []) as [e | silver] eqn:Hrun.
  - vm_compute in Hrun. discriminate Hrun.
  - exists silver. split; [reflexivity |]. split.
    + intros ->. vm_compute in Hrun. discriminate Hrun.
    + destruct (@silver_order_details_pass_business_rules true 50 "batch_1"
                  b_orders b_lineitem [] silver Hrun) as [Hrows Hrules].
      split.
      * intros r Hr. exact (proj1 (Hrows r Hr)).
      * apply Hrules.
Defined.

(** **** Freshness *)

Lemma rounded_hours_within_25 (n : Z) :
  Qle_bool (round_half_up 1 (inject_Z n / (3600 # 1))) (25 # 1)
  = (n <? 90180).
Proof.
  unfold round_half_up.
  destruct (Qle_bool 0 (inject_Z n / (3600 # 1))) eqn:E;
    unfold Qle_bool, Qfloor, Qdiv, Qmult, Qplus, Qinv, Qopp, inject_Z in *;
    simpl in *; replace (Z.pow_pos 10 1) with 10 by reflexivity.
  - apply Z.leb_le in E.
    destruct (Z.ltb_spec n 90180) as [H | H].
    + apply Z.leb_le.
      match goal with |- context [ ?a / 7200 ] =>
        assert (a / 7200 < 251) by (apply Z.div_lt_upper_bound; lia) end.
      lia.
    + apply Z.leb_gt.
      match goal with |- context [ ?a / 7200 ] =>
        assert (251 <= a / 7200) by (apply Z.div_le_lower_bound; lia) end.
      lia.
  - apply Z.leb_gt in E.
    destruct (Z.ltb_spec n 90180) as [H | H]; [| lia].
    apply Z.leb_le.
    match goal with |- context [ ?a / 7200 ] =>
      assert (0 <= a / 7200) by (apply Z.div_pos; lia) end.
    lia.
Qed.

Lemma freshness_status (now t : Z) (table : string) :
  f_status (freshness now table (Some t))
  = if now / 1000000 - t / 1000000 <? 90180 then "PASS" else "STALE".
Proof.
  unfold freshness, CASE_WHEN. cbn [f_status].
  unfold unix_timestamp, z_sub, q_of_z, DIV_BY, ROUND, le_q, compare_with,
    option_map, holds.
  rewrite rounded_hours_within_25.
  now destruct (now / 1000000 - t / 1000000 <? 90180).
Qed.

Lemma hours_later (t k : Z) :
  (t + k * hour) / 1000000 - t / 1000000 = k * 3600.
Proof.
  unfold hour. replace (t + k * (3600 * 1000000))
    with (t + (k * 3600) * 1000000) by ring.
  rewrite Z.div_add by lia. ring.
Qed.

(** C7 (as amended). Each row of the freshness check takes the latest
    lineage timestamp of its table (max [_ingested_at] of bronze orders, max
    [_refined_at] of the two silver tables), and reports PASS exactly when
    the hours elapsed since then, rounded to one decimal, are at most 25,
    that is when fewer than 90180 whole seconds (25.05 hours) have elapsed;
    otherwise, and for a table without a lineage timestamp, it reports
    STALE. A timestamp 26 hours old gives STALE and one 10 hours old gives
    PASS. *)
Theorem freshness_passes_within_rounded_25_hours :
  (forall now b_orders s_order_details s_customer_orders,
      df_fresh now b_orders s_order_details s_customer_orders
      = [ freshness now "bronze.orders"
                    (MAX_z (@_ingested_at orders) b_orders);
          freshness now "silver.order_details"
                    (MAX_z (@_refined_at _) s_order_details);
          freshness now "silver.customer_orders"
                    (MAX_z (@_refined_at _) s_customer_orders) ])
  /\ (forall now table last,
        f_status (freshness now table last) = "PASS"
        <-> exists h, hours_since (freshness now table last) = Some h
                      /\ (h <= 25 # 1)%Q)
  /\ (forall now table t,
        f_status (freshness now table (Some t)) = "PASS"
        <-> now / 1000000 - t / 1000000 < 90180)
  /\ (forall now table last,
        f_status (freshness now table last) <> "PASS" ->
        f_status (freshness now table last) = "STALE")
  /\ (forall now table, f_status (freshness now table None) = "STALE")
  /\ (forall t table,
        f_status (freshness (t + 26 * hour) table (Some t)) = "STALE")
  /\ (forall t table,
        f_status (freshness (t + 10 * hour) table (Some t)) = "PASS").
Proof.
  split; [reflexivity |]. split; [| split; [| split; [| split; [| split]]]].
  - intros now table last. unfold freshness, CASE_WHEN.
    cbn [f_status hours_since].
    destruct (ROUND _ 1) as [h |]; unfold le_q, compare_with, holds.
    + destruct (Qle_bool h (25 # 1)) eqn:E; split.
      * intros _. exists h. split; [reflexivity | now apply Qle_bool_iff].
      * reflexivity.
      * discriminate.
      * intros [h' [[= <-] Hh]]. apply Qle_bool_iff in Hh. congruence.
    + split; [discriminate | intros [h [Hh _]]; discriminate].
  - intros now table t. rewrite freshness_status.
    destruct (Z.ltb_spec (now / 1000000 - t / 1000000) 90180); split;
      try tauto; try discriminate; lia.
  - intros now table last. unfold freshness, CASE_WHEN. cbn [f_status].
    destruct (holds _); [congruence | reflexivity].
  - reflexivity.
  - intros t table. rewrite freshness_status, hours_later. reflexivity.
  - intros t table. rewrite freshness_status, hours_later. reflexivity.
Qed.

Lemma freshness_passes_within_rounded_25_hours_witness :
  f_status (freshness (90100 * 1000000) "bronze.orders" (Some 0)) = "PASS"
  /\ f_status (freshness (90180 * 1000000) "bronze.orders" (Some 0)) = "STALE".
Proof.
  destruct freshness_passes_within_rounded_25_hours
    as [_ [_ [Hiff [Hstale _]]]].
  split.
  - apply Hiff. vm_compute. reflexivity.
  - apply Hstale. intros Hpass. apply Hiff in Hpass.
    vm_compute in Hpass. discriminate.
Defined.

(** C7 (as stated) fails: 25 hours, 1 minute and 40 seconds after the last
    refresh the check still reports PASS, since 25.03 rounds to 25.0. *)
Lemma freshness_passes_beyond_25_hours :
  ~ (forall (now t : Z) (table : string),
        f_status (freshness now table (Some t)) = "PASS"
        <-> now - t <= 25 * hour).
Proof.
  intros H.
  assert (Hpass : f_status (freshness (90100 * 1000000) "bronze.orders"
                                      (Some 0)) = "PASS")
    by (vm_compute; reflexivity).
  apply H in Hpass. vm_compute in Hpass. now apply Hpass.
Qed.

End QualityFacts.


(* ===================================================================== *)
(** * Further properties of the pipeline notebooks                       *)
(* ===================================================================== *)

Module OrchestratorMore.
Import Orchestrator OrchestratorFacts.
Local Open Scope py_scope.

(** **** Invariants of a run *)

Lemma stages_invariant (w : World) (t : Z) (I : State -> Prop) :
  (forall st s, I s -> I (stage_step w t st s)) ->
  forall sts s, I s -> I (after_stages w t sts s).
Proof.
  intros Hstep. unfold after_stages.
  induction sts as [| st tl IH]; intros s Hs; simpl.
  - exact Hs.
  - apply IH. now apply Hstep.
Qed.

Lemma groups_invariant (w : World) (t : Z) (k : M unit) (I : State -> Prop) :
  (forall st s, I s -> I (stage_step w t st s)) ->
  (forall s s' o, k s = (s', o) -> I s -> I s') ->
  forall gs s s' o,
    run_groups_then w t gs k s = (s', o) -> I s -> I s'.
Proof.
  intros Hstep Hk.
  pose proof (@stages_invariant w t I Hstep) as Hstages.
  induction gs as [| g tl IH]; intros s s' o H Hs.
  - eapply Hk; eassumption.
  - rewrite run_groups_then_cons in H. cbv zeta in H.
    destruct (gate_check _ _).
    + injection H as <- _. now apply Hstages.
    + eapply IH; [exact H |]. now apply Hstages.
Qed.

Lemma summary_state (s : State) :
  pipeline_summary s
  = ({| results := results s; ticks := ticks s; calls := calls s;
        stdout := (stdout s ++ map summary_row (results s)
                   ++ [PResult (result_text (results s))])%list |},
     match failed_of (results s) with
     | [] => Ok tt
     | _ => Raise (RuntimeError ("Pipeline finished with failures: "
              ++ Py.repr_list (Py.keys (failed_of (results s)))))
     end).
Proof.
  unfold pipeline_summary, result_text.
  unfold bind at 1. unfold get_results at 1. unfold bind at 1.
  assert (Hrows : forall l s0,
             for_each l (fun kv =>
               let icon := match status (snd kv) with
                           | SUCCESS => "OK"
                           | FAILED => "FAIL"
                           end in
               print (PRow (fst kv) icon (elapsed (snd kv)))) s0
             = ({| results := results s0; ticks := ticks s0;
                   calls := calls s0;
                   stdout := (stdout s0 ++ map summary_row l)%list |}, Ok tt)).
  { induction l as [| kv tl IH]; intros s0; simpl.
    - rewrite app_nil_r. now destruct s0.
    - unfold bind at 1. unfold print at 1. rewrite IH. simpl.
      now rewrite <- app_assoc. }
  cbv zeta in Hrows. rewrite Hrows. unfold bind at 1. unfold print at 1.
  simpl. rewrite <- app_assoc.
  destruct (failed_of (results s)); reflexivity.
Qed.

(** **** What [results] holds once stages have run *)

Lemma get_set_other (k k' : string) (v : StageResult)
      (d : Py.dict StageResult) :
  k <> k' -> Py.get k (Py.set k' v d) = Py.get k d.
Proof.
  intros Hne. induction d as [| [k0 v0] tl IH]; simpl.
  - destruct (String.eqb_spec k k'); [contradiction | reflexivity].
  - destruct (String.eqb_spec k' k0) as [-> | Hk0]; simpl.
    + destruct (String.eqb_spec k k0); [contradiction | reflexivity].
    + destruct (String.eqb k k0); [reflexivity | exact IH].
Qed.

Lemma after_stages_cons (w : World) (t : Z) (st : StageDecl)
      (tl : list StageDecl) (s : State) :
  after_stages w t (st :: tl) s = after_stages w t tl (stage_step w t st s).
Proof. reflexivity. Qed.

Lemma after_stages_app (w : World) (t : Z) (a b : list StageDecl)
      (s : State) :
  after_stages w t (a ++ b) s = after_stages w t b (after_stages w t a s).
Proof. unfold after_stages. apply fold_left_app. Qed.

Lemma get_after_other (w : World) (t : Z) (k : string)
      (sts : list StageDecl) (s : State) :
  ~ In k (map sd_key sts) ->
  Py.get k (results (after_stages w t sts s)) = Py.get k (results s).
Proof.
  revert s. induction sts as [| st tl IH]; intros s Hnotin; [reflexivity |].
  rewrite after_stages_cons, IH by (intros H; apply Hnotin; now right).
  simpl. apply get_set_other. intros ->. apply Hnotin. now left.
Qed.

Lemma is_failed_recorded (w : World) (t : Z) (path : string) (s : State) :
  is_failed (recorded w path t s) = raises w t path.
Proof.
  unfold recorded, raises.
  destruct (notebook_run w path t (COMMON_ARGS w)); reflexivity.
Qed.

Lemma failed_at_after_stages (w : World) (t : Z) (sts : list StageDecl)
      (st : StageDecl) (s : State) :
  NoDup (map sd_key sts) -> In st sts ->
  failed_at (results (after_stages w t sts s)) (sd_key st)
  = raises w t (sd_path st).
Proof.
  revert s. induction sts as [| st0 tl IH]; intros s Hnd Hin; [contradiction |].
  simpl in Hnd. inversion Hnd as [| ? ? Hnotin Hnd']; subst.
  rewrite after_stages_cons. destruct Hin as [-> | Hin].
  - unfold failed_at. rewrite get_after_other by assumption. simpl.
    rewrite get_set_same. apply is_failed_recorded.
  - now apply IH.
Qed.

Lemma reaches_after (w : World) (t : Z) (gs : list Group) (s s' : State) :
  run_groups_then w t gs (ret tt) s = (s', Ok tt) ->
  s' = after_stages w t (all_stages gs) s.
Proof.
  revert s. induction gs as [| g tl IH]; intros s H.
  - now injection H as <-.
  - rewrite run_groups_then_cons in H. cbv zeta in H.
    destruct (gate_check _ _); [discriminate |].
    apply IH in H. unfold all_stages. simpl.
    now rewrite after_stages_app.
Qed.

Lemma all_stages_app (a b : list Group) :
  all_stages (a ++ b) = (all_stages a ++ all_stages b)%list.
Proof. unfold all_stages. apply flat_map_app. Qed.

Lemma all_paths_stages (gs : list Group) :
  all_paths gs = map sd_path (all_stages gs).
Proof.
  unfold all_paths, all_stages. induction gs as [| g tl IH]; simpl.
  - reflexivity.
  - now rewrite map_app, IH.
Qed.

Lemma pipeline_keys (p : Pipeline) :
  keys_after [] (pipeline_groups p) = all_keys (pipeline_groups p)
  /\ NoDup (all_keys (pipeline_groups p)).
Proof.
  split.
  - destruct p; reflexivity.
  - apply nodupb_NoDup. destruct p; vm_compute; reflexivity.
Qed.

Lemma NoDup_app_l {A} (a b : list A) : NoDup (a ++ b) -> NoDup a.
Proof.
  induction a as [| x a IH]; simpl; intros H; [constructor |].
  inversion H as [| ? ? Hnotin Hnd]; subst. constructor.
  - intros Hin. apply Hnotin. apply in_or_app. now left.
  - now apply IH.
Qed.

Lemma NoDup_app_r {A} (a b : list A) : NoDup (a ++ b) -> NoDup b.
Proof.
  induction a as [| x a IH]; simpl; intros H; [assumption |].
  inversion H; subst. now apply IH.
Qed.

Lemma group_keys_NoDup (p : Pipeline) (pre post : list Group) (g : Group) :
  pipeline_groups p = (pre ++ g :: post)%list ->
  NoDup (map sd_key (g_stages g)).
Proof.
  intros Hs. destruct (pipeline_keys p) as [_ Hnd].
  unfold all_keys in Hnd. rewrite Hs, all_stages_app, map_app in Hnd.
  apply NoDup_app_r in Hnd. unfold all_stages in Hnd. simpl in Hnd.
  rewrite map_app in Hnd. now apply NoDup_app_l in Hnd.
Qed.

Lemma keys_failed_of (rs : Py.dict StageResult) :
  NoDup (Py.keys rs) ->
  Py.keys (failed_of rs) = filter (failed_at rs) (Py.keys rs).
Proof.
  intros Hnd. unfold failed_of, Py.keys.
  assert (H : forall l, (forall kv, In kv l -> Py.get (fst kv) rs
                                               = Some (snd kv)) ->
            map fst (filter (fun kv => is_failed (snd kv)) l)
            = filter (failed_at rs) (map fst l)).
  { induction l as [| kv tl IH]; intros Hget; simpl; [reflexivity |].
    unfold failed_at at 1. rewrite (Hget kv) by now left.
    destruct (is_failed (snd kv)); simpl; rewrite IH; auto;
      intros kv' Hin; apply Hget; now right. }
  apply H. intros [k v] Hin. now apply get_of_In.
Qed.

Lemma filter_map_keys {A B} (f : B -> bool) (g : A -> B) (l : list A) :
  filter f (map g l) = map g (filter (fun x => f (g x)) l).
Proof.
  induction l as [| x tl IH]; simpl; [reflexivity |].
  destruct (f (g x)); simpl; now rewrite IH.
Qed.

(** The state in which the summary cell starts, when it is reached. *)
Lemma reached_state (p : Pipeline) (w : World) (s5 : State) :
  reaches p w (pipeline_groups p) s5 ->
  calls s5 = all_paths (pipeline_groups p)
  /\ Py.keys (results s5) = all_keys (pipeline_groups p)
  /\ Py.keys (failed_of (results s5))
     = map sd_key
         (filter (fun st => raises w (pipeline_timeout p) (sd_path st))
                 (all_stages (pipeline_groups p))).
Proof.
  intros Hr. unfold reaches in Hr.
  destruct (pipeline_keys p) as [Hkeys Hnd].
  pose proof (reaches_state _ _ _ _ Hr) as [Hk Hc]. simpl in Hk, Hc.
  rewrite Hkeys in Hk. split; [exact Hc |]. split; [exact Hk |].
  rewrite keys_failed_of by now rewrite Hk.
  rewrite Hk. unfold all_keys. rewrite filter_map_keys. f_equal.
  apply filter_ext_in. intros st Hin.
  apply reaches_after in Hr. rewrite Hr.
  now apply failed_at_after_stages.
Qed.

(** A gate that fires has seen a critical stage of its group raise. *)
Lemma gate_fired_raises (p : Pipeline) (w : World) (pre post : list Group)
      (g : Group) (s1 : State) (e : exn) :
  pipeline_groups p = (pre ++ g :: post)%list ->
  reaches p w pre s1 ->
  gate_check (g_gate g)
    (results (after_stages w (pipeline_timeout p) (g_stages g) s1)) = Some e ->
  exists st, In st (g_stages g) /\ critical g (sd_key st) = true
             /\ raises w (pipeline_timeout p) (sd_path st) = true.
Proof.
  intros Hs Hr Hc.
  pose proof (@gate_at_split p w pre post g s1 Hs Hr) as Hgate.
  cbv zeta in Hgate. rewrite after_group_eq in Hgate.
  destruct (failing_critical g _) as [| k tl] eqn:Hf; [congruence |].
  assert (Hin : In k (failing_critical g
            (results (after_stages w (pipeline_timeout p) (g_stages g) s1))))
    by (rewrite Hf; now left).
  unfold failing_critical in Hin. apply filter_In in Hin.
  destruct Hin as [Hin Hb]. apply andb_true_iff in Hb.
  destruct Hb as [Hcrit Hfail].
  apply in_map_iff in Hin. destruct Hin as [st [<- Hin]].
  exists st. split; [exact Hin |]. split; [exact Hcrit |].
  rewrite <- Hfail. symmetry.
  apply failed_at_after_stages; [| exact Hin].
  eapply group_keys_NoDup; eassumption.
Qed.

(** X1. A run calls the notebooks in the order the pipeline declares them,
    each at most once and none twice: the calls made are the notebooks of
    the first [n] stage groups, for some [n], whatever the notebooks do. *)
Theorem calls_are_a_prefix_without_repeats (p : Pipeline) (w : World) :
  exists n,
    calls (fst (run_pipeline p w))
    = all_paths (firstn n (pipeline_groups p))
    /\ NoDup (calls (fst (run_pipeline p w))).
Proof.
  assert (Hpre : forall n, NoDup (all_paths (firstn n (pipeline_groups p)))).
  { intros n. destruct (pipelines_well_gated p) as [_ Hnd].
    apply nodupb_NoDup in Hnd.
    rewrite <- (firstn_skipn n (pipeline_groups p)), all_paths_app in Hnd.
    now apply NoDup_app_l in Hnd. }
  rewrite run_pipeline_table.
  destruct (groups_outcome w (pipeline_timeout p) (pipeline_groups p)
              pipeline_summary init)
    as [[s5 [H1 H2]] | [pre [g [post [s1 [e [Hs [Hr [Hc Hrun]]]]]]]]].
  - exists (List.length (pipeline_groups p)).
    assert (Hcalls : calls (fst (run_groups_then w (pipeline_timeout p)
                                   (pipeline_groups p) pipeline_summary init))
                     = all_paths (firstn (List.length (pipeline_groups p))
                                         (pipeline_groups p))).
    { rewrite H2, summary_state. simpl. rewrite firstn_all.
      now destruct (reaches_state _ _ _ _ H1) as [_ ->]. }
    split; [exact Hcalls |]. rewrite Hcalls. apply Hpre.
  - exists (S (List.length pre)).
    assert (Hcalls : calls (fst (run_groups_then w (pipeline_timeout p)
                                   (pipeline_groups p) pipeline_summary init))
                     = all_paths (firstn (S (List.length pre))
                                         (pipeline_groups p))).
    { assert (Hfirst : firstn (S (List.length pre)) (pipeline_groups p)
                       = (pre ++ [g])%list).
      { rewrite Hs.
        replace (S (List.length pre)) with (List.length pre + 1)%nat by lia.
        now rewrite firstn_app_2. }
      rewrite Hfirst, Hrun. cbn [fst]. rewrite calls_after_stages.
      destruct (reaches_state _ _ _ _ Hr) as [_ ->].
      rewrite all_paths_app. unfold all_paths at 3. simpl.
      now rewrite app_nil_r. }
    split; [exact Hcalls |]. rewrite Hcalls. apply Hpre.
Qed.

(** X2. If no notebook of a critical stage raises, no gate stops the run:
    every declared notebook is called, every declared stage is recorded, in
    declaration order, and the run succeeds or raises from the summary alone,
    with a text that lists exactly the stages whose notebook raised, in
    declaration order. *)
Theorem noncritical_failures_only_fail_the_summary
        (p : Pipeline) (w : World)
        (Hcrit : forall g st,
            In g (pipeline_groups p) -> In st (g_stages g) ->
            critical g (sd_key st) = true ->
            raises w (pipeline_timeout p) (sd_path st) = false) :
  let s := fst (run_pipeline p w) in
  let failing :=
    map sd_key (filter (fun st => raises w (pipeline_timeout p) (sd_path st))
                       (all_stages (pipeline_groups p))) in
  calls s = all_paths (pipeline_groups p)
  /\ Py.keys (results s) = all_keys (pipeline_groups p)
  /\ Py.keys (failed_of (results s)) = failing
  /\ snd (run_pipeline p w)
     = match failing with
       | [] => Ok tt
       | _ => Raise (RuntimeError ("Pipeline finished with failures: "
                                   ++ Py.repr_list failing))
       end.
Proof.
  intros s failing. subst s failing. rewrite run_pipeline_table.
  destruct (groups_outcome w (pipeline_timeout p) (pipeline_groups p)
              pipeline_summary init)
    as [[s5 [H1 H2]] | [pre [g [post [s1 [e [Hs [Hr [Hc Hrun]]]]]]]]].
  - rewrite H2, summary_state. simpl.
    destruct (@reached_state p w s5 H1) as [Hcalls [Hkeys Hfailed]].
    repeat split; try assumption.
    rewrite <- Hfailed.
    destruct (failed_of (results s5)); reflexivity.
  - exfalso.
    destruct (@gate_fired_raises p w pre post g s1 e Hs Hr Hc)
      as [st [Hin [Hcr Hraise]]].
    rewrite (Hcrit g st) in Hraise; [discriminate | | exact Hin | exact Hcr].
    rewrite Hs. apply in_or_app. right. now left.
Qed.

Lemma noncritical_failures_only_fail_the_summary_witness :
  snd (run_pipeline SalesAnalytics world_customers_down)
  = Raise (RuntimeError
      "Pipeline finished with failures: ['ext_customers', 'vw_clv']").
Proof.
  assert (Hcrit : forall g st,
             In g (pipeline_groups SalesAnalytics) -> In st (g_stages g) ->
             critical g (sd_key st) = true ->
             raises world_customers_down (pipeline_timeout SalesAnalytics)
                    (sd_path st) = false).
  { intros g st Hg Hst. simpl in Hg.
    repeat (destruct Hg as [<- | Hg]; [
      simpl in Hst;
      repeat (destruct Hst as [<- | Hst];
              [vm_compute; intros H; first [reflexivity | discriminate H] |]);
      contradiction |]).
    contradiction. }
  pose proof (@noncritical_failures_only_fail_the_summary
                SalesAnalytics world_customers_down Hcrit) as H.
  cbv zeta in H. destruct H as [_ [_ [_ H]]]. exact H.
Defined.

(** **** What a run prints *)

Lemma no_summary_line_after_stages (w : World) (t : Z)
      (sts : list StageDecl) (s : State) :
  filter is_summary_line (stdout s) = [] ->
  filter is_summary_line (stdout (after_stages w t sts s)) = [].
Proof.
  apply (@stages_invariant w t
           (fun s => filter is_summary_line (stdout s) = [])).
  intros st s0 H. simpl. rewrite !filter_app, H. simpl.
  unfold outcome_line. now destruct (notebook_run w _ _ _).
Qed.

Lemma no_summary_line_before_summary (w : World) (t : Z) (gs : list Group)
      (s s' : State) (o : res unit) :
  run_groups_then w t gs (ret tt) s = (s', o) ->
  filter is_summary_line (stdout s) = [] ->
  filter is_summary_line (stdout s') = [].
Proof.
  apply (@groups_invariant w t (ret tt)
           (fun s => filter is_summary_line (stdout s) = [])).
  - intros st s0 H. simpl. rewrite !filter_app, H. simpl.
    unfold outcome_line. now destruct (notebook_run w _ _ _).
  - intros s0 s0' o0 H. now injection H as <- _.
Qed.

Lemma filter_summary_rows (rs : Py.dict StageResult) :
  filter is_summary_line (map summary_row rs) = map summary_row rs.
Proof. induction rs as [| kv tl IH]; simpl; now rewrite ?IH. Qed.

Lemma gate_fired_not_reached (p : Pipeline) (w : World)
      (pre post : list Group) (g : Group) (s1 : State) (e : exn) :
  pipeline_groups p = (pre ++ g :: post)%list ->
  reaches p w pre s1 ->
  gate_check (g_gate g)
    (results (after_stages w (pipeline_timeout p) (g_stages g) s1)) = Some e ->
  forall s5, ~ reaches p w (pipeline_groups p) s5.
Proof.
  intros Hs Hr Hc s5 H5. unfold reaches in *.
  rewrite Hs, run_groups_then_app, Hr, run_groups_then_cons in H5.
  cbv zeta in H5. rewrite Hc in H5. discriminate.
Qed.

(** X3. The summary table is printed exactly when no gate stopped the run:
    then the run prints one row per recorded stage, in the order the stages
    were recorded, with OK or FAIL by status and the stage's elapsed time,
    and the Result line after them; a run that a gate stopped prints no row
    and no Result line. *)
Theorem summary_is_printed_unless_a_gate_fired (p : Pipeline) (w : World) :
  let s := fst (run_pipeline p w) in
  ((exists s5, reaches p w (pipeline_groups p) s5)
   /\ filter is_summary_line (stdout s)
      = (map summary_row (results s)
         ++ [PResult (result_text (results s))])%list)
  \/ ((forall s5, ~ reaches p w (pipeline_groups p) s5)
      /\ filter is_summary_line (stdout s) = []).
Proof.
  intros s. subst s. rewrite run_pipeline_table.
  destruct (groups_outcome w (pipeline_timeout p) (pipeline_groups p)
              pipeline_summary init)
    as [[s5 [H1 H2]] | [pre [g [post [s1 [e [Hs [Hr [Hc Hrun]]]]]]]]].
  - left. split; [now exists s5 |].
    rewrite H2, summary_state. simpl.
    rewrite !filter_app, filter_summary_rows.
    rewrite (@no_summary_line_before_summary _ _ _ _ _ _ H1) by reflexivity.
    reflexivity.
  - right. split.
    + eapply gate_fired_not_reached; eassumption.
    + rewrite Hrun. simpl. apply no_summary_line_after_stages.
      now apply (@no_summary_line_before_summary _ _ _ _ _ _ Hr).
Qed.

(** **** What a run depends on *)

Lemma stage_step_same (p : Pipeline) (w w' : World) (st : StageDecl)
      (s : State) :
  same_for p w w' ->
  stage_step w (pipeline_timeout p) st s
  = stage_step w' (pipeline_timeout p) st s.
Proof.
  intros [Hclock Hrun]. unfold stage_step, recorded, outcome_line.
  now rewrite !Hclock, Hrun.
Qed.

Lemma after_stages_same (p : Pipeline) (w w' : World)
      (sts : list StageDecl) (s : State) :
  same_for p w w' ->
  after_stages w (pipeline_timeout p) sts s
  = after_stages w' (pipeline_timeout p) sts s.
Proof.
  intros H. revert s. induction sts as [| st tl IH]; intros s.
  - reflexivity.
  - rewrite !after_stages_cons, (@stage_step_same p w w' st s H). apply IH.
Qed.

(** X4. A run sees its environment only through the clock and through the
    notebooks called with the pipeline's own timeout (3600 seconds for the
    sales pipeline, 1800 for the supplier pipeline) and the shared
    [COMMON_ARGS]: two worlds that agree on those give the same run, state
    and outcome. *)
Theorem run_calls_notebooks_with_timeout_and_common_args
        (p : Pipeline) (w w' : World) (Hsame : same_for p w w') :
  run_pipeline p w = run_pipeline p w'.
Proof.
  rewrite !run_pipeline_table.
  generalize init. generalize (pipeline_groups p).
  induction l as [| g tl IH]; intros s.
  - reflexivity.
  - rewrite !run_groups_then_cons. cbv zeta.
    rewrite (@after_stages_same p w w' (g_stages g) s Hsame).
    destruct (gate_check _ _); [reflexivity | apply IH].
Qed.

Lemma run_calls_notebooks_with_timeout_and_common_args_witness :
  same_for SupplierAnalytics world_customers_down
           (only_with_timeout 1800 world_customers_down)
  /\ run_pipeline SupplierAnalytics world_customers_down
     = run_pipeline SupplierAnalytics
         (only_with_timeout 1800 world_customers_down).
Proof.
  assert (H : same_for SupplierAnalytics world_customers_down
                (only_with_timeout 1800 world_customers_down)).
  { split; [reflexivity |]. intros path. reflexivity. }
  split; [exact H |].
  exact (@run_calls_notebooks_with_timeout_and_common_args
           SupplierAnalytics world_customers_down
           (only_with_timeout 1800 world_customers_down) H).
Defined.

(** **** Elapsed times *)

Lemma In_set (k k' : string) (v v' : StageResult)
      (d : Py.dict StageResult) :
  In (k', v') (Py.set k v d) -> (k', v') = (k, v) \/ In (k', v') d.
Proof.
  induction d as [| [k0 v0] tl IH]; simpl.
  - intros [H | []]. left. now symmetry.
  - destruct (String.eqb_spec k k0) as [-> | Hne]; simpl.
    + intros [H | H]; [left; now symmetry | right; now right].
    + intros [H | H]; [right; now left |].
      destruct (IH H); [now left | right; now right].
Qed.

Lemma elapsed_step (w : World) (t : Z) (st : StageDecl) (s : State) :
  monotone_clock w ->
  Forall (fun kv => 0 <= elapsed (snd kv)) (results s) ->
  Forall (fun kv => 0 <= elapsed (snd kv)) (results (stage_step w t st s)).
Proof.
  intros Hclock H. rewrite Forall_forall in *. intros [k v] Hin.
  simpl in Hin. apply In_set in Hin. destruct Hin as [Heq | Hin].
  - injection Heq as -> ->. simpl. unfold recorded.
    pose proof (Hclock (ticks s)).
    destruct (notebook_run w _ _ _); simpl; lia.
  - now apply (H (k, v)).
Qed.

(** X5. With a clock that never goes back, the elapsed time recorded for a
    stage is never negative, in a run that a gate stopped as in one that
    reached the summary. *)
Theorem elapsed_is_never_negative (p : Pipeline) (w : World)
        (Hclock : monotone_clock w) :
  Forall (fun kv => 0 <= elapsed (snd kv)) (results (fst (run_pipeline p w))).
Proof.
  rewrite run_pipeline_table.
  destruct (run_groups_then w (pipeline_timeout p) (pipeline_groups p)
              pipeline_summary init) as [s' o] eqn:Hrun.
  simpl.
  refine (@groups_invariant w (pipeline_timeout p) pipeline_summary
            (fun s => Forall (fun kv => 0 <= elapsed (snd kv)) (results s))
            _ _ _ _ _ _ Hrun _).
  - intros st s. now apply elapsed_step.
  - intros s s0 o0 H. rewrite summary_state in H. now injection H as <- _.
  - constructor.
Qed.

Lemma elapsed_is_never_negative_witness :
  monotone_clock world_customers_down
  /\ Forall (fun kv => 0 <= elapsed (snd kv))
            (results (fst (run_pipeline SalesAnalytics world_customers_down))).
Proof.
  assert (H : monotone_clock world_customers_down).
  { intros n. simpl. lia. }
  split; [exact H |].
  exact (@elapsed_is_never_negative SalesAnalytics world_customers_down H).
Defined.

End OrchestratorMore.

(* ===================================================================== *)
(** * Further properties of the extract notebooks                        *)
(* ===================================================================== *)

Module ExtractMore.
Import Sql Extract SqlFacts ExtractFacts.

Section Bronze.
Variables A K : Type.
Variable key : A -> K.
Variable key_eqb : K -> K -> bool.
Variable kept : A -> tri.
Hypothesis key_eqb_eq : forall a b, key_eqb a b = true <-> a = b.

Lemma extract_one_row_per_key (now : Z) (batch_id : string)
      (source : relation A) :
  one_row_per_key key kept source
    (extract_with key key_eqb kept now batch_id source).
Proof.
  unfold one_row_per_key. split; [| split].
  - rewrite (@extract_keys _ _ key key_eqb kept key_eqb_eq).
    now apply (@distinct_NoDup _ key_eqb key_eqb_eq).
  - intros r Hr.
    apply (@extract_In _ _ key key_eqb kept key_eqb_eq) in Hr.
    destruct Hr as [a [Hin [Hk ->]]]. simpl. tauto.
  - intros a Hin Hk.
    assert (H : In (key a)
                   (map (fun r => key (cols r))
                        (extract_with key key_eqb kept now batch_id source))).
    { rewrite (@extract_keys _ _ key key_eqb kept key_eqb_eq).
      apply (@distinct_In _ key_eqb key_eqb_eq). apply in_map.
      apply filter_In. tauto. }
    apply in_map_iff in H. destruct H as [r [Hkey Hr]]. eauto.
Qed.

Lemma extract_audited_by (now : Z) (batch_id : string)
      (source : relation A) :
  audited_by now batch_id (extract_with key key_eqb kept now batch_id source).
Proof.
  intros r Hr. apply (@extract_In _ _ key key_eqb kept key_eqb_eq) in Hr.
  destruct Hr as [a [_ [_ ->]]]. simpl. tauto.
Qed.

(** With one row per key there is nothing for the dedup to drop. *)
Lemma latest_of_unique (l : relation (audited A)) :
  NoDup (map (fun r => key (cols r)) l) ->
  latest_per_key key key_eqb l = l.
Proof.
  intros Hnd. rewrite latest_per_key_leaders. unfold leaders.
  rewrite (@distinct_of_NoDup _ key_eqb _ key_eqb_eq Hnd),
    flat_map_concat_map, map_map.
  rewrite <- flat_map_concat_map.
  assert (H : forall r, In r l ->
            partition_of (fun r => key (cols r)) key_eqb (key (cols r)) l
            = [r]).
  { clear - key_eqb_eq Hnd. induction l as [| x tl IH]; [contradiction |].
    simpl in Hnd. inversion Hnd as [| ? ? Hnotin Hnd']; subst.
    assert (Hother : forall k, ~ In k (map (fun r => key (cols r)) tl) ->
              partition_of (fun r => key (cols r)) key_eqb k tl = []).
    { intros k Hk. unfold partition_of.
      destruct (filter _ tl) as [| y ys] eqn:E; [reflexivity |].
      exfalso. apply Hk.
      assert (Hy : In y (filter
                (fun r => key_eqb (key (cols r)) k) tl))
        by (rewrite E; now left).
      apply filter_In in Hy. destruct Hy as [Hy Hyk].
      apply key_eqb_eq in Hyk. subst k.
      now apply (in_map (fun r => key (cols r))). }
    intros r [-> | Hr]; unfold partition_of; simpl.
    - rewrite (proj2 (key_eqb_eq _ _) eq_refl). f_equal.
      now apply Hother.
    - destruct (key_eqb (key (cols x)) (key (cols r))) eqn:E.
      + apply key_eqb_eq in E. exfalso. apply Hnotin. rewrite E.
        now apply (in_map (fun r => key (cols r))).
      + now apply IH. }
  assert (Hall : forall l0,
            (forall r, In r l0 ->
               partition_of (fun r => key (cols r)) key_eqb (key (cols r)) l
               = [r]) ->
            flat_map (fun x => firstn 1
               (ordered (@ingested_later A)
                  (partition_of (fun r => key (cols r)) key_eqb
                     (key (cols x)) l))) l0 = l0).
  { induction l0 as [| r tl IH]; intros H0; simpl; [reflexivity |].
    rewrite (H0 r) by now left. simpl. f_equal.
    apply IH. intros r' Hr'. apply H0. now right. }
  now apply Hall.
Qed.

Lemma extract_settled (now : Z) (batch_id : string) (source : relation A) :
  settled key key_eqb kept
    (extract_with key key_eqb kept now batch_id source).
Proof.
  unfold settled.
  destruct (extract_one_row_per_key now batch_id source) as [Hnd [Hin _]].
  assert (Hw : WHERE (fun r => kept (cols r))
                 (extract_with key key_eqb kept now batch_id source)
               = extract_with key key_eqb kept now batch_id source).
  { unfold WHERE. apply forallb_filter_id, forallb_forall.
    intros r Hr. now apply Hin. }
  rewrite Hw. now apply latest_of_unique.
Qed.

End Bronze.

Ltac by_extract_with lemma :=
  first
    [ exact (@lemma _ _ _ (col_eqb Z.eqb) _ col_eqb_eq _ _ _)
    | exact (@lemma _ _ _ pair_eqb _ pair_eqb_eq _ _ _) ].

(** X6. Every extract notebook that cleans and dedups writes a bronze table
    with exactly one row per natural key of the source rows that pass its
    filter: no key twice, every row taken from a source row that passes the
    filter, and no key of such a source row missing. This holds for orders,
    line items (key: order and line number), customers, suppliers, parts and
    part-suppliers (key: part and supplier). *)
Theorem bronze_holds_one_row_per_kept_key :
  (forall now b src,
      one_row_per_key o_orderkey orders_kept src (extract_orders now b src))
  /\ (forall now b src,
         one_row_per_key lineitem_key lineitem_kept src
           (extract_lineitem now b src))
  /\ (forall now b src,
         one_row_per_key c_custkey customers_kept src
           (extract_customers now b src))
  /\ (forall now b src,
         one_row_per_key s_suppkey suppliers_kept src
           (extract_suppliers now b src))
  /\ (forall now1 now2 b src_p src_ps,
         one_row_per_key p_partkey parts_kept src_p
           (fst (extract_parts now1 now2 b src_p src_ps))
         /\ one_row_per_key partsupp_key partsupp_kept src_ps
              (snd (extract_parts now1 now2 b src_p src_ps))).
Proof.
  split; [intros; by_extract_with extract_one_row_per_key |].
  split; [intros; by_extract_with extract_one_row_per_key |].
  split; [intros; by_extract_with extract_one_row_per_key |].
  split; [intros; by_extract_with extract_one_row_per_key |].
  intros; split; by_extract_with extract_one_row_per_key.
Qed.

Lemma capture_audited_by {A} (now : Z) (batch_id : string)
      (source : relation A) :
  audited_by now batch_id (capture now batch_id source).
Proof.
  intros r Hr. unfold capture in Hr. apply in_map_iff in Hr.
  destruct Hr as [a [<- _]]. simpl. tauto.
Qed.

(** X7. Whatever the cleaning and the dedup drop, every row an extract
    notebook writes carries the audit columns of that run: the timestamp of
    the INSERT, source system 'tpch' and the batch id the notebook computed;
    the two tables [extract_parts] writes share one batch id, and so do the
    two tables [extract_nation_region] writes. *)
Theorem bronze_rows_carry_the_audit_columns_of_the_run :
  (forall now b src, audited_by now b (extract_orders now b src))
  /\ (forall now b src, audited_by now b (extract_lineitem now b src))
  /\ (forall now b src, audited_by now b (extract_customers now b src))
  /\ (forall now b src, audited_by now b (extract_suppliers now b src))
  /\ (forall now1 now2 b src_p src_ps,
         audited_by now1 b (fst (extract_parts now1 now2 b src_p src_ps))
         /\ audited_by now2 b (snd (extract_parts now1 now2 b src_p src_ps)))
  /\ (forall now1 now2 b src_n src_r,
         audited_by now1 b
           (fst (extract_nation_region now1 now2 b src_n src_r))
         /\ audited_by now2 b
              (snd (extract_nation_region now1 now2 b src_n src_r))).
Proof.
  split; [intros; by_extract_with extract_audited_by |].
  split; [intros; by_extract_with extract_audited_by |].
  split; [intros; by_extract_with extract_audited_by |].
  split; [intros; by_extract_with extract_audited_by |].
  split; [intros; split; by_extract_with extract_audited_by |].
  intros; split; apply capture_audited_by.
Qed.

(** X8. The cleaning and dedup stages are idempotent on what they wrote:
    applied to a bronze table an extract notebook produced, they drop no row
    and keep the arrangement. *)
Theorem clean_and_dedup_leave_bronze_unchanged :
  (forall now b src,
      tv_orders_deduped (tv_orders_cleaned (extract_orders now b src))
      = extract_orders now b src)
  /\ (forall now b src,
         tv_lineitem_deduped (tv_lineitem_cleaned (extract_lineitem now b src))
         = extract_lineitem now b src)
  /\ (forall now b src,
         tv_customers_deduped
           (tv_customers_cleaned (extract_customers now b src))
         = extract_customers now b src)
  /\ (forall now b src,
         tv_suppliers_deduped
           (tv_suppliers_cleaned (extract_suppliers now b src))
         = extract_suppliers now b src)
  /\ (forall now1 now2 b src_p src_ps,
         tv_parts_deduped
           (tv_parts_cleaned (fst (extract_parts now1 now2 b src_p src_ps)))
         = fst (extract_parts now1 now2 b src_p src_ps)
         /\ tv_partsupp_deduped
              (tv_partsupp_cleaned
                 (snd (extract_parts now1 now2 b src_p src_ps)))
            = snd (extract_parts now1 now2 b src_p src_ps)).
Proof.
  split; [intros; by_extract_with extract_settled |].
  split; [intros; by_extract_with extract_settled |].
  split; [intros; by_extract_with extract_settled |].
  split; [intros; by_extract_with extract_settled |].
  intros; split; by_extract_with extract_settled.
Qed.

End ExtractMore.

(* ===================================================================== *)
(** * Further properties of the refined notebooks and the quality checks *)
(* ===================================================================== *)

Module RefinedMore.
Import Sql Extract Refined SqlFacts ExtractFacts RefinedFacts QualityFacts.

(** **** Joins *)

Lemma INNER_JOIN_In {A B} (l : relation A) (r : relation B)
      (on : A -> B -> tri) (a : A) (b : B) :
  In (a, b) (INNER_JOIN l r on)
  <-> In a l /\ In b r /\ holds (on a b) = true.
Proof.
  unfold INNER_JOIN. rewrite in_flat_map. split.
  - intros [a' [Ha' H]]. apply in_map_iff in H.
    destruct H as [b' [[= <- <-] Hb']]. apply filter_In in Hb'. tauto.
  - intros [Ha [Hb Hon]]. exists a. split; [exact Ha |].
    apply in_map. apply filter_In. tauto.
Qed.

Lemma LEFT_JOIN_fst {A B} (l : relation A) (r : relation B)
      (on : A -> B -> tri) (x : A * option B) :
  In x (LEFT_JOIN l r on) -> In (fst x) l.
Proof.
  unfold LEFT_JOIN. intros H. apply in_flat_map in H.
  destruct H as [a [Ha H]].
  destruct (filter (fun b => holds (on a b)) r) as [| m ms].
  - destruct H as [<- | []]. exact Ha.
  - apply in_map_iff in H. destruct H as [b [<- _]]. exact Ha.
Qed.

Lemma eq_z_holds (a b : col Z) :
  holds (eq_z a b) = true <-> exists k, a = Some k /\ b = Some k.
Proof.
  unfold holds, eq_z, compare_with.
  destruct a as [x |], b as [y |]; split; try discriminate;
    try (intros [k [H1 H2]]; discriminate).
  - intros H. exists x. split; [reflexivity |]. f_equal.
    destruct (Z.eqb_spec x y) as [-> | Hne]; [reflexivity | discriminate].
  - intros [k [[= ->] [= ->]]]. now rewrite Z.eqb_refl.
Qed.

(** **** refined_order_details *)

Lemma calculated_keys (ansi : bool)
      (j : RefinedOrderDetails.order_details_joined)
      (c : RefinedOrderDetails.order_details) :
  RefinedOrderDetails.order_details_calculated ansi j = inr c ->
  RefinedOrderDetails.order_key c = RefinedOrderDetails.j_order_key j
  /\ RefinedOrderDetails.line_number c = RefinedOrderDetails.j_line_number j.
Proof.
  unfold RefinedOrderDetails.order_details_calculated, bind.
  destruct (DIV ansi _ _); [discriminate |].
  intros [= <-]. simpl. split; reflexivity.
Qed.

Lemma joined_rows
      (b_orders : relation (audited orders))
      (b_lineitem : relation (audited lineitem))
      (b_parts : relation (audited parts))
      (j : RefinedOrderDetails.order_details_joined) :
  In j (RefinedOrderDetails.tv_order_details_joined b_orders b_lineitem
          b_parts) ->
  exists o li,
    In o b_orders /\ In li b_lineitem
    /\ holds (eq_z (o_orderkey (cols o)) (l_orderkey (cols li))) = true
    /\ RefinedOrderDetails.j_order_key j = o_orderkey (cols o)
    /\ RefinedOrderDetails.j_line_number j = l_linenumber (cols li).
Proof.
  unfold RefinedOrderDetails.tv_order_details_joined. intros H.
  apply in_map_iff in H. destruct H as [[[o li] p] [<- H]].
  apply LEFT_JOIN_fst in H. simpl in H. apply INNER_JOIN_In in H.
  exists o, li. simpl. tauto.
Qed.

Lemma refined_order_details_rows
      (ansi : bool) (now : Z) (batch_id : string)
      (b_orders : relation (audited orders))
      (b_lineitem : relation (audited lineitem))
      (b_parts : relation (audited parts))
      (silver : relation (stamped RefinedOrderDetails.order_details)) :
  RefinedOrderDetails.refined_order_details ansi now batch_id b_orders
    b_lineitem b_parts = inr silver ->
  forall r, In r silver ->
    RefinedOrderDetails.in_range (fields r)
    /\ exists o li,
         In o b_orders /\ In li b_lineitem
         /\ holds (eq_z (o_orderkey (cols o)) (l_orderkey (cols li)))
            = true
         /\ RefinedOrderDetails.order_key (fields r) = o_orderkey (cols o)
         /\ RefinedOrderDetails.line_number (fields r)
            = l_linenumber (cols li).
Proof.
  intros Hrun. apply refined_order_details_inr in Hrun.
  destruct Hrun as [calc [Hcalc [-> _]]].
  intros r Hr. unfold RefinedOrderDetails.tv_order_details_final in Hr.
  apply in_map_iff in Hr. destruct Hr as [c [<- Hc]].
  unfold WHERE in Hc. apply filter_In in Hc. destruct Hc as [Hc Hkept].
  simpl. split; [now apply order_details_kept_iff |].
  destruct (@SELECT_In _ _ _ _ _ _ Hcalc Hc) as [j [Hj Hjc]].
  apply calculated_keys in Hjc. destruct Hjc as [-> ->].
  now apply joined_rows in Hj.
Qed.

(** **** NTILE *)

Lemma ntile_bucket_bounds (n len i : nat) :
  (0 < n)%nat -> (i < len)%nat ->
  1 <= ntile_bucket n len i <= Z.of_nat n.
Proof.
  intros Hn Hi. unfold ntile_bucket. cbv zeta.
  pose proof (Nat.div_mod_eq len n) as Hlen.
  pose proof (Nat.mod_upper_bound len n ltac:(lia)) as Hr.
  set (q := Nat.div len n) in *. set (r := Nat.modulo len n) in *.
  destruct (Nat.ltb_spec i (r * S q)) as [Hlt | Hge].
  - assert (Hdiv : (Nat.div i (S q) < r)%nat).
    { apply Nat.Div0.div_lt_upper_bound. lia. }
    lia.
  - assert (Hq : (0 < q)%nat).
    { destruct q; [| lia]. exfalso. nia. }
    assert (Hdiv : (Nat.div (i - r * S q) q < n - r)%nat).
    { apply Nat.Div0.div_lt_upper_bound. nia. }
    lia.
Qed.

Lemma map_fst_combine {A B} (a : list A) (b : list B) :
  List.length a = List.length b -> map fst (combine a b) = a.
Proof.
  revert b. induction a as [| x a IH]; intros [| y b] H; simpl in *;
    try discriminate; [reflexivity |].
  f_equal. apply IH. lia.
Qed.

Lemma In_combine_exists {A B} (a : A) (l1 : list A) (l2 : list B) :
  In a l1 -> (List.length l1 <= List.length l2)%nat ->
  exists b, In (a, b) (combine l1 l2).
Proof.
  revert l2. induction l1 as [| x l1 IH]; intros [| y l2] Hin Hlen;
    simpl in *; try contradiction; try lia.
  destruct Hin as [-> | Hin].
  - exists y. now left.
  - destruct (IH l2 Hin ltac:(lia)) as [b Hb]. exists b. now right.
Qed.

Lemma NTILE_length {R} (n : nat) (before : R -> R -> bool)
      (l : relation R) :
  List.length (NTILE n before l) = List.length l.
Proof. unfold NTILE. cbv zeta. now rewrite length_map, length_seq. Qed.

Lemma NTILE_bounds {R} (n : nat) (before : R -> R -> bool)
      (l : relation R) (z : Z) :
  (0 < n)%nat -> In z (NTILE n before l) -> 1 <= z <= Z.of_nat n.
Proof.
  intros Hn. unfold NTILE. cbv zeta.
  set (len := List.length l).
  set (sorted := ordered (fun a b : nat * R => before (snd a) (snd b))
                         (combine (seq 0 len) l)).
  intros H. apply in_map_iff in H. destruct H as [i [<- Hi]].
  assert (Hperm : Permutation (map fst sorted) (seq 0 len)).
  { unfold sorted.
    rewrite <- (@map_fst_combine _ _ (seq 0 len) l) at 2
      by (rewrite length_seq; reflexivity).
    apply Permutation_map. apply ordered_perm. }
  assert (Hin : In i (map fst sorted)).
  { apply (Permutation_in _ (Permutation_sym Hperm)). exact Hi. }
  destruct (@In_combine_exists _ _ i (map fst sorted) (seq 0 len) Hin)
    as [pos Hpos].
  { rewrite (Permutation_length Hperm). lia. }
  destruct (find (fun ip : nat * nat => Nat.eqb (fst ip) i)
                 (combine (map fst sorted) (seq 0 len))) as [ip |] eqn:E.
  - apply find_some in E. destruct E as [Hip _]. destruct ip as [i' pos'].
    apply in_combine_r in Hip. apply in_seq in Hip. simpl.
    apply ntile_bucket_bounds; [exact Hn | lia].
  - exfalso. apply (find_none _ _ E) in Hpos. simpl in Hpos.
    now rewrite Nat.eqb_refl in Hpos.
Qed.

(** **** Rounding *)

Lemma round_percent (x : Q) :
  (0 <= x)%Q -> (x <= 100)%Q ->
  (0 <= round_half_up 2 x)%Q /\ (round_half_up 2 x <= 100)%Q.
Proof.
  intros H0 H100. unfold round_half_up. cbv zeta.
  rewrite (proj2 (Qle_bool_iff 0 x) H0).
  change (inject_Z (10 ^ Z.of_nat 2)) with (inject_Z 100).
  assert (Hlo : 0 <= Qfloor (x * inject_Z 100 + (1 # 2))).
  { change 0 with (Qfloor 0). apply Qfloor_resp_le.
    unfold Qle, Qplus, Qmult, inject_Z in *. simpl in *. nia. }
  assert (Hhi : Qfloor (x * inject_Z 100 + (1 # 2)) <= 10000).
  { change 10000 with (Qfloor (inject_Z 10000 + (1 # 2))).
    apply Qfloor_resp_le.
    unfold Qle, Qplus, Qmult, inject_Z in *. simpl in *. nia. }
  revert Hlo Hhi. generalize (Qfloor (x * inject_Z 100 + (1 # 2))).
  intros z Hlo Hhi.
  unfold Qle, Qdiv, Qmult, Qinv, inject_Z. simpl. lia.
Qed.

(** **** refined_customer_orders *)

Lemma filter_length_le {A} (p q : A -> bool) (l : list A) :
  (forall x, In x l -> p x = true -> q x = true) ->
  (List.length (filter p l) <= List.length (filter q l))%nat.
Proof.
  induction l as [| x tl IH]; intros H; simpl; [lia |].
  assert (IH' : (List.length (filter p tl) <= List.length (filter q tl))%nat)
    by (apply IH; intros y Hy; apply H; now right).
  destruct (p x) eqn:Hp.
  - rewrite (H x (or_introl eq_refl) Hp). simpl. lia.
  - destruct (q x); simpl; lia.
Qed.

(** The rows the aggregation groups, for one group key. *)
Lemma group_rows_orders
      (geo : relation RefinedCustomerOrders.customers_geo)
      (b_orders : relation (audited orders))
      (k : RefinedCustomerOrders.group_key)
      (x : RefinedCustomerOrders.geo_order) (o : audited orders) :
  In x (partition_of (fun x => RefinedCustomerOrders.group_of (fst x))
          RefinedCustomerOrders.group_eqb k
          (LEFT_JOIN geo b_orders
             (fun cg o => eq_z (RefinedCustomerOrders.g_customer_key cg)
                               (o_custkey (cols o))))) ->
  snd x = Some o -> In o b_orders.
Proof.
  unfold partition_of. intros H Ho. apply filter_In in H.
  destruct H as [H _]. destruct x as [cg oo]. simpl in Ho. subst oo.
  apply LEFT_JOIN_In in H. tauto.
Qed.

Lemma fulfilled_le_total (grp : relation RefinedCustomerOrders.geo_order) :
  (forall x o, In x grp -> snd x = Some o -> o_orderkey (cols o) <> None) ->
  0 <= COUNT_WHEN (fun x => eq_s (RefinedCustomerOrders.o_ o_orderstatus x)
                                 (Some "F")) grp
    <= COUNT (RefinedCustomerOrders.o_ o_orderkey) grp.
Proof.
  intros H. unfold COUNT_WHEN, COUNT. split; [lia |].
  apply inj_le. apply filter_length_le.
  intros [cg oo] Hx Hf. unfold RefinedCustomerOrders.o_ in *. simpl in *.
  destruct oo as [o |]; simpl in *; [| discriminate].
  specialize (H (cg, Some o) o Hx eq_refl).
  destruct (o_orderkey (cols o)); [reflexivity | contradiction].
Qed.

Lemma agg_fulfillment_rate
      (ansi : bool) (current_date : Z)
      (k : RefinedCustomerOrders.group_key)
      (grp : relation RefinedCustomerOrders.geo_order)
      (a : RefinedCustomerOrders.customer_order_agg) :
  RefinedCustomerOrders.customer_order_agg_of ansi current_date k grp = inr a ->
  RefinedCustomerOrders.a_fulfillment_rate a
  = if 0 <? COUNT (RefinedCustomerOrders.o_ o_orderkey) grp
    then Some (round_half_up 2
                 (100 * inject_Z
                    (COUNT_WHEN
                       (fun x => eq_s (RefinedCustomerOrders.o_ o_orderstatus x)
                                      (Some "F")) grp)
                  / inject_Z (COUNT (RefinedCustomerOrders.o_ o_orderkey) grp)))
    else Some 0%Q.
Proof.
  unfold RefinedCustomerOrders.customer_order_agg_of. cbv zeta.
  set (n := COUNT (RefinedCustomerOrders.o_ o_orderkey) grp).
  set (f := COUNT_WHEN _ grp).
  intros H. unfold bind at 1 in H.
  destruct (if holds (gt_z (Some n) (Some 1)) then _ else _)
    as [e | fr]; [discriminate |].
  unfold bind at 1 in H.
  destruct (if holds (gt_z (Some n) (Some 0)) then _ else _)
    as [e | rate] eqn:Hrate; [discriminate |].
  destruct k as [[[[[key name] segment] nation_name] region_name] balance].
  injection H as <-. simpl.
  unfold holds, gt_z, compare_with in Hrate.
  destruct (Z.ltb_spec 0 n) as [Hn | Hn].
  - unfold DIV in Hrate. rewrite (count_nonzero Hn) in Hrate.
    cbn [bind] in Hrate. now injection Hrate as <-.
  - now injection Hrate as <-.
Qed.

Lemma rfm_scores (agg : relation RefinedCustomerOrders.customer_order_agg)
      (x : RefinedCustomerOrders.customer_rfm) :
  In x (RefinedCustomerOrders.tv_customer_rfm agg) ->
  1 <= RefinedCustomerOrders.rfm_recency x <= 5
  /\ 1 <= RefinedCustomerOrders.rfm_frequency x <= 5
  /\ 1 <= RefinedCustomerOrders.rfm_monetary x <= 5.
Proof.
  unfold RefinedCustomerOrders.tv_customer_rfm. cbv zeta. intros H.
  apply in_map_iff in H. destruct H as [[a [rc [fq mo]]] [<- H]].
  apply in_combine_r in H.
  pose proof (in_combine_l _ _ _ _ H) as Hrc.
  apply in_combine_r in H.
  pose proof (in_combine_l _ _ _ _ H) as Hfq.
  apply in_combine_r in H. simpl.
  split; [| split];
    [ apply (NTILE_bounds (n := 5)) in Hrc
    | apply (NTILE_bounds (n := 5)) in Hfq
    | apply (NTILE_bounds (n := 5)) in H ]; simpl in *; lia.
Qed.

Lemma percent_of_counts (f n : Z) :
  0 <= f <= n -> 0 < n ->
  (0 <= 100 * inject_Z f / inject_Z n)%Q
  /\ (100 * inject_Z f / inject_Z n <= 100)%Q.
Proof.
  intros Hf Hn. destruct n as [| p | p]; try lia.
  split; unfold Qle, Qdiv, Qmult, Qinv, inject_Z; cbn -[Z.mul Pos.mul]; nia.
Qed.

(** X11. Whenever the refine of customer orders returns, every row of the
    silver table it wrote carries three RFM scores between 1 and 5 and the
    segment the CASE expression derives from them, which is never NULL, so
    the business rule 'Segment not null' reports no violation on that
    table. *)
Theorem rfm_scores_are_quintiles
        (ansi : bool) (current_date now : Z) (batch_id : string)
        (b_customers : relation (audited customers))
        (b_nation : relation (audited nation))
        (b_region : relation (audited region))
        (b_orders : relation (audited orders))
        (silver : relation (stamped RefinedCustomerOrders.customer_orders))
        (Hrun : RefinedCustomerOrders.refined_customer_orders ansi
                  current_date now batch_id b_customers b_nation b_region
                  b_orders = inr silver) :
  (forall r, In r silver ->
     exists rc fq mo,
       RefinedCustomerOrders.rfm_recency_score (fields r) = Some rc
       /\ RefinedCustomerOrders.rfm_frequency_score (fields r) = Some fq
       /\ RefinedCustomerOrders.rfm_monetary_score (fields r) = Some mo
       /\ 1 <= rc <= 5 /\ 1 <= fq <= 5 /\ 1 <= mo <= 5
       /\ RefinedCustomerOrders.customer_segment (fields r)
          = Some (RefinedCustomerOrders.segment_of rc fq mo))
  /\ forall s_order_details,
       nth 5 (Quality.df_rules s_order_details silver)
             (Quality.rule "" 1)
       = {| Quality.check_type := "Business Rule";
            Quality.check_name := "Segment not null";
            Quality.violation_count := 0;
            Quality.status := "PASS" |}.
Proof.
  apply refined_customer_orders_inr in Hrun.
  destruct Hrun as [agg [_ [-> _]]].
  assert (Hrows : forall r,
             In r (RefinedCustomerOrders.tv_customer_orders_final now batch_id
                     (RefinedCustomerOrders.tv_customer_rfm agg)) ->
             exists rc fq mo,
               RefinedCustomerOrders.rfm_recency_score (fields r) = Some rc
               /\ RefinedCustomerOrders.rfm_frequency_score (fields r) = Some fq
               /\ RefinedCustomerOrders.rfm_monetary_score (fields r) = Some mo
               /\ 1 <= rc <= 5 /\ 1 <= fq <= 5 /\ 1 <= mo <= 5
               /\ RefinedCustomerOrders.customer_segment (fields r)
                  = Some (RefinedCustomerOrders.segment_of rc fq mo)).
  { intros r Hr.
    unfold RefinedCustomerOrders.tv_customer_orders_final in Hr.
    apply in_map_iff in Hr. destruct Hr as [x [<- Hx]].
    apply rfm_scores in Hx.
    exists (RefinedCustomerOrders.rfm_recency x),
           (RefinedCustomerOrders.rfm_frequency x),
           (RefinedCustomerOrders.rfm_monetary x).
    simpl. tauto. }
  split; [exact Hrows |].
  intros s_order_details. unfold Quality.df_rules. cbn [nth].
  rewrite COUNT_WHEN_none; [reflexivity |].
  intros r Hr. destruct (Hrows r Hr) as [rc [fq [mo H]]].
  destruct H as [_ [_ [_ [_ [_ [_ ->]]]]]]. reflexivity.
Qed.

Lemma rfm_scores_are_quintiles_witness :
  exists silver,
    RefinedCustomerOrders.refined_customer_orders true 9200 0 "batch"
      sample_customers [] [] sample_orders = inr silver
    /\ silver <> []
    /\ (forall r, In r silver ->
          exists rc fq mo,
            RefinedCustomerOrders.rfm_recency_score (fields r) = Some rc
            /\ RefinedCustomerOrders.rfm_frequency_score (fields r) = Some fq
            /\ RefinedCustomerOrders.rfm_monetary_score (fields r) = Some mo
            /\ 1 <= rc <= 5 /\ 1 <= fq <= 5 /\ 1 <= mo <= 5
            /\ RefinedCustomerOrders.customer_segment (fields r)
               = Some (RefinedCustomerOrders.segment_of rc fq mo))
    /\ nth 5 (Quality.df_rules [] silver) (Quality.rule "" 1)
       = {| Quality.check_type := "Business Rule";
            Quality.check_name := "Segment not null";
            Quality.violation_count := 0;
            Quality.status := "PASS" |}.
Proof.
  destruct (RefinedCustomerOrders.refined_customer_orders true 9200 0 "batch"
              sample_customers [] [] sample_orders) as [e | silver] eqn:Hrun.
  - vm_compute in Hrun. discriminate Hrun.
  - exists silver. split; [reflexivity |]. split.
    + intros ->. vm_compute in Hrun. discriminate Hrun.
    + destruct (@rfm_scores_are_quintiles true 9200 0 "batch"
                  sample_customers [] [] sample_orders silver Hrun)
        as [Hrows Hrule].
      split; [exact Hrows | apply Hrule].
Defined.

(** X12. When no bronze order has a NULL order key, as is the case for the
    bronze orders the extract writes, and the refine of customer orders
    returns, the fulfillment rate of every row of the silver table it wrote
    lies between 0 and 100, and the business rule 'Fulfillment rate 0-100'
    reports no violation on that table. *)
Theorem fulfillment_rate_is_a_percentage
        (ansi : bool) (current_date now : Z) (batch_id : string)
        (b_customers : relation (audited customers))
        (b_nation : relation (audited nation))
        (b_region : relation (audited region))
        (b_orders : relation (audited orders))
        (silver : relation (stamped RefinedCustomerOrders.customer_orders))
        (Hkeys : forall o, In o b_orders -> o_orderkey (cols o) <> None)
        (Hrun : RefinedCustomerOrders.refined_customer_orders ansi
                  current_date now batch_id b_customers b_nation b_region
                  b_orders = inr silver) :
  (forall r, In r silver ->
     exists q,
       RefinedCustomerOrders.fulfillment_rate (fields r) = Some q
       /\ (0 <= q)%Q /\ (q <= 100)%Q)
  /\ forall s_order_details,
       nth 4 (Quality.df_rules s_order_details silver)
             (Quality.rule "" 1)
       = {| Quality.check_type := "Business Rule";
            Quality.check_name := "Fulfillment rate 0-100";
            Quality.violation_count := 0;
            Quality.status := "PASS" |}.
Proof.
  apply refined_customer_orders_inr in Hrun.
  destruct Hrun as [agg [Hagg [-> _]]].
  assert (Hrows : forall r,
             In r (RefinedCustomerOrders.tv_customer_orders_final now batch_id
                     (RefinedCustomerOrders.tv_customer_rfm agg)) ->
             exists q,
               RefinedCustomerOrders.fulfillment_rate (fields r) = Some q
               /\ (0 <= q)%Q /\ (q <= 100)%Q).
  { intros r Hr.
    unfold RefinedCustomerOrders.tv_customer_orders_final in Hr.
    apply in_map_iff in Hr. destruct Hr as [x [<- Hx]].
    apply rfm_rows_have_orders in Hx. destruct Hx as [Hin _]. simpl.
    unfold RefinedCustomerOrders.tv_customer_order_agg in Hagg.
    cbv zeta in Hagg.
    destruct (@SELECT_In _ _ _ _ _ _ Hagg Hin) as [k [_ Hk]].
    pose proof (agg_fulfillment_rate _ _ _ _ Hk) as Hrate.
    rewrite Hrate.
    match goal with
    | |- context [COUNT (RefinedCustomerOrders.o_ o_orderkey) ?g] =>
        destruct (@fulfilled_le_total g) as [Hf0 Hfn]
    end.
    { intros y o Hy Ho. apply Hkeys.
      eapply group_rows_orders; eassumption. }
    destruct (Z.ltb_spec 0 (COUNT (RefinedCustomerOrders.o_ o_orderkey)
                (partition_of
                   (fun x0 => RefinedCustomerOrders.group_of (fst x0))
                   RefinedCustomerOrders.group_eqb k
                   (LEFT_JOIN
                      (RefinedCustomerOrders.tv_customers_geo b_customers
                         b_nation b_region) b_orders
                      (fun cg o =>
                         eq_z (RefinedCustomerOrders.g_customer_key cg)
                              (o_custkey (cols o))))))) as [Hn | Hn].
    - eexists. split; [reflexivity |].
      apply round_percent; apply percent_of_counts; assumption || lia.
    - exists 0%Q. split; [reflexivity |]. split; discriminate. }
  split; [exact Hrows |].
  intros s_order_details. unfold Quality.df_rules. cbn [nth].
  rewrite COUNT_WHEN_none; [reflexivity |].
  intros r Hr. destruct (Hrows r Hr) as [q [-> [Hq0 Hq100]]].
  unfold holds, OR, lt_q, gt_q, compare_with, zero, Quality.hundred, Qlt_bool.
  rewrite (proj2 (Qle_bool_iff 0 q) Hq0).
  rewrite (proj2 (Qle_bool_iff q (100 # 1)) Hq100). reflexivity.
Qed.

Lemma fulfillment_rate_is_a_percentage_witness :
  exists silver,
    RefinedCustomerOrders.refined_customer_orders true 9200 0 "batch"
      sample_customers [] [] sample_orders = inr silver
    /\ silver <> []
    /\ (forall r, In r silver ->
          exists q,
            RefinedCustomerOrders.fulfillment_rate (fields r) = Some q
            /\ (0 <= q)%Q /\ (q <= 100)%Q)
    /\ nth 4 (Quality.df_rules [] silver) (Quality.rule "" 1)
       = {| Quality.check_type := "Business Rule";
            Quality.check_name := "Fulfillment rate 0-100";
            Quality.violation_count := 0;
            Quality.status := "PASS" |}.
Proof.
  destruct (RefinedCustomerOrders.refined_customer_orders true 9200 0 "batch"
              sample_customers [] [] sample_orders) as [e | silver] eqn:Hrun.
  - vm_compute in Hrun. discriminate Hrun.
  - exists silver. split; [reflexivity |]. split.
    + intros ->. vm_compute in Hrun. discriminate Hrun.
    + destruct (@fulfillment_rate_is_a_percentage true 9200 0 "batch"
                  sample_customers [] [] sample_orders silver) as [Hrows Hrule].
      * intros o Ho. simpl in Ho.
        destruct Ho as [<- | [<- | [<- | []]]]; discriminate.
      * exact Hrun.
      * split; [exact Hrows | apply Hrule].
Defined.

(** **** refined_supplier_parts *)

Lemma SELECT_Forall2 {R S} (f : R -> eval S) (l : relation R)
      (out : relation S) :
  SELECT f l = inr out -> Forall2 (fun r y => f r = inr y) l out.
Proof.
  revert out. induction l as [| r tl IH]; intros out H; simpl in H.
  - injection H as <-. constructor.
  - unfold bind in H. destruct (f r) as [e | y] eqn:Hy; [discriminate |].
    destruct (SELECT f tl) as [e | ys]; [discriminate |].
    injection H as <-. constructor; [exact Hy | now apply IH].
Qed.

Lemma filter_nil_iff {A} (f : A -> bool) (l : list A) :
  filter f l = [] <-> forall x, In x l -> f x = false.
Proof.
  induction l as [| x tl IH]; simpl.
  - split; [intros _ y [] | reflexivity].
  - destruct (f x) eqn:E.
    + split; [discriminate |]. intros H.
      rewrite (H x (or_introl eq_refl)) in E. discriminate.
    + rewrite IH. split.
      * intros H y [<- | Hy]; [exact E | now apply H].
      * intros H y Hy. apply H. now right.
Qed.

(** The cheapest flag of one row of [tv_supplier_parts_final]. *)
Lemma cheapest_of_row
      (ansi : bool) (now : Z) (batch_id : string)
      (all : relation RefinedSupplierParts.supplier_parts_margin)
      (r : RefinedSupplierParts.supplier_parts_margin)
      (y : stamped RefinedSupplierParts.supplier_parts) :
  RefinedSupplierParts.supplier_parts_final_of ansi now batch_id all r
  = inr y ->
  RefinedSupplierParts.supply_cost (fields y)
  = RefinedSupplierParts.supply_cost_of r
  /\ (exists k, RefinedSupplierParts.cost_rank_in_region (fields y) = Some k
                /\ 1 <= k)
  /\ (exists b, RefinedSupplierParts.is_cheapest_in_region (fields y) = Some b
        /\ (b = true <->
            forall r', In r' all ->
              RefinedSupplierParts.region_type_eqb
                (RefinedSupplierParts.region_type r')
                (RefinedSupplierParts.region_type r) = true ->
              asc_q (RefinedSupplierParts.supply_cost_of r')
                    (RefinedSupplierParts.supply_cost_of r) = false)).
Proof.
  unfold RefinedSupplierParts.supplier_parts_final_of. cbv zeta.
  unfold bind. destruct (DIV ansi _ _) as [e | ratio]; [discriminate |].
  intros [= <-]. cbn [fields stamp RefinedSupplierParts.supply_cost
                      RefinedSupplierParts.cost_rank_in_region
                      RefinedSupplierParts.is_cheapest_in_region].
  split; [reflexivity |].
  set (part := partition_of RefinedSupplierParts.region_type
                 RefinedSupplierParts.region_type_eqb
                 (RefinedSupplierParts.region_type r) all).
  unfold RefinedSupplierParts.DENSE_RANK.
  set (before := filter
                   (fun c => asc_q c (RefinedSupplierParts.supply_cost_of r))
                   (map RefinedSupplierParts.supply_cost_of part)).
  split; [eexists; split; [reflexivity | lia] |].
  assert (Hnone : before = [] <->
            forall r', In r' all ->
              RefinedSupplierParts.region_type_eqb
                (RefinedSupplierParts.region_type r')
                (RefinedSupplierParts.region_type r) = true ->
              asc_q (RefinedSupplierParts.supply_cost_of r')
                    (RefinedSupplierParts.supply_cost_of r) = false).
  { unfold before. rewrite filter_nil_iff. unfold part, partition_of. split.
    - intros H r' Hin Hkey. apply H. apply in_map. apply filter_In. tauto.
    - intros H c Hc. apply in_map_iff in Hc. destruct Hc as [r' [<- Hr']].
      apply filter_In in Hr'. now apply H. }
  unfold CASE_WHEN, holds, eq_z, compare_with.
  destruct before as [| c tl].
  - exists true. split; [reflexivity |]. split; [intros _ | reflexivity].
    now apply Hnone.
  - exists false. cbn [distinct List.length].
    rewrite Nat2Z.inj_succ.
    destruct (Z.eqb_spec (1 + Z.succ (Z.of_nat (List.length
                (filter (fun k' => negb (col_eqb Qeq_bool k' c))
                        (distinct (col_eqb Qeq_bool) tl))))) 1) as [E | E];
      [lia |].
    split; [reflexivity |]. split; [discriminate |].
    intros H. apply Hnone in H. discriminate.
Qed.

(** X16. Whenever the refine of supplier parts returns, the silver table it
    wrote has one row per joined row, in the same arrangement; each row has
    a cost rank of at least 1 and a cheapest flag that is never NULL and is
    TRUE exactly when no row of the same supplier region and part type has a
    supply cost that sorts before the row's own, NULL costs sorting first:
    in particular a row whose supply cost is NULL is flagged as the
    cheapest. *)
Theorem cheapest_flag_marks_the_lowest_cost
        (ansi : bool) (now : Z) (batch_id : string)
        (b_suppliers : relation (audited suppliers))
        (b_partsupp : relation (audited partsupp))
        (b_parts : relation (audited parts))
        (b_nation : relation (audited nation))
        (b_region : relation (audited region))
        (silver : relation (stamped RefinedSupplierParts.supplier_parts))
        (Hrun : RefinedSupplierParts.refined_supplier_parts ansi now batch_id
                  b_suppliers b_partsupp b_parts b_nation b_region
                = inr silver) :
  exists margin,
    RefinedSupplierParts.tv_supplier_parts_margin ansi
      (RefinedSupplierParts.tv_supplier_parts_joined b_suppliers b_partsupp
         b_parts b_nation b_region) = inr margin
    /\ Forall2
         (fun r y =>
            RefinedSupplierParts.supply_cost (fields y)
            = RefinedSupplierParts.supply_cost_of r
            /\ (exists k,
                  RefinedSupplierParts.cost_rank_in_region (fields y) = Some k
                  /\ 1 <= k)
            /\ (exists b,
                  RefinedSupplierParts.is_cheapest_in_region (fields y)
                  = Some b
                  /\ (b = true <->
                      forall r', In r' margin ->
                        RefinedSupplierParts.region_type_eqb
                          (RefinedSupplierParts.region_type r')
                          (RefinedSupplierParts.region_type r) = true ->
                        asc_q (RefinedSupplierParts.supply_cost_of r')
                              (RefinedSupplierParts.supply_cost_of r) = false))
            /\ (RefinedSupplierParts.supply_cost_of r = None ->
                RefinedSupplierParts.is_cheapest_in_region (fields y)
                = Some true))
         margin silver.
Proof.
  apply refined_supplier_parts_inr in Hrun.
  destruct Hrun as [margin [Hm [Hs _]]].
  exists margin. split; [exact Hm |].
  unfold RefinedSupplierParts.tv_supplier_parts_final in Hs.
  apply SELECT_Forall2 in Hs.
  eapply Forall2_impl; [| exact Hs].
  intros r y Hy. cbv beta in Hy.
  destruct (cheapest_of_row _ _ _ _ _ Hy) as [Hcost [Hrank [b [Hb Hiff]]]].
  split; [exact Hcost |]. split; [exact Hrank |].
  split; [exists b; split; assumption |].
  intros Hnull. rewrite Hb. f_equal. apply Hiff.
  intros r' _ _. rewrite Hnull.
  destruct (RefinedSupplierParts.supply_cost_of r'); reflexivity.
Qed.

Lemma cheapest_flag_marks_the_lowest_cost_witness :
  exists silver,
    RefinedSupplierParts.refined_supplier_parts true 0 "batch"
      sample_suppliers sample_partsupp sample_parts [] [] = inr silver
    /\ List.length silver = 2%nat
    /\ Forall
         (fun y =>
            (exists k,
               RefinedSupplierParts.cost_rank_in_region (fields y) = Some k
               /\ 1 <= k)
            /\ (RefinedSupplierParts.supply_cost (fields y) = None ->
                RefinedSupplierParts.is_cheapest_in_region (fields y)
                = Some true))
         silver.
Proof.
  destruct (RefinedSupplierParts.refined_supplier_parts true 0 "batch"
              sample_suppliers sample_partsupp sample_parts [] [])
    as [e | silver] eqn:Hrun.
  - vm_compute in Hrun. discriminate Hrun.
  - exists silver. split; [reflexivity |]. split.
    + vm_compute in Hrun. injection Hrun as <-. reflexivity.
    + destruct (@cheapest_flag_marks_the_lowest_cost true 0 "batch"
                  sample_suppliers sample_partsupp sample_parts [] [] silver
                  Hrun) as [margin [_ Hrows]].
      clear Hrun. induction Hrows as [| r y rs ys Hry _ IH]; constructor.
      * destruct Hry as [Hcost [Hrank [_ Hnull]]].
        split; [exact Hrank |]. intros Hy. apply Hnull.
        now rewrite <- Hcost.
      * exact IH.
Defined.

(** **** Grain of the silver tables *)

(** Dropping rows keeps keys apart. *)
Lemma NoDup_map_filter {R K} (key : R -> K) (keep : R -> bool)
      (rows : relation R) (Hkeys : NoDup (map key rows)) :
  NoDup (map key (filter keep rows)).
Proof.
  induction rows as [| r tl IH]; simpl; [constructor |].
  simpl in Hkeys. inversion Hkeys as [| ? ? Hnotin Hnd]; subst.
  destruct (keep r); simpl; [| now apply IH].
  constructor; [| now apply IH].
  intros Hin. apply Hnotin. apply in_map_iff in Hin.
  destruct Hin as [x [Hx Hin]]. apply filter_In in Hin.
  apply in_map_iff. exists x. tauto.
Qed.


(** A key that occurs once in the parent joins at most one parent row. *)
Lemma matches_at_most_one {A B} (fk : A -> col Z) (pk : B -> col Z)
      (parent : relation B) (a : A) :
  NoDup (map pk parent) ->
  (List.length (filter (fun b => holds (eq_z (fk a) (pk b))) parent) <= 1)%nat.
Proof.
  induction parent as [| b tl IH]; simpl; intros H; [lia |].
  inversion H as [| ? ? Hnotin Hnd]; subst.
  destruct (holds (eq_z (fk a) (pk b))) eqn:E; [| now apply IH].
  assert (Hnone : filter (fun b0 => holds (eq_z (fk a) (pk b0))) tl = []).
  { apply filter_nil_iff. intros b' Hb'.
    destruct (holds (eq_z (fk a) (pk b'))) eqn:E'; [| reflexivity].
    exfalso. apply Hnotin.
    apply eq_z_holds in E. destruct E as [k [Hk ->]].
    apply eq_z_holds in E'. destruct E' as [k' [Hk' Hpk']].
    rewrite Hk in Hk'. injection Hk' as <-. rewrite <- Hpk'.
    now apply in_map. }
  rewrite Hnone. simpl. lia.
Qed.

(** A left join that finds at most one match per left row keeps the left
    rows as they are: none lost, none repeated. *)
Lemma LEFT_JOIN_no_fanout {A B} (l : relation A) (r : relation B)
      (on : A -> B -> tri) :
  (forall a, In a l ->
             (List.length (filter (fun b => holds (on a b)) r) <= 1)%nat) ->
  map fst (LEFT_JOIN l r on) = l.
Proof.
  unfold LEFT_JOIN. induction l as [| a tl IH]; intros H; [reflexivity |].
  cbn [flat_map]. rewrite map_app, IH by (intros x Hx; apply H; now right).
  specialize (H a (or_introl eq_refl)).
  destruct (filter (fun b => holds (on a b)) r) as [| m [| m' ms]];
    simpl in *; try reflexivity. lia.
Qed.

Lemma INNER_JOIN_lines_once
      (b_orders : relation (audited orders))
      (b_lineitem : relation (audited lineitem)) :
  NoDup (map (fun o => o_orderkey (cols o)) b_orders) ->
  NoDup (map (fun li => lineitem_key (cols li)) b_lineitem) ->
  NoDup (map (fun x : audited orders * audited lineitem =>
                lineitem_key (cols (snd x)))
             (INNER_JOIN b_orders b_lineitem
                (fun o li => eq_z (o_orderkey (cols o))
                                  (l_orderkey (cols li))))).
Proof.
  intros Ho Hl. unfold INNER_JOIN.
  induction b_orders as [| o tl IH]; [constructor |].
  simpl in Ho. inversion Ho as [| ? ? Hnotin Hnd]; subst.
  cbn [flat_map]. rewrite map_app. apply NoDup_app.
  - rewrite map_map. cbn [snd]. now apply NoDup_map_filter.
  - now apply IH.
  - intros key H1 H2.
    rewrite map_map in H1. cbn [snd] in H1.
    apply in_map_iff in H1. destruct H1 as [li [<- Hli]].
    apply filter_In in Hli. destruct Hli as [_ Hon].
    apply eq_z_holds in Hon. destruct Hon as [k [Hok Hlk]].
    apply in_map_iff in H2. destruct H2 as [[o' li'] [Hkey Hx]].
    apply (INNER_JOIN_In tl b_lineitem) in Hx.
    destruct Hx as [Ho' [_ Hon']].
    apply eq_z_holds in Hon'. destruct Hon' as [k' [Hok' Hlk']].
    cbn [snd] in Hkey. unfold lineitem_key in Hkey.
    injection Hkey as Hkey _. rewrite Hlk, Hlk' in Hkey.
    apply Hnotin. rewrite Hok, <- Hkey, <- Hok'.
    now apply (in_map (fun o => o_orderkey (cols o))).
Qed.

(** X17. Grain of silver order_details: when the bronze orders hold each
    order key once, the bronze line items each (order key, line number) pair
    once and the bronze parts each part key once, as the tables the extract
    notebooks write do, and the refine of order details returns, no
    (order_key, line_number) pair occurs twice in the silver table it wrote:
    the joins fan nothing out. *)
Theorem order_details_has_one_row_per_line_item
        (ansi : bool) (now : Z) (batch_id : string)
        (b_orders : relation (audited orders))
        (b_lineitem : relation (audited lineitem))
        (b_parts : relation (audited parts))
        (silver : relation (stamped RefinedOrderDetails.order_details))
        (Ho : NoDup (map (fun o => o_orderkey (cols o)) b_orders))
        (Hl : NoDup (map (fun li => lineitem_key (cols li)) b_lineitem))
        (Hp : NoDup (map (fun p => p_partkey (cols p)) b_parts))
        (Hrun : RefinedOrderDetails.refined_order_details ansi now batch_id
                  b_orders b_lineitem b_parts = inr silver) :
  NoDup (map (fun r => (RefinedOrderDetails.order_key (fields r),
                        RefinedOrderDetails.line_number (fields r)))
             silver).
Proof.
  apply refined_order_details_inr in Hrun.
  destruct Hrun as [calc [Hcalc [-> _]]].
  unfold RefinedOrderDetails.tv_order_details_final.
  rewrite map_map. cbn [fields stamp].
  apply (NoDup_map_filter
           (fun c => (RefinedOrderDetails.order_key c,
                      RefinedOrderDetails.line_number c))).
  apply SELECT_Forall2 in Hcalc.
  assert (Hkeys : map (fun c => (RefinedOrderDetails.order_key c,
                                 RefinedOrderDetails.line_number c)) calc
                  = map (fun j => (RefinedOrderDetails.j_order_key j,
                                   RefinedOrderDetails.j_line_number j))
                        (RefinedOrderDetails.tv_order_details_joined b_orders
                           b_lineitem b_parts)).
  { induction Hcalc as [| j c js cs Hjc _ IH]; [reflexivity |].
    simpl. apply calculated_keys in Hjc. destruct Hjc as [-> ->].
    now rewrite IH. }
  rewrite Hkeys. unfold RefinedOrderDetails.tv_order_details_joined.
  rewrite map_map. cbn [RefinedOrderDetails.j_order_key
                        RefinedOrderDetails.j_line_number].
  set (pairs := INNER_JOIN b_orders b_lineitem
                  (fun o li => eq_z (o_orderkey (cols o))
                                    (l_orderkey (cols li)))).
  set (on_part := fun (oli : audited orders * audited lineitem)
                      (p : audited parts) =>
                    eq_z (l_partkey (cols (snd oli))) (p_partkey (cols p))).
  assert (Hfst : map fst (LEFT_JOIN pairs b_parts on_part) = pairs).
  { apply LEFT_JOIN_no_fanout. intros oli _.
    apply (matches_at_most_one
             (fun oli : audited orders * audited lineitem =>
                l_partkey (cols (snd oli)))
             (fun p : audited parts => p_partkey (cols p))).
    exact Hp. }
  assert (Hmap : map (fun x : audited orders * audited lineitem
                              * option (audited parts) =>
                        (o_orderkey (cols (fst (fst x))),
                         l_linenumber (cols (snd (fst x)))))
                     (LEFT_JOIN pairs b_parts on_part)
                 = map (fun x : audited orders * audited lineitem =>
                          lineitem_key (cols (snd x))) pairs).
  { transitivity
      (map (fun x : audited orders * audited lineitem =>
              lineitem_key (cols (snd x)))
           (map fst (LEFT_JOIN pairs b_parts on_part)));
      [| now rewrite Hfst].
    rewrite map_map. apply map_ext_in.
    intros x Hx. apply LEFT_JOIN_fst in Hx.
    destruct x as [[o li] p]. cbn [fst snd] in *.
    apply INNER_JOIN_In in Hx. destruct Hx as [_ [_ Hon]].
    apply eq_z_holds in Hon. destruct Hon as [k [Hok Hlk]].
    unfold lineitem_key. now rewrite Hok, Hlk. }
  rewrite Hmap. now apply INNER_JOIN_lines_once.
Qed.

Lemma order_details_has_one_row_per_line_item_witness :
  exists silver,
    RefinedOrderDetails.refined_order_details true 0 "batch"
      (extract_orders 0 "batch" (map (@cols orders) sample_orders))
      (extract_lineitem 0 "batch" (map (@cols lineitem) sample_lineitem))
      (fst (extract_parts 0 0 "batch" [] [])) = inr silver
    /\ List.length silver = 2%nat
    /\ NoDup (map (fun r => (RefinedOrderDetails.order_key (fields r),
                            RefinedOrderDetails.line_number (fields r)))
                  silver).
Proof.
  destruct (RefinedOrderDetails.refined_order_details true 0 "batch"
              (extract_orders 0 "batch" (map (@cols orders) sample_orders))
              (extract_lineitem 0 "batch"
                 (map (@cols lineitem) sample_lineitem))
              (fst (extract_parts 0 0 "batch" [] [])))
    as [e | silver] eqn:Hrun.
  - vm_compute in Hrun. discriminate Hrun.
  - exists silver. split; [reflexivity |]. split.
    + vm_compute in Hrun. injection Hrun as <-. reflexivity.
    + apply (@order_details_has_one_row_per_line_item true 0 "batch"
               (extract_orders 0 "batch" (map (@cols orders) sample_orders))
               (extract_lineitem 0 "batch"
                  (map (@cols lineitem) sample_lineitem))
               (fst (extract_parts 0 0 "batch" [] [])) silver).
      * exact (proj1 (@ExtractMore.extract_one_row_per_key _ _ o_orderkey
                        (col_eqb Z.eqb) orders_kept col_eqb_eq 0 "batch"
                        (map (@cols orders) sample_orders))).
      * exact (proj1 (@ExtractMore.extract_one_row_per_key _ _ lineitem_key
                        pair_eqb lineitem_kept pair_eqb_eq 0 "batch"
                        (map (@cols lineitem) sample_lineitem))).
      * constructor.
      * exact Hrun.
Defined.

Lemma col_eqb_refl {A} (f : A -> A -> bool) (a : col A) :
  (forall x, f x x = true) -> col_eqb f a a = true.
Proof. intros H. destruct a; simpl; auto. Qed.

Lemma group_eqb_refl (k : RefinedCustomerOrders.group_key) :
  RefinedCustomerOrders.group_eqb k k = true.
Proof.
  destruct k as [[[[[key name] segment] nation_name] region_name] balance].
  unfold RefinedCustomerOrders.group_eqb.
  rewrite !(col_eqb_refl _ _ Z.eqb_refl), !(col_eqb_refl _ _ String.eqb_refl).
  rewrite (col_eqb_refl Qeq_bool balance); [reflexivity |].
  intros x. apply Qeq_bool_iff. reflexivity.
Qed.






(** **** What the refine of order details keeps *)

Lemma LEFT_JOIN_left_In {A B} (l : relation A) (r : relation B)
      (on : A -> B -> tri) (a : A) :
  In a l -> exists ob, In (a, ob) (LEFT_JOIN l r on).
Proof.
  intros Ha. unfold LEFT_JOIN.
  destruct (filter (fun b => holds (on a b)) r) as [| m ms] eqn:E.
  - exists None. apply in_flat_map. exists a. split; [exact Ha |].
    rewrite E. now left.
  - exists (Some m). apply in_flat_map. exists a. split; [exact Ha |].
    rewrite E. now left.
Qed.

Lemma SELECT_In_forward {R S} (f : R -> eval S) (l : relation R)
      (out : relation S) (x : R) :
  SELECT f l = inr out -> In x l -> exists y, f x = inr y /\ In y out.
Proof.
  intros H. apply SELECT_Forall2 in H.
  induction H as [| r y rs ys Hry _ IH]; intros Hin; [contradiction |].
  destruct Hin as [-> | Hin].
  - exists y. split; [exact Hry | now left].
  - destruct (IH Hin) as [y' [Hy' Hin']]. exists y'. split; [exact Hy' |].
    now right.
Qed.

Lemma round_cents_nonneg (x : Q) : (0 <= x)%Q -> (0 <= round_half_up 2 x)%Q.
Proof.
  intros H0. unfold round_half_up. cbv zeta.
  rewrite (proj2 (Qle_bool_iff 0 x) H0).
  change (inject_Z (10 ^ Z.of_nat 2)) with (inject_Z 100).
  assert (Hlo : 0 <= Qfloor (x * inject_Z 100 + (1 # 2))).
  { change 0 with (Qfloor 0). apply Qfloor_resp_le.
    unfold Qle, Qplus, Qmult, inject_Z in *. simpl in *. nia. }
  revert Hlo. generalize (Qfloor (x * inject_Z 100 + (1 # 2))).
  intros z Hlo.
  unfold Qle, Qdiv, Qmult, Qinv, inject_Z. simpl. lia.
Qed.

Lemma calculated_amounts (ansi : bool)
      (j : RefinedOrderDetails.order_details_joined)
      (c : RefinedOrderDetails.order_details) :
  RefinedOrderDetails.order_details_calculated ansi j = inr c ->
  RefinedOrderDetails.quantity c = RefinedOrderDetails.j_quantity j
  /\ RefinedOrderDetails.extended_price c
     = RefinedOrderDetails.j_extended_price j
  /\ RefinedOrderDetails.net_revenue c
     = ROUND (q_mul (RefinedOrderDetails.j_extended_price j)
                    (q_sub one (RefinedOrderDetails.j_discount_pct j))) 2
  /\ RefinedOrderDetails.part_name c = RefinedOrderDetails.j_part_name j.
Proof.
  unfold RefinedOrderDetails.order_details_calculated, bind.
  destruct (DIV ansi _ _); [discriminate |].
  intros [= <-]. simpl. repeat split; reflexivity.
Qed.

(** X21. A run of the refine of order details that returns has lost no
    valid line: a bronze line item with a positive quantity, a positive
    extended price and a discount of at most 1, whose order key is that of a
    bronze order, has a row in the silver table the run wrote, with its
    order key, line number and quantity and the net revenue
    ROUND(extended_price * (1 - discount), 2), whether or not a bronze part
    joins it and whatever its tax is. (A run whose INSERT OVERWRITE raises,
    as it does when the unit price of some line overflows its column,
    writes no row at all.) *)
Theorem refine_keeps_every_valid_line
        (ansi : bool) (now : Z) (batch_id : string)
        (b_orders : relation (audited orders))
        (b_lineitem : relation (audited lineitem))
        (b_parts : relation (audited parts))
        (silver : relation (stamped RefinedOrderDetails.order_details))
        (o : audited orders) (li : audited lineitem) (k : Z) (q p d : Q)
        (Hrun : RefinedOrderDetails.refined_order_details ansi now batch_id
                  b_orders b_lineitem b_parts = inr silver)
        (Horder : In o b_orders) (Hline : In li b_lineitem)
        (Hok : o_orderkey (cols o) = Some k)
        (Hlk : l_orderkey (cols li) = Some k)
        (Hq : l_quantity (cols li) = Some q) (Hq0 : (0 < q)%Q)
        (Hp : l_extendedprice (cols li) = Some p) (Hp0 : (0 < p)%Q)
        (Hd : l_discount (cols li) = Some d) (Hd1 : (d <= 1)%Q) :
  exists r,
    In r silver
    /\ RefinedOrderDetails.order_key (fields r) = Some k
    /\ RefinedOrderDetails.line_number (fields r) = l_linenumber (cols li)
    /\ RefinedOrderDetails.quantity (fields r) = Some q
    /\ RefinedOrderDetails.net_revenue (fields r)
       = Some (round_half_up 2 (p * (1 - d))).
Proof.
  apply refined_order_details_inr in Hrun.
  destruct Hrun as [calc [Hcalc [-> _]]].
  (* the joined row of the line *)
  assert (Hpair : In (o, li)
                     (INNER_JOIN b_orders b_lineitem
                        (fun o li => eq_z (o_orderkey (cols o))
                                          (l_orderkey (cols li))))).
  { apply INNER_JOIN_In. split; [exact Horder |]. split; [exact Hline |].
    apply eq_z_holds. exists k. tauto. }
  destruct (LEFT_JOIN_left_In _ b_parts
              (fun (oli : audited orders * audited lineitem)
                   (p : audited parts) =>
                 eq_z (l_partkey (cols (snd oli))) (p_partkey (cols p)))
              _ Hpair) as [op Hjoin].
  unfold RefinedOrderDetails.tv_order_details_calculated,
    RefinedOrderDetails.tv_order_details_joined in Hcalc.
  match type of Hcalc with
  | SELECT _ (map ?f ?l) = _ =>
      pose proof (in_map f l _ Hjoin) as Hj
  end.
  destruct (SELECT_In_forward _ _ _ Hcalc Hj) as [c [Hc Hin]].
  pose proof (calculated_keys _ _ Hc) as [Hkey Hnum].
  pose proof (calculated_amounts _ _ Hc) as [Hqty [Hprice [Hnet _]]].
  cbn [fst snd RefinedOrderDetails.j_order_key
       RefinedOrderDetails.j_line_number RefinedOrderDetails.j_quantity
       RefinedOrderDetails.j_extended_price
       RefinedOrderDetails.j_discount_pct] in Hkey, Hnum, Hqty, Hprice, Hnet.
  rewrite Hp, Hd in Hnet. rewrite Hq in Hqty. rewrite Hp in Hprice.
  rewrite Hok in Hkey.
  change (ROUND (q_mul (Some p) (q_sub one (Some d))) 2)
    with (Some (round_half_up 2 (p * (1 - d)))) in Hnet.
  exists (stamp now batch_id c). split.
  - unfold RefinedOrderDetails.tv_order_details_final. apply in_map.
    unfold WHERE. apply filter_In. split; [exact Hin |].
    apply order_details_kept_iff. unfold RefinedOrderDetails.in_range.
    split; [exists q; tauto |]. split; [exists p; tauto |].
    eexists. split; [exact Hnet |].
    apply round_cents_nonneg. apply Qmult_le_0_compat.
    + now apply Qlt_le_weak.
    + exact (proj1 (Qle_minus_iff d 1) Hd1).
  - cbn [fields stamp]. tauto.
Qed.

Lemma refine_keeps_every_valid_line_witness :
  exists silver r,
    RefinedOrderDetails.refined_order_details true 0 "batch" sample_orders
      sample_lineitem [] = inr silver
    /\ In r silver
    /\ RefinedOrderDetails.order_key (fields r) = Some 1
    /\ RefinedOrderDetails.line_number (fields r) = Some 2
    /\ RefinedOrderDetails.quantity (fields r) = Some (6 # 1)%Q
    /\ RefinedOrderDetails.net_revenue (fields r)
       = Some (round_half_up 2 ((50 # 1) * (1 - (1 # 10)))).
Proof.
  destruct (RefinedOrderDetails.refined_order_details true 0 "batch"
              sample_orders sample_lineitem []) as [e | silver] eqn:Hrun.
  - vm_compute in Hrun. discriminate Hrun.
  - exists silver.
    destruct (@refine_keeps_every_valid_line true 0 "batch" sample_orders
                sample_lineitem [] silver
                (audit (an_order 1 (Some 9000) "a") 0)
                (audit (a_lineitem (Some 1) (Some 2) (6 # 1)%Q "y") 0)
                1 (6 # 1)%Q (50 # 1)%Q (1 # 10)%Q Hrun) as [r Hr];
      try reflexivity; try (simpl; tauto);
      try (unfold Qlt, Qle; simpl; lia).
    exists r. split; [reflexivity | exact Hr].
Defined.

(** **** The customers the refine of customer orders keeps *)

Lemma LEFT_JOIN_match_In {A B} (l : relation A) (r : relation B)
      (on : A -> B -> tri) (a : A) (b : B) :
  In a l -> In b r -> holds (on a b) = true ->
  In (a, Some b) (LEFT_JOIN l r on).
Proof.
  intros Ha Hb Hon. unfold LEFT_JOIN. apply in_flat_map.
  exists a. split; [exact Ha |].
  assert (Hf : In b (filter (fun b0 => holds (on a b0)) r))
    by (apply filter_In; tauto).
  destruct (filter (fun b0 => holds (on a b0)) r) as [| m ms];
    [contradiction |].
  now apply (in_map (fun b0 => (a, Some b0))).
Qed.

Lemma col_eqb_trans {A} (f : A -> A -> bool) (a b c : col A) :
  (forall x y z, f x y = true -> f y z = true -> f x z = true) ->
  col_eqb f a b = true -> col_eqb f b c = true -> col_eqb f a c = true.
Proof.
  intros Hf. destruct a, b, c; simpl; try discriminate; auto.
  apply Hf.
Qed.

Lemma group_eqb_trans (a b c : RefinedCustomerOrders.group_key) :
  RefinedCustomerOrders.group_eqb a b = true ->
  RefinedCustomerOrders.group_eqb b c = true ->
  RefinedCustomerOrders.group_eqb a c = true.
Proof.
  destruct a as [[[[[k1 n1] m1] na1] r1] b1].
  destruct b as [[[[[k2 n2] m2] na2] r2] b2].
  destruct c as [[[[[k3 n3] m3] na3] r3] b3].
  unfold RefinedCustomerOrders.group_eqb.
  rewrite !andb_true_iff.
  assert (Hz : forall x y z, Z.eqb x y = true -> Z.eqb y z = true ->
                             Z.eqb x z = true).
  { intros x y z. rewrite !Z.eqb_eq. congruence. }
  assert (Hs : forall x y z, String.eqb x y = true -> String.eqb y z = true ->
                             String.eqb x z = true).
  { intros x y z. rewrite !String.eqb_eq. congruence. }
  assert (Hq : forall x y z, Qeq_bool x y = true -> Qeq_bool y z = true ->
                             Qeq_bool x z = true).
  { intros x y z. rewrite !Qeq_bool_iff. apply Qeq_trans. }
  intros [[[[[H1 H2] H3] H4] H5] H6] [[[[[G1 G2] G3] G4] G5] G6].
  repeat split;
    first [ exact (col_eqb_trans _ _ _ _ Hz H1 G1)
          | exact (col_eqb_trans _ _ _ _ Hs H2 G2)
          | exact (col_eqb_trans _ _ _ _ Hs H3 G3)
          | exact (col_eqb_trans _ _ _ _ Hs H4 G4)
          | exact (col_eqb_trans _ _ _ _ Hs H5 G5)
          | exact (col_eqb_trans _ _ _ _ Hq H6 G6) ].
Qed.

(** Every key has a representative among the distinct keys. *)
Lemma distinct_representative {K} (key_eqb : K -> K -> bool)
      (ks : list K) (x : K) :
  (forall a, key_eqb a a = true) ->
  (forall a b c, key_eqb a b = true -> key_eqb b c = true ->
                 key_eqb a c = true) ->
  In x ks -> exists r, In r (distinct key_eqb ks) /\ key_eqb x r = true.
Proof.
  intros Hrefl Htrans. induction ks as [| k tl IH]; [contradiction |].
  intros [-> | Hin]; simpl.
  - exists x. split; [now left | apply Hrefl].
  - destruct (IH Hin) as [r [Hr Hxr]].
    destruct (key_eqb r k) eqn:E.
    + exists k. split; [now left |]. now apply (Htrans x r k).
    + exists r. split; [| exact Hxr]. right. apply filter_In.
      split; [exact Hr |]. now rewrite E.
Qed.

Lemma COUNT_positive_of_In {R A} (e : R -> col A) (l : relation R) (x : R) :
  In x l -> e x <> None -> 0 < COUNT e l.
Proof.
  intros Hin He. unfold COUNT.
  assert (Hf : In x (filter (fun r => match e r with
                                      | Some _ => true
                                      | None => false
                                      end) l)).
  { apply filter_In. split; [exact Hin |]. destruct (e x); congruence. }
  destruct (filter _ l); [contradiction |]. simpl. lia.
Qed.

(** X22. A run of the refine of customer orders that returns has lost no
    customer that has an order: a bronze customer whose key is the customer
    key of a bronze order with an order key has a row in the silver table
    the run wrote, with its customer key and a positive order count. (A run
    whose INSERT OVERWRITE raises, as it does when the fulfillment rate of
    some customer overflows its column, writes no row at all.) *)
Theorem customer_with_an_order_has_a_silver_row
        (ansi : bool) (current_date now : Z) (batch_id : string)
        (b_customers : relation (audited customers))
        (b_nation : relation (audited nation))
        (b_region : relation (audited region))
        (b_orders : relation (audited orders))
        (silver : relation (stamped RefinedCustomerOrders.customer_orders))
        (c : audited customers) (o : audited orders) (k : Z)
        (Hrun : RefinedCustomerOrders.refined_customer_orders ansi
                  current_date now batch_id b_customers b_nation b_region
                  b_orders = inr silver)
        (Hcustomer : In c b_customers) (Horder : In o b_orders)
        (Hck : c_custkey (cols c) = Some k)
        (Hok : o_custkey (cols o) = Some k)
        (Hkey : o_orderkey (cols o) <> None) :
  exists r,
    In r silver
    /\ RefinedCustomerOrders.customer_key (fields r) = Some k
    /\ exists n, RefinedCustomerOrders.total_orders (fields r) = Some n
                 /\ 0 < n.
Proof.
  apply refined_customer_orders_inr in Hrun.
  destruct Hrun as [agg [Hagg [-> _]]].
  (* the row of the customer in tv_customers_geo *)
  assert (Hgeo : exists cg,
             In cg (RefinedCustomerOrders.tv_customers_geo b_customers
                      b_nation b_region)
             /\ RefinedCustomerOrders.g_customer_key cg = Some k).
  { unfold RefinedCustomerOrders.tv_customers_geo.
    destruct (LEFT_JOIN_left_In _ b_nation
                (fun c n => eq_z (c_nationkey (cols c)) (n_nationkey (cols n)))
                _ Hcustomer) as [on Hn].
    destruct (LEFT_JOIN_left_In _ b_region
                (fun (cn : audited customers * option (audited nation))
                     (r : audited region) =>
                   eq_z (of_right (option_map (@cols nation) (snd cn))
                                  n_regionkey)
                        (r_regionkey (cols r)))
                _ Hn) as [or Hr].
    eexists. split; [apply in_map; exact Hr |]. exact Hck. }
  destruct Hgeo as [cg [Hcg Hcgk]].
  unfold RefinedCustomerOrders.tv_customer_order_agg in Hagg.
  cbv zeta in Hagg.
  set (joined := LEFT_JOIN
                   (RefinedCustomerOrders.tv_customers_geo b_customers
                      b_nation b_region) b_orders
                   (fun cg o =>
                      eq_z (RefinedCustomerOrders.g_customer_key cg)
                           (o_custkey (cols o)))) in *.
  assert (Hjoined : In (cg, Some o) joined).
  { apply LEFT_JOIN_match_In; try assumption.
    apply eq_z_holds. exists k. tauto. }
  (* the group of the customer *)
  destruct (@distinct_representative _ RefinedCustomerOrders.group_eqb
              (map (fun x => RefinedCustomerOrders.group_of (fst x)) joined)
              (RefinedCustomerOrders.group_of cg)
              group_eqb_refl group_eqb_trans)
    as [rep [Hrep Heqb]].
  { apply in_map_iff. exists (cg, Some o). split; [reflexivity | exact Hjoined]. }
  destruct (SELECT_In_forward _ _ _ Hagg Hrep) as [a [Ha Hin]].
  cbv beta in Ha.
  destruct (customer_order_agg_total ansi current_date rep
              (partition_of (fun x => RefinedCustomerOrders.group_of (fst x))
                 RefinedCustomerOrders.group_eqb rep joined))
    as [a' [Ha' [Hakey Hatotal]]].
  rewrite Ha in Ha'. injection Ha' as <-.
  assert (Hpos : 0 < COUNT (RefinedCustomerOrders.o_ o_orderkey)
                   (partition_of
                      (fun x => RefinedCustomerOrders.group_of (fst x))
                      RefinedCustomerOrders.group_eqb rep joined)).
  { apply (COUNT_positive_of_In _ _ (cg, Some o)); [| exact Hkey].
    unfold partition_of. apply filter_In. split; [exact Hjoined |].
    exact Heqb. }
  assert (Hkeyk : RefinedCustomerOrders.a_customer_key a = Some k).
  { rewrite Hakey, <- (group_eqb_customer _ _ Heqb). exact Hcgk. }
  (* the scored row *)
  assert (Hwith : In a (WHERE (fun r =>
                           gt_z (RefinedCustomerOrders.a_total_orders r)
                                (Some 0)) agg)).
  { unfold WHERE. apply filter_In. split; [exact Hin |].
    rewrite Hatotal. unfold holds, gt_z, compare_with.
    now rewrite (proj2 (Z.ltb_lt _ _) Hpos). }
  assert (Hx : exists x,
             In x (RefinedCustomerOrders.tv_customer_rfm agg)
             /\ RefinedCustomerOrders.rfm_agg x = a).
  { unfold RefinedCustomerOrders.tv_customer_rfm. cbv zeta.
    match goal with
    | |- exists x, In x (map ?score (combine ?l1 ?l2)) /\ _ =>
        destruct (@In_combine_exists _ _ a l1 l2 Hwith) as [scores Hsc];
        [ rewrite !length_combine, !NTILE_length; lia
        | exists (score (a, scores)); split;
          [ apply (in_map score); exact Hsc | reflexivity ] ]
    end. }
  destruct Hx as [x [Hx Hxa]].
  eexists. split.
  - unfold RefinedCustomerOrders.tv_customer_orders_final.
    apply in_map_iff. exists x. split; [reflexivity | exact Hx].
  - cbn [fields stamp RefinedCustomerOrders.customer_key
         RefinedCustomerOrders.total_orders]. rewrite Hxa.
    split; [exact Hkeyk |]. eexists. split; [exact Hatotal | exact Hpos].
Qed.

Lemma customer_with_an_order_has_a_silver_row_witness :
  exists silver r,
    RefinedCustomerOrders.refined_customer_orders true 9200 0 "batch"
      sample_customers [] [] sample_orders = inr silver
    /\ In r silver
    /\ RefinedCustomerOrders.customer_key (fields r) = Some 7
    /\ exists n, RefinedCustomerOrders.total_orders (fields r) = Some n
                 /\ 0 < n.
Proof.
  destruct (RefinedCustomerOrders.refined_customer_orders true 9200 0 "batch"
              sample_customers [] [] sample_orders) as [e | silver] eqn:Hrun.
  - vm_compute in Hrun. discriminate Hrun.
  - exists silver.
    destruct (@customer_with_an_order_has_a_silver_row true 9200 0 "batch"
                sample_customers [] [] sample_orders silver
                (audit (a_customer 7 "Customer#7") 0)
                (audit (an_order 1 (Some 9000) "a") 0) 7 Hrun) as [r Hr];
      try reflexivity; try (simpl; tauto); try discriminate.
    exists r. split; [reflexivity | exact Hr].
Defined.

End RefinedMore.

Module QualityMore.
Import Sql Extract Refined SqlFacts ExtractFacts RefinedFacts QualityFacts.
Import ExtractMore RefinedMore Quality.

Lemma filter_nothing {A} (f : A -> bool) (l : list A) :
  (forall x, In x l -> f x = false) -> filter f l = [].
Proof.
  induction l as [| x tl IH]; intros H; simpl; [reflexivity |].
  rewrite (H x) by now left. apply IH. intros y Hy. apply H. now right.
Qed.

(** **** Check 3: referential integrity *)

Lemma orphans_count {A B} (fk : A -> col Z) (pk : B -> col Z)
      (child : relation A) (parent : relation B) :
  orphans fk pk child parent
  = Z.of_nat (List.length (filter (unmatched fk pk parent) child)).
Proof.
  unfold orphans, COUNT_STAR, WHERE. f_equal.
  induction child as [| a tl IH]; [reflexivity |].
  unfold LEFT_JOIN in *. cbn [flat_map filter].
  rewrite filter_app, length_app, IH. unfold unmatched at 2.
  assert (Hmatch : forall ms,
             (forall b, In b ms -> holds (eq_z (fk a) (pk b)) = true) ->
             filter (fun x : A * option B =>
                       holds (IS_NULL (of_right (snd x) pk)))
                    (map (fun b => (a, Some b)) ms) = []).
  { induction ms as [| b ms IHms]; intros Hms; [reflexivity |].
    cbn [map filter snd of_right].
    destruct (proj1 (eq_z_holds _ _) (Hms b (or_introl eq_refl)))
      as [k [_ ->]].
    simpl. apply IHms. intros b' Hb'. apply Hms. now right. }
  destruct (filter (fun b => holds (eq_z (fk a) (pk b))) parent)
    as [| m ms] eqn:E.
  - assert (Hex : existsb (fun b => holds (eq_z (fk a) (pk b))) parent
                  = false).
    { destruct (existsb _ parent) eqn:Ex; [| reflexivity].
      apply existsb_exists in Ex. destruct Ex as [b [Hb Hon]].
      assert (Hf : In b (filter (fun b => holds (eq_z (fk a) (pk b))) parent))
        by (apply filter_In; tauto).
      rewrite E in Hf. contradiction. }
    rewrite Hex. reflexivity.
  - assert (Hex : existsb (fun b => holds (eq_z (fk a) (pk b))) parent
                  = true).
    { apply existsb_exists. exists m.
      assert (Hf : In m (filter (fun b => holds (eq_z (fk a) (pk b))) parent))
        by (rewrite E; now left).
      apply filter_In in Hf. exact Hf. }
    rewrite Hex, Hmatch; [reflexivity |].
    intros b Hb. rewrite <- E in Hb. apply filter_In in Hb. tauto.
Qed.

Lemma unmatched_null {A B} (fk : A -> col Z) (pk : B -> col Z)
      (parent : relation B) (a : A) :
  fk a = None -> unmatched fk pk parent a = true.
Proof.
  intros H. unfold unmatched. rewrite H.
  induction parent as [| b tl IH]; [reflexivity |]. exact IH.
Qed.

(** X9. Each referential-integrity check counts exactly the child rows that
    no parent row joins, once each however many rows the parent table holds;
    a child row whose foreign key is NULL joins nothing and is counted as an
    orphan. *)
Theorem ref_checks_count_the_unmatched_child_rows
        (b_orders : relation (audited orders))
        (b_customers : relation (audited customers))
        (b_lineitem : relation (audited lineitem))
        (s_order_details :
           relation (stamped RefinedOrderDetails.order_details)) :
  map orphan_count (df_ref b_orders b_customers b_lineitem s_order_details)
  = [ Z.of_nat (List.length
        (filter (unmatched (fun o => o_custkey (cols o))
                           (fun c => c_custkey (cols c)) b_customers)
                b_orders));
      Z.of_nat (List.length
        (filter (unmatched (fun li => l_orderkey (cols li))
                           (fun o => o_orderkey (cols o)) b_orders)
                b_lineitem));
      Z.of_nat (List.length
        (filter (unmatched
                   (fun od => RefinedOrderDetails.order_key (fields od))
                   (fun o => o_orderkey (cols o)) b_orders)
                s_order_details)) ]
  /\ (forall o, o_custkey (cols o) = None ->
        unmatched (fun o => o_custkey (cols o))
                  (fun c => c_custkey (cols c)) b_customers o = true)
  /\ (forall li, l_orderkey (cols li) = None ->
        unmatched (fun li => l_orderkey (cols li))
                  (fun o => o_orderkey (cols o)) b_orders li = true).
Proof.
  split; [| split].
  - unfold df_ref. cbn [map orphan_count ref_check_of].
    now rewrite !orphans_count.
  - intros o.
    exact (@unmatched_null _ _ (fun o => o_custkey (cols o))
             (fun c => c_custkey (cols c)) b_customers o).
  - intros li.
    exact (@unmatched_null _ _ (fun li => l_orderkey (cols li))
             (fun o => o_orderkey (cols o)) b_orders li).
Qed.

(** X10. Whenever the refine of order details returns, every row of the
    silver table it wrote has the order key of a bronze order and the order
    key and line number of a bronze line item, so the check 'order_details
    -> orders', run against the bronze orders the table was refined from,
    finds no orphan and reports PASS. *)
Theorem silver_order_details_reference_bronze_orders
        (ansi : bool) (now : Z) (batch_id : string)
        (b_orders : relation (audited orders))
        (b_customers : relation (audited customers))
        (b_lineitem : relation (audited lineitem))
        (b_parts : relation (audited parts))
        (silver : relation (stamped RefinedOrderDetails.order_details))
        (Hrun : RefinedOrderDetails.refined_order_details ansi now batch_id
                  b_orders b_lineitem b_parts = inr silver) :
  (forall r, In r silver ->
     exists k o li,
       RefinedOrderDetails.order_key (fields r) = Some k
       /\ In o b_orders /\ o_orderkey (cols o) = Some k
       /\ In li b_lineitem /\ l_orderkey (cols li) = Some k
       /\ l_linenumber (cols li)
          = RefinedOrderDetails.line_number (fields r))
  /\ nth 2 (df_ref b_orders b_customers b_lineitem silver)
           (ref_check_of "" 1)
     = {| ri_check_type := "Referential Integrity";
          ri_check_name := "order_details -> orders";
          orphan_count := 0;
          ri_status := "PASS" |}.
Proof.
  pose proof (@refined_order_details_rows ansi now batch_id b_orders
                b_lineitem b_parts silver Hrun) as Hrows.
  assert (Hkeys : forall r, In r silver ->
            exists k o li,
              RefinedOrderDetails.order_key (fields r) = Some k
              /\ In o b_orders /\ o_orderkey (cols o) = Some k
              /\ In li b_lineitem /\ l_orderkey (cols li) = Some k
              /\ l_linenumber (cols li)
                 = RefinedOrderDetails.line_number (fields r)).
  { intros r Hr. destruct (Hrows r Hr) as [_ [o [li [Ho [Hli [Hon [Hk Hn]]]]]]].
    apply eq_z_holds in Hon. destruct Hon as [k [Hok Hlk]].
    exists k, o, li. rewrite Hk, Hn. tauto. }
  split; [exact Hkeys |].
  unfold df_ref. cbn [nth]. rewrite orphans_count.
  assert (Hnone : filter (unmatched
                    (fun od => RefinedOrderDetails.order_key (fields od))
                    (fun o => o_orderkey (cols o)) b_orders) silver = []).
  { apply filter_nothing. intros r Hr.
    destruct (Hkeys r Hr) as [k [o [li [Hk [Ho [Hok _]]]]]].
    unfold unmatched. apply negb_false_iff. apply existsb_exists.
    exists o. split; [exact Ho |]. apply eq_z_holds. exists k. tauto. }
  rewrite Hnone. reflexivity.
Qed.

Lemma silver_order_details_reference_bronze_orders_witness :
  exists silver,
    RefinedOrderDetails.refined_order_details true 0 "batch" sample_orders
      sample_lineitem [] = inr silver
    /\ List.length silver = 2%nat
    /\ nth 2 (df_ref sample_orders sample_customers sample_lineitem silver)
             (ref_check_of "" 1)
       = {| ri_check_type := "Referential Integrity";
            ri_check_name := "order_details -> orders";
            orphan_count := 0;
            ri_status := "PASS" |}.
Proof.
  destruct (RefinedOrderDetails.refined_order_details true 0 "batch"
              sample_orders sample_lineitem []) as [e | silver] eqn:Hrun.
  - vm_compute in Hrun. discriminate Hrun.
  - exists silver. split; [reflexivity |]. split.
    + vm_compute in Hrun. injection Hrun as <-. reflexivity.
    + exact (proj2 (@silver_order_details_reference_bronze_orders true 0
                      "batch" sample_orders sample_customers sample_lineitem
                      [] silver Hrun)).
Defined.

(** **** Check 2: null validation *)

Lemma null_check_pass (name : string) (nulls : Z) :
  nulls = 0 ->
  null_check_of name nulls
  = {| nc_check_type := "Null Check"; nc_check_name := name;
       null_count := 0; nc_status := "PASS" |}.
Proof. intros ->. reflexivity. Qed.

Lemma no_null {R A} (e : R -> col A) (l : relation R) :
  (forall r, In r l -> e r <> None) ->
  COUNT_WHEN (fun r => IS_NULL (e r)) l = 0.
Proof.
  intros H. apply COUNT_WHEN_none. intros r Hr.
  specialize (H r Hr). destruct (e r); [reflexivity | contradiction].
Qed.

Lemma silver_customer_key_not_null
      (ansi : bool) (current_date now : Z) (batch_id : string)
      (b_customers : relation (audited customers))
      (b_nation : relation (audited nation))
      (b_region : relation (audited region))
      (b_orders : relation (audited orders))
      (silver : relation (stamped RefinedCustomerOrders.customer_orders)) :
  RefinedCustomerOrders.refined_customer_orders ansi current_date now
    batch_id b_customers b_nation b_region b_orders = inr silver ->
  forall r, In r silver ->
    RefinedCustomerOrders.customer_key (fields r) <> None.
Proof.
  intros Hrun. apply refined_customer_orders_inr in Hrun.
  destruct Hrun as [agg [Hagg [-> _]]].
  intros r Hr. unfold RefinedCustomerOrders.tv_customer_orders_final in Hr.
  apply in_map_iff in Hr. destruct Hr as [x [<- Hx]].
  apply rfm_rows_have_orders in Hx. destruct Hx as [Hin Hpos].
  destruct (@aggregated_customer_has_order ansi current_date _ _ _ _
              Hagg Hin Hpos) as [_ [k [o [Hk _]]]].
  simpl. rewrite Hk. discriminate.
Qed.

(** X13. On the tables the pipeline itself writes, the five null checks
    find nothing: the bronze orders, customers and line items an extract
    writes have no NULL key, the silver order_details a refine that returns
    wrote has no NULL net_revenue and the silver customer_orders a refine
    that returns wrote has no NULL customer_key, so every row of the null
    validation reports 0 and PASS. *)
Theorem null_checks_pass_on_pipeline_tables
        (ansi : bool) (current_date : Z)
        (t_o t_c t_l t_od t_co : Z) (b_o b_c b_l b_od b_co : string)
        (src_orders : relation orders) (src_customers : relation customers)
        (src_lineitem : relation lineitem)
        (b_parts : relation (audited parts))
        (b_nation : relation (audited nation))
        (b_region : relation (audited region))
        (s_order_details : relation (stamped RefinedOrderDetails.order_details))
        (s_customer_orders :
           relation (stamped RefinedCustomerOrders.customer_orders)) :
  let b_orders := extract_orders t_o b_o src_orders in
  let b_customers := extract_customers t_c b_c src_customers in
  let b_lineitem := extract_lineitem t_l b_l src_lineitem in
  RefinedOrderDetails.refined_order_details ansi t_od b_od b_orders
    b_lineitem b_parts = inr s_order_details ->
  RefinedCustomerOrders.refined_customer_orders ansi current_date t_co
    b_co b_customers b_nation b_region b_orders = inr s_customer_orders ->
  df_nulls b_orders b_customers b_lineitem s_order_details
           s_customer_orders
  = map (fun name =>
           {| nc_check_type := "Null Check"; nc_check_name := name;
              null_count := 0; nc_status := "PASS" |})
        ["orders.o_orderkey"; "customers.c_custkey";
         "lineitem.l_orderkey"; "order_details.net_revenue";
         "customer_orders.customer_key"].
Proof.
  intros b_orders b_customers b_lineitem Hod Hco.
  pose proof (@refined_order_details_rows ansi t_od b_od b_orders b_lineitem
                b_parts s_order_details Hod) as Hod_rows.
  pose proof (@silver_customer_key_not_null ansi current_date t_co b_co
                b_customers b_nation b_region b_orders s_customer_orders Hco)
    as Hco_rows.
  unfold df_nulls. cbn [map].
  repeat f_equal; apply null_check_pass.
  - apply (@no_null _ _ (fun r => o_orderkey (cols r))). intros r Hr.
    apply (@extract_In _ _ o_orderkey (col_eqb Z.eqb) orders_kept col_eqb_eq)
      in Hr.
    destruct Hr as [a [_ [Hk ->]]]. simpl.
    now apply orders_kept_iff in Hk.
  - apply (@no_null _ _ (fun r => c_custkey (cols r))). intros r Hr.
    apply (@extract_In _ _ c_custkey (col_eqb Z.eqb) customers_kept
             col_eqb_eq) in Hr.
    destruct Hr as [a [_ [Hk ->]]]. simpl.
    unfold customers_kept in Hk. apply holds_AND in Hk.
    destruct Hk as [Hk _]. now apply holds_not_null in Hk.
  - apply (@no_null _ _ (fun r => l_orderkey (cols r))). intros r Hr.
    apply (@extract_In _ _ lineitem_key pair_eqb lineitem_kept pair_eqb_eq)
      in Hr.
    destruct Hr as [a [_ [Hk ->]]]. simpl.
    now apply lineitem_kept_iff in Hk.
  - apply (@no_null _ _
             (fun r => RefinedOrderDetails.net_revenue (fields r))).
    intros r Hr. destruct (Hod_rows r Hr) as [[_ [_ [n [-> _]]]] _].
    discriminate.
  - apply (@no_null _ _
             (fun r => RefinedCustomerOrders.customer_key (fields r))).
    exact Hco_rows.
Qed.

Lemma null_checks_pass_on_pipeline_tables_witness :
  let b_orders :=
    extract_orders 0 "batch" (map (@cols orders) sample_orders) in
  let b_customers :=
    extract_customers 0 "batch" (map (@cols customers) sample_customers) in
  let b_lineitem :=
    extract_lineitem 0 "batch" (map (@cols lineitem) sample_lineitem) in
  exists s_order_details s_customer_orders,
    RefinedOrderDetails.refined_order_details true 0 "batch" b_orders
      b_lineitem [] = inr s_order_details
    /\ RefinedCustomerOrders.refined_customer_orders true 9200 0 "batch"
         b_customers [] [] b_orders = inr s_customer_orders
    /\ s_order_details <> [] /\ s_customer_orders <> []
    /\ df_nulls b_orders b_customers b_lineitem s_order_details
                s_customer_orders
       = map (fun name =>
                {| nc_check_type := "Null Check"; nc_check_name := name;
                   null_count := 0; nc_status := "PASS" |})
             ["orders.o_orderkey"; "customers.c_custkey";
              "lineitem.l_orderkey"; "order_details.net_revenue";
              "customer_orders.customer_key"].
Proof.
  intros b_orders b_customers b_lineitem.
  destruct (RefinedOrderDetails.refined_order_details true 0 "batch" b_orders
              b_lineitem []) as [e | od] eqn:Hod.
  { vm_compute in Hod. discriminate Hod. }
  destruct (RefinedCustomerOrders.refined_customer_orders true 9200 0 "batch"
              b_customers [] [] b_orders) as [e | co] eqn:Hco.
  { vm_compute in Hco. discriminate Hco. }
  exists od, co. split; [reflexivity |]. split; [reflexivity |].
  split; [intros ->; vm_compute in Hod; discriminate Hod |].
  split; [intros ->; vm_compute in Hco; discriminate Hco |].
  exact (@null_checks_pass_on_pipeline_tables true 9200 0 0 0 0 0
           "batch" "batch" "batch" "batch" "batch"
           (map (@cols orders) sample_orders)
           (map (@cols customers) sample_customers)
           (map (@cols lineitem) sample_lineitem) [] [] [] od co Hod Hco).
Defined.

(** **** Check 1: row counts *)

Lemma row_count_status {R} (table : string) (rows : relation R) :
  rc_status (row_count_of table rows)
  = match rows with [] => "FAIL" | _ => "PASS" end.
Proof. destruct rows; reflexivity. Qed.

Lemma extract_empty_iff {A K} (key : A -> K) (key_eqb : K -> K -> bool)
      (kept : A -> tri) (now : Z) (batch_id : string)
      (source : relation A) :
  (forall a b, key_eqb a b = true <-> a = b) ->
  extract_with key key_eqb kept now batch_id source = []
  <-> forall a, In a source -> holds (kept a) = false.
Proof.
  intros Heq.
  destruct (@extract_one_row_per_key _ _ key key_eqb kept Heq now batch_id
              source) as [_ [Hsound Hcomplete]].
  split.
  - intros Hnil a Ha. destruct (holds (kept a)) eqn:E; [| reflexivity].
    destruct (Hcomplete a Ha E) as [r [Hr _]]. rewrite Hnil in Hr.
    contradiction.
  - intros Hnone.
    destruct (extract_with key key_eqb kept now batch_id source)
      as [| r tl]; [reflexivity |].
    destruct (Hsound r (or_introl eq_refl)) as [Hin Hk].
    rewrite (Hnone _ Hin) in Hk. discriminate.
Qed.

(** X14. The row-count check of a bronze table reports FAIL exactly when the
    extract wrote no row: for orders, customers and line items that is when
    no source row passes the notebook's quality filter (a source table that
    is not empty can still fail the check); for nation, which is copied
    unfiltered, when the source table is empty. *)
Theorem row_count_fails_iff_no_source_row_is_kept
        (now : Z) (batch_id : string)
        (src_orders : relation orders) (src_customers : relation customers)
        (src_lineitem : relation lineitem) (src_nation : relation nation)
        (src_region : relation region) :
  (rc_status (row_count_of "bronze.orders"
                (extract_orders now batch_id src_orders)) = "FAIL"
   <-> forall a, In a src_orders -> holds (orders_kept a) = false)
  /\ (rc_status (row_count_of "bronze.customers"
                   (extract_customers now batch_id src_customers)) = "FAIL"
      <-> forall a, In a src_customers -> holds (customers_kept a) = false)
  /\ (rc_status (row_count_of "bronze.lineitem"
                   (extract_lineitem now batch_id src_lineitem)) = "FAIL"
      <-> forall a, In a src_lineitem -> holds (lineitem_kept a) = false)
  /\ (rc_status (row_count_of "bronze.nation"
                   (fst (extract_nation_region now now batch_id src_nation
                           src_region))) = "FAIL"
      <-> src_nation = []).
Proof.
  assert (Hstatus : forall R (rows : relation R) table,
             rc_status (row_count_of table rows) = "FAIL" <-> rows = []).
  { intros R rows table. rewrite row_count_status.
    destruct rows; split; try reflexivity; discriminate. }
  split; [| split; [| split]]; rewrite Hstatus.
  - exact (@extract_empty_iff _ _ o_orderkey (col_eqb Z.eqb) orders_kept
             now batch_id src_orders col_eqb_eq).
  - exact (@extract_empty_iff _ _ c_custkey (col_eqb Z.eqb) customers_kept
             now batch_id src_customers col_eqb_eq).
  - exact (@extract_empty_iff _ _ lineitem_key pair_eqb lineitem_kept
             now batch_id src_lineitem pair_eqb_eq).
  - simpl. unfold tv_nation_raw, capture.
    destruct src_nation; split; try reflexivity; discriminate.
Qed.

(** **** Check 5: freshness *)

Lemma MAX_z_constant {R} (e : R -> col Z) (l : relation R) (t : Z) :
  l <> [] -> (forall r, In r l -> e r = Some t) -> MAX_z e l = Some t.
Proof.
  intros Hne Hall. unfold MAX_z.
  assert (H : forall l0, (forall r, In r l0 -> e r = Some t) ->
            non_null e l0 = repeat t (List.length l0)).
  { induction l0 as [| r tl IH]; intros H0; [reflexivity |].
    unfold non_null in *. cbn [flat_map]. rewrite (H0 r) by now left.
    simpl. f_equal. apply IH. intros r' Hr'. apply H0. now right. }
  rewrite (H l Hall). destruct l as [| r tl]; [contradiction |].
  simpl. f_equal. clear. induction (List.length tl) as [| n IH]; simpl.
  - reflexivity.
  - now rewrite Z.max_id.
Qed.

(** X15. After an extract of orders at time [t], the freshness check of
    bronze.orders sees that time as the last refresh and passes while fewer
    than 90180 whole seconds (25.05 hours) have gone by, provided the
    extract wrote at least one row; an extract that wrote no row leaves no
    last refresh, and the check reports STALE however early it runs. *)
Theorem freshness_after_extract_orders
        (t now : Z) (batch_id : string) (src_orders : relation orders)
        (s_order_details :
           relation (stamped RefinedOrderDetails.order_details))
        (s_customer_orders :
           relation (stamped RefinedCustomerOrders.customer_orders)) :
  let check := nth 0 (df_fresh now (extract_orders t batch_id src_orders)
                        s_order_details s_customer_orders)
                   (freshness 0 "" None) in
  table_name check = "bronze.orders"
  /\ ((exists a, In a src_orders /\ holds (orders_kept a) = true) ->
      last_refresh check = Some t
      /\ f_status check
         = if now / 1000000 - t / 1000000 <? 90180 then "PASS" else "STALE")
  /\ ((forall a, In a src_orders -> holds (orders_kept a) = false) ->
      last_refresh check = None /\ f_status check = "STALE").
Proof.
  intros check. subst check. unfold df_fresh. cbn [nth].
  split; [reflexivity |]. split.
  - intros [a [Ha Hk]].
    assert (Hmax : MAX_z (@_ingested_at orders)
                     (extract_orders t batch_id src_orders) = Some t).
    { apply MAX_z_constant.
      - intros Hnil.
        pose proof (proj1 (@extract_empty_iff _ _ o_orderkey (col_eqb Z.eqb)
                             orders_kept t batch_id src_orders col_eqb_eq)
                          Hnil a Ha) as Hdrop.
        rewrite Hdrop in Hk. discriminate.
      - intros r Hr.
        apply (@extract_In _ _ o_orderkey (col_eqb Z.eqb) orders_kept
                 col_eqb_eq) in Hr.
        destruct Hr as [a' [_ [_ ->]]]. reflexivity. }
    rewrite Hmax. split; [reflexivity |]. apply freshness_status.
  - intros Hnone.
    assert (Hnil : extract_orders t batch_id src_orders = []).
    { exact (proj2 (@extract_empty_iff _ _ o_orderkey (col_eqb Z.eqb)
                      orders_kept t batch_id src_orders col_eqb_eq) Hnone). }
    rewrite Hnil. split; reflexivity.
Qed.

End QualityMore.

(* ===================================================================== *)
(** * Properties of the pipeline context                                 *)
(* ===================================================================== *)

Module ContextFacts.
Import Context.

Lemma valid_env (ENV : string) :
  existsb (String.eqb ENV) VALID_ENVS = true <-> In ENV VALID_ENVS.
Proof.
  rewrite existsb_exists. split.
  - intros [x [Hin Heq]]. apply String.eqb_eq in Heq. now subst.
  - intros Hin. exists ENV. split; [exact Hin | apply String.eqb_refl].
Qed.

Lemma context_defaults (ENV : string) :
  In ENV VALID_ENVS ->
  context ENV None
  = inr {| CATALOG := ENV ++ "_lakehouse"; EXTRACT_SCHEMA := "bronze";
           REFINED_SCHEMA := "silver"; VIEWS_SCHEMA := "gold";
           SOURCE_CATALOG := "samples"; SOURCE_SCHEMA := "tpch" |}.
Proof.
  intros H. unfold context. rewrite (proj2 (valid_env ENV) H). reflexivity.
Qed.

(** X19. The context notebook stops with an AssertionError that names the
    widget value and the three valid environments whenever the value is not
    exactly dev, stage or prod, whether or not a config file exists; for a
    valid environment without a config file it falls back to the catalog
    [<env>_lakehouse] with the schemas bronze, silver and gold and the source
    samples.tpch, so that two environments never share a catalog. *)
Theorem context_rejects_unknown_env_and_defaults_by_env :
  (forall ENV config_file,
      ~ In ENV VALID_ENVS ->
      context ENV config_file
      = inl (AssertionError
               ("Invalid environment '" ++ ENV
                ++ "'. Must be one of: ['dev', 'stage', 'prod']")))
  /\ (forall ENV,
         In ENV VALID_ENVS ->
         context ENV None
         = inr {| CATALOG := ENV ++ "_lakehouse"; EXTRACT_SCHEMA := "bronze";
                  REFINED_SCHEMA := "silver"; VIEWS_SCHEMA := "gold";
                  SOURCE_CATALOG := "samples"; SOURCE_SCHEMA := "tpch" |})
  /\ (forall ENV1 ENV2 c1 c2,
         context ENV1 None = inr c1 ->
         context ENV2 None = inr c2 ->
         CATALOG c1 = CATALOG c2 -> ENV1 = ENV2).
Proof.
  split; [| split].
  - intros ENV config_file Hnot. unfold context.
    destruct (existsb (String.eqb ENV) VALID_ENVS) eqn:E; [| reflexivity].
    apply valid_env in E. contradiction.
  - exact context_defaults.
  - intros ENV1 ENV2 c1 c2 H1 H2 Hc.
    assert (Hv1 : In ENV1 VALID_ENVS).
    { apply valid_env. unfold context in H1.
      destruct (existsb (String.eqb ENV1) VALID_ENVS);
        [reflexivity | discriminate]. }
    assert (Hv2 : In ENV2 VALID_ENVS).
    { apply valid_env. unfold context in H2.
      destruct (existsb (String.eqb ENV2) VALID_ENVS);
        [reflexivity | discriminate]. }
    rewrite (@context_defaults ENV1 Hv1) in H1.
    rewrite (@context_defaults ENV2 Hv2) in H2.
    injection H1 as <-. injection H2 as <-. simpl in Hc.
    simpl in Hv1, Hv2.
    destruct Hv1 as [<- | [<- | [<- | []]]];
      destruct Hv2 as [<- | [<- | [<- | []]]];
      first [reflexivity | discriminate Hc].
Qed.

(** **** Reading the config file *)

Lemma get_set (k k' v : string) (d : Py.dict string) :
  Py.get k (Py.set k' v d) = if String.eqb k k' then Some v else Py.get k d.
Proof.
  induction d as [| [k0 v0] tl IH]; simpl.
  - reflexivity.
  - destruct (String.eqb_spec k' k0) as [-> | Hne]; simpl.
    + destruct (String.eqb k k0); reflexivity.
    + rewrite IH. destruct (String.eqb_spec k k0) as [-> | Hne'].
      * destruct (String.eqb_spec k0 k') as [E | _]; [| reflexivity].
        now elim Hne.
      * reflexivity.
Qed.

Lemma get_app (k : string) (a b : Py.dict string) :
  Py.get k (a ++ b)%list
  = match Py.get k a with Some v => Some v | None => Py.get k b end.
Proof.
  induction a as [| [k0 v0] tl IH]; simpl; [reflexivity |].
  destruct (String.eqb k k0); [reflexivity | exact IH].
Qed.

Lemma get_rev_None (k : string) (d : Py.dict string) :
  Py.get k d = None -> Py.get k (rev d) = None.
Proof.
  induction d as [| [k0 v0] tl IH]; simpl; [reflexivity |].
  destruct (String.eqb k k0) eqn:E; [discriminate |].
  intros H. rewrite get_app, (IH H). simpl. now rewrite E.
Qed.

(** A name looked up in the loaded object has its last value in the file. *)
Lemma get_json_load (k : string) (members : list (string * string)) :
  Py.get k (json_load members) = Py.get k (rev members).
Proof.
  unfold json_load.
  assert (H : forall d,
             Py.get k (fold_left (fun d kv => Py.set (fst kv) (snd kv) d)
                         members d)
             = match Py.get k (rev members) with
               | Some v => Some v
               | None => Py.get k d
               end).
  { induction members as [| [k0 v0] tl IH]; intros d; simpl; [reflexivity |].
    rewrite IH, get_app, get_set. simpl.
    destruct (Py.get k (rev tl)); [reflexivity |].
    destruct (String.eqb k k0); reflexivity. }
  rewrite H. simpl. destruct (Py.get k (rev members)); reflexivity.
Qed.

Lemma context_of_members (ENV : string) (members : list (string * string))
      (c : Config) :
  In ENV VALID_ENVS ->
  Py.get "catalog" (rev members) = Some (CATALOG c) ->
  Py.get "extract_schema" (rev members) = Some (EXTRACT_SCHEMA c) ->
  Py.get "refined_schema" (rev members) = Some (REFINED_SCHEMA c) ->
  Py.get "views_schema" (rev members) = Some (VIEWS_SCHEMA c) ->
  Py.get "source_catalog" (rev members) = Some (SOURCE_CATALOG c) ->
  Py.get "source_schema" (rev members) = Some (SOURCE_SCHEMA c) ->
  context ENV (Some members) = inr c.
Proof.
  intros Hvalid H1 H2 H3 H4 H5 H6. unfold context.
  rewrite (proj2 (valid_env ENV) Hvalid). cbv zeta. unfold subscript.
  rewrite !get_json_load, H1, H2, H3, H4, H5, H6. cbn [bind].
  destruct c. reflexivity.
Qed.

(** X20. With a config file the six variables are read from it by key, a
    key that the file repeats counting with its last value, as json.load
    has it: the arguments a pipeline hands to its child notebooks, written
    back as a config file, give the same context again when the further
    members of the file repeat none of the six keys, or when the six come
    last in the file; and a file that lacks the key [catalog] stops the
    notebook with KeyError('catalog') instead of falling back to the
    defaults. *)
Theorem context_reads_the_config_file_by_key
        (ENV : string) (Hvalid : In ENV VALID_ENVS) :
  (forall c other,
      (forall k, In k (Py.keys (COMMON_ARGS c)) -> Py.get k other = None) ->
      context ENV (Some (COMMON_ARGS c ++ other)%list) = inr c)
  /\ (forall c other,
         context ENV (Some (other ++ COMMON_ARGS c)%list) = inr c)
  /\ (forall members,
         Py.get "catalog" members = None ->
         context ENV (Some members) = inl (KeyError "catalog")).
Proof.
  split; [| split].
  - intros c other Hother.
    assert (Hnone : forall k, In k (Py.keys (COMMON_ARGS c)) ->
                              Py.get k (rev other) = None).
    { intros k Hk. apply get_rev_None. now apply Hother. }
    apply context_of_members; [exact Hvalid | | | | | |];
      rewrite rev_app_distr, get_app, Hnone;
      try reflexivity; simpl; tauto.
  - intros c other.
    apply context_of_members; [exact Hvalid | | | | | |];
      rewrite rev_app_distr, get_app; reflexivity.
  - intros members Hnone. unfold context.
    rewrite (proj2 (valid_env ENV) Hvalid). cbv zeta.
    unfold subscript at 1.
    rewrite get_json_load, (get_rev_None _ _ Hnone). reflexivity.
Qed.

Lemma context_reads_the_config_file_by_key_witness :
  context "prod" (Some (COMMON_ARGS sample_config ++ [("owner", "data")])%list)
  = inr sample_config
  /\ context "prod"
       (Some ([("catalog", "old")] ++ COMMON_ARGS sample_config)%list)
     = inr sample_config
  /\ context "prod" (Some [("extract_schema", "raw")])
     = inl (KeyError "catalog").
Proof.
  assert (Hvalid : In "prod" VALID_ENVS) by (simpl; tauto).
  destruct (@context_reads_the_config_file_by_key "prod" Hvalid)
    as [H1 [H2 H3]].
  split; [| split].
  - apply (H1 sample_config [("owner", "data")]).
    intros k Hk. simpl in Hk.
    destruct Hk as [<- | [<- | [<- | [<- | [<- | [<- | []]]]]]];
      reflexivity.
  - exact (H2 sample_config [("catalog", "old")]).
  - apply H3. reflexivity.
Defined.

End ContextFacts.
